(** * gin-boilerplate: token lifecycle and identity resolution

    A shallow embedding of the authentication core (entities, password and
    token services, the PostgreSQL repositories, the register, login,
    refresh, logout, Google-login and user-administration use cases, and
    the auth and role middlewares), followed by the properties proved
    about it.

    Conventions.
    - A Go function returning [(T, error)] returns [result T]; one
      returning only [error] returns [result unit].
    - Everything that touches the database, the wall clock or the random
      source runs in the monad [M] over the [World]. One call of a use
      case is taken at one reading of the clock; the clock moves between
      calls.
    - The libraries the code calls (strings, unicode, time, uuid, gorm,
      golang-jwt/v5, x/crypto/bcrypt) are modelled by the behaviour their
      documentation and sources give; a string is its bytes, text in UTF-8;
      MACs and password digests are symbolic terms. *)

From Stdlib Require Import String Ascii List ZArith Bool Lia.
From Stdlib Require Import DecimalString.
Import ListNotations.

Local Open Scope string_scope.
Local Open Scope Z_scope.

(* ================================================================== *)
(** ** Go runtime: strings, errors, time *)
(* ================================================================== *)

Module Go.

(** [len(s)]: the number of bytes of a string. *)
Definition len (s : string) : Z := Z.of_nat (String.length s).

(** Bytes as numbers. *)
Definition byte (c : ascii) : Z := Z.of_nat (nat_of_ascii c).
Definition chr (b : Z) : ascii := ascii_of_nat (Z.to_nat b).
Definition between (lo hi b : Z) : bool := (lo <=? b) && (b <=? hi).

(** *** unicode/utf8 *)

Definition utf8_RuneError : Z := 65533.
Definition utf8_RuneSelf : Z := 128.
Definition utf8_MaxRune : Z := 1114111.

(** [utf8.DecodeRuneInString]: the rune the string begins with and its
    width in bytes; [(RuneError, 0)] for the empty string and
    [(RuneError, 1)] where the bytes are no shortest-form encoding of a
    Unicode scalar value. *)
Definition utf8_DecodeRuneInString (s : string) : Z * nat :=
  match s with
  | EmptyString => (utf8_RuneError, 0%nat)
  | String c0 s1 =>
      let b0 := byte c0 in
      if b0 <? utf8_RuneSelf then (b0, 1%nat)
      else if between 194 223 b0 then
        match s1 with
        | String c1 _ =>
            let b1 := byte c1 in
            if between 128 191 b1
            then ((b0 - 192) * 64 + (b1 - 128), 2%nat)
            else (utf8_RuneError, 1%nat)
        | _ => (utf8_RuneError, 1%nat)
        end
      else if between 224 239 b0 then
        match s1 with
        | String c1 (String c2 _) =>
            let b1 := byte c1 in
            let b2 := byte c2 in
            if between (if b0 =? 224 then 160 else 128) (if b0 =? 237 then 159 else 191) b1
               && between 128 191 b2
            then ((b0 - 224) * 4096 + (b1 - 128) * 64 + (b2 - 128), 3%nat)
            else (utf8_RuneError, 1%nat)
        | _ => (utf8_RuneError, 1%nat)
        end
      else if between 240 244 b0 then
        match s1 with
        | String c1 (String c2 (String c3 _)) =>
            let b1 := byte c1 in
            let b2 := byte c2 in
            let b3 := byte c3 in
            if between (if b0 =? 240 then 144 else 128) (if b0 =? 244 then 143 else 191) b1
               && between 128 191 b2 && between 128 191 b3
            then ((b0 - 240) * 262144 + (b1 - 128) * 4096 + (b2 - 128) * 64 + (b3 - 128),
                  4%nat)
            else (utf8_RuneError, 1%nat)
        | _ => (utf8_RuneError, 1%nat)
        end
      else (utf8_RuneError, 1%nat)
  end.

(** [utf8.AppendRune]: the encoding of a rune; what is no scalar value is
    written as [RuneError]. *)
Definition utf8_AppendRune (r : Z) : string :=
  let r := if (r <? 0) || (utf8_MaxRune <? r) || between 55296 57343 r
           then utf8_RuneError else r in
  if r <? 128 then String (chr r) EmptyString
  else if r <? 2048 then
    String (chr (192 + r / 64)) (String (chr (128 + r mod 64)) EmptyString)
  else if r <? 65536 then
    String (chr (224 + r / 4096))
      (String (chr (128 + (r / 64) mod 64)) (String (chr (128 + r mod 64)) EmptyString))
  else
    String (chr (240 + r / 262144))
      (String (chr (128 + (r / 4096) mod 64))
         (String (chr (128 + (r / 64) mod 64))
            (String (chr (128 + r mod 64)) EmptyString))).

(** The runes of [for _, c := range s]: an invalid byte counts as one
    [RuneError]. [skip] bytes belong to the rune before. *)
Fixpoint runes_from (skip : nat) (s : string) : list Z :=
  match s with
  | EmptyString => []
  | String _ rest =>
      match skip with
      | S k => runes_from k rest
      | O =>
          let (r, width) := utf8_DecodeRuneInString s in
          r :: runes_from (Nat.pred width) rest
      end
  end.

Definition runes (s : string) : list Z := runes_from 0 s.

(** *** unicode *)

(** [unicode.IsSpace]: the Latin-1 white space and the other characters
    with the property White_Space. *)
Definition unicode_IsSpace (r : Z) : bool :=
  if between 0 255 r then
    between 9 13 r || (r =? 32) || (r =? 133) || (r =? 160)
  else
    (r =? 5760) || between 8192 8202 r || (r =? 8232) || (r =? 8233) ||
    (r =? 8239) || (r =? 8287) || (r =? 12288).

(** The lower-case column of [unicode.CaseRanges] (Unicode 15.0.0, the
    simple lower-case mappings of the character database) above ASCII:
    every code point from [lo] to [hi] moves by [delta]; in an
    [UpperLower] range upper and lower case alternate, starting with an
    upper-case letter. Ranges in which lower case is the identity are left
    out. *)
Definition UpperLower : Z := utf8_MaxRune + 1.

Definition caseRanges_lower : list (Z * Z * Z) :=
  [(192, 214, 32); (216, 222, 32); (256, 303, UpperLower);
   (304, 304, (-199)); (306, 311, UpperLower); (313, 328, UpperLower);
   (330, 375, UpperLower); (376, 376, (-121)); (377, 382, UpperLower);
   (385, 385, 210); (386, 389, UpperLower); (390, 390, 206); (391, 391, 1);
   (393, 394, 205); (395, 395, 1); (398, 398, 79); (399, 399, 202);
   (400, 400, 203); (401, 401, 1); (403, 403, 205); (404, 404, 207);
   (406, 406, 211); (407, 407, 209); (408, 408, 1); (412, 412, 211);
   (413, 413, 213); (415, 415, 214); (416, 421, UpperLower); (422, 422, 218);
   (423, 423, 1); (425, 425, 218); (428, 428, 1); (430, 430, 218);
   (431, 431, 1); (433, 434, 217); (435, 438, UpperLower); (439, 439, 219);
   (440, 440, 1); (444, 444, 1); (452, 452, 2); (453, 453, 1); (455, 455, 2);
   (456, 456, 1); (458, 458, 2); (459, 476, UpperLower);
   (478, 495, UpperLower); (497, 497, 2); (498, 501, UpperLower);
   (502, 502, (-97)); (503, 503, (-56)); (504, 543, UpperLower);
   (544, 544, (-130)); (546, 563, UpperLower); (570, 570, 10795);
   (571, 571, 1); (573, 573, (-163)); (574, 574, 10792); (577, 577, 1);
   (579, 579, (-195)); (580, 580, 69); (581, 581, 71);
   (582, 591, UpperLower); (880, 883, UpperLower); (886, 886, 1);
   (895, 895, 116); (902, 902, 38); (904, 906, 37); (908, 908, 64);
   (910, 911, 63); (913, 929, 32); (931, 939, 32); (975, 975, 8);
   (984, 1007, UpperLower); (1012, 1012, (-60)); (1015, 1015, 1);
   (1017, 1017, (-7)); (1018, 1018, 1); (1021, 1023, (-130));
   (1024, 1039, 80); (1040, 1071, 32); (1120, 1153, UpperLower);
   (1162, 1215, UpperLower); (1216, 1216, 15); (1217, 1230, UpperLower);
   (1232, 1327, UpperLower); (1329, 1366, 48); (4256, 4293, 7264);
   (4295, 4295, 7264); (4301, 4301, 7264); (5024, 5103, 38864);
   (5104, 5109, 8); (7312, 7354, (-3008)); (7357, 7359, (-3008));
   (7680, 7829, UpperLower); (7838, 7838, (-7615)); (7840, 7935, UpperLower);
   (7944, 7951, (-8)); (7960, 7965, (-8)); (7976, 7983, (-8));
   (7992, 7999, (-8)); (8008, 8013, (-8)); (8025, 8025, (-8));
   (8027, 8027, (-8)); (8029, 8029, (-8)); (8031, 8031, (-8));
   (8040, 8047, (-8)); (8072, 8079, (-8)); (8088, 8095, (-8));
   (8104, 8111, (-8)); (8120, 8121, (-8)); (8122, 8123, (-74));
   (8124, 8124, (-9)); (8136, 8139, (-86)); (8140, 8140, (-9));
   (8152, 8153, (-8)); (8154, 8155, (-100)); (8168, 8169, (-8));
   (8170, 8171, (-112)); (8172, 8172, (-7)); (8184, 8185, (-128));
   (8186, 8187, (-126)); (8188, 8188, (-9)); (8486, 8486, (-7517));
   (8490, 8490, (-8383)); (8491, 8491, (-8262)); (8498, 8498, 28);
   (8544, 8559, 16); (8579, 8579, 1); (9398, 9423, 26); (11264, 11311, 48);
   (11360, 11360, 1); (11362, 11362, (-10743)); (11363, 11363, (-3814));
   (11364, 11364, (-10727)); (11367, 11372, UpperLower);
   (11373, 11373, (-10780)); (11374, 11374, (-10749));
   (11375, 11375, (-10783)); (11376, 11376, (-10782)); (11378, 11378, 1);
   (11381, 11381, 1); (11390, 11391, (-10815)); (11392, 11491, UpperLower);
   (11499, 11502, UpperLower); (11506, 11506, 1); (42560, 42605, UpperLower);
   (42624, 42651, UpperLower); (42786, 42799, UpperLower);
   (42802, 42863, UpperLower); (42873, 42876, UpperLower);
   (42877, 42877, (-35332)); (42878, 42887, UpperLower); (42891, 42891, 1);
   (42893, 42893, (-42280)); (42896, 42899, UpperLower);
   (42902, 42921, UpperLower); (42922, 42922, (-42308));
   (42923, 42923, (-42319)); (42924, 42924, (-42315));
   (42925, 42925, (-42305)); (42926, 42926, (-42308));
   (42928, 42928, (-42258)); (42929, 42929, (-42282));
   (42930, 42930, (-42261)); (42931, 42931, 928); (42932, 42947, UpperLower);
   (42948, 42948, (-48)); (42949, 42949, (-42307)); (42950, 42950, (-35384));
   (42951, 42954, UpperLower); (42960, 42960, 1); (42966, 42969, UpperLower);
   (42997, 42997, 1); (65313, 65338, 32); (66560, 66599, 40);
   (66736, 66771, 40); (66928, 66938, 39); (66940, 66954, 39);
   (66956, 66962, 39); (66964, 66965, 39); (68736, 68786, 64);
   (71840, 71871, 32); (93760, 93791, 32); (125184, 125217, 34)].

(** [unicode.ToLower] *)
Definition unicode_ToLower (r : Z) : Z :=
  if r <=? 127 then
    if between 65 90 r then r + 32 else r
  else
    match find (fun cr => let '(lo, hi, _) := cr in between lo hi r) caseRanges_lower with
    | Some (lo, _, delta) =>
        if utf8_MaxRune <? delta then lo + Z.lor (Z.ldiff (r - lo) 1) 1
        else r + delta
    | None => r
    end.

(** *** strings *)

Definition is_upper (c : ascii) : bool := between 65 90 (byte c).

Definition to_lower (c : ascii) : ascii :=
  if is_upper c then ascii_of_nat (nat_of_ascii c + 32) else c.

(** The loops of the ASCII path of [strings.ToLower]. *)
Fixpoint isASCII (s : string) : bool :=
  match s with
  | EmptyString => true
  | String c r => (byte c <? utf8_RuneSelf) && isASCII r
  end.

Fixpoint hasUpper (s : string) : bool :=
  match s with
  | EmptyString => false
  | String c r => is_upper c || hasUpper r
  end.

Fixpoint lower_bytes (s : string) : string :=
  match s with
  | EmptyString => EmptyString
  | String c r => String (to_lower c) (lower_bytes r)
  end.

(** [strings.Map]: every rune of the string is replaced by its image,
    and dropped when the image is negative; an invalid byte is read as
    [RuneError] and so written as U+FFFD. *)
Definition strings_Map (mapping : Z -> Z) (s : string) : string :=
  fold_right
    (fun c acc => let r := mapping c in
                  if 0 <=? r then (utf8_AppendRune r ++ acc)%string else acc)
    EmptyString (runes s).

(** [strings.ToLower]: a string of ASCII bytes has its letters A to Z
    moved; any other string is mapped rune by rune with
    [unicode.ToLower]. *)
Definition strings_ToLower (s : string) : string :=
  if isASCII s then
    if hasUpper s then lower_bytes s else s
  else strings_Map unicode_ToLower s.

(** [strings.TrimLeftFunc(s, unicode.IsSpace)]: the string without the
    white space runes it begins with. *)
Fixpoint trim_left_from (skip : nat) (s : string) : string :=
  match s with
  | EmptyString => EmptyString
  | String _ rest =>
      match skip with
      | S k => trim_left_from k rest
      | O =>
          let (r, width) := utf8_DecodeRuneInString s in
          if unicode_IsSpace r then trim_left_from (Nat.pred width) rest else s
      end
  end.

Definition trim_left (s : string) : string := trim_left_from 0 s.

(** The string is a sequence of white space runes. *)
Definition all_space (s : string) : bool :=
  match trim_left s with
  | EmptyString => true
  | _ => false
  end.

(** [strings.TrimRightFunc(s, unicode.IsSpace)]: the string without the
    white space runes it ends with. Go decodes backwards from the end
    ([utf8.DecodeLastRuneInString]); a white space rune is found there
    exactly when the bytes end with its encoding, so what goes is the
    longest suffix that is a sequence of white space runes. *)
Fixpoint trim_right (s : string) : string :=
  match s with
  | EmptyString => EmptyString
  | String c r => if all_space s then EmptyString else String c (trim_right r)
  end.

(** [strings.TrimSpace]: leading and trailing white space removed, as
    defined by Unicode. *)
Definition strings_TrimSpace (s : string) : string := trim_right (trim_left s).

(** [strings.Contains(s, substr)] *)
Fixpoint strings_Contains (s substr : string) : bool :=
  String.prefix substr s ||
  match s with
  | EmptyString => false
  | String _ r => strings_Contains r substr
  end.

(** Go errors: [errors.New(msg)] (and [fmt.Errorf] without a wrapped
    cause), and [fmt.Errorf("msg: %w", cause)]. *)
Inductive error : Type :=
| errors_New (msg : string)
| fmt_Errorf (msg : string) (cause : error).

(** [err.Error()] *)
Fixpoint Error (e : error) : string :=
  match e with
  | errors_New msg => msg
  | fmt_Errorf msg cause => msg ++ ": " ++ Error cause
  end.

Inductive result (A : Type) : Type :=
| Ok (a : A)
| Err (e : error).
Arguments Ok {A} a.
Arguments Err {A} e.

Definition is_ok {A} (r : result A) : bool :=
  match r with Ok _ => true | Err _ => false end.

(** [time.Time] as nanoseconds since the Unix epoch, [time.Duration] as
    nanoseconds. *)
Definition Time := Z.
Definition Duration := Z.

Definition time_Second : Duration := 1000000000.
Definition time_Hour : Duration := 3600 * time_Second.

(** The zero [time.Time] (January 1, year 1, 00:00 UTC). *)
Definition time_zero : Time := -62135596800 * time_Second.
Definition IsZero (t : Time) : bool := t =? time_zero.

Definition Add (t : Time) (d : Duration) : Time := t + d.
Definition Before (t u : Time) : bool := t <? u.
Definition After (t u : Time) : bool := u <? t.

(** [int64(d.Seconds())] *)
Definition Seconds (d : Duration) : Z := Z.quot d time_Second.

End Go.
Export Go.

(* ================================================================== *)
(** ** golang-jwt/v5: compact tokens *)
(* ================================================================== *)

Module Jwt.

(** [jwt.NumericDate]: a time truncated to [jwt.TimePrecision], one
    second; kept as whole seconds since the epoch. *)
Definition NumericDate := Z.
Definition NewNumericDate (t : Time) : NumericDate := t / time_Second.
Definition NumericDate_Time (d : NumericDate) : Time := d * time_Second.

(** [jwt.RegisteredClaims], the fields the service sets. *)
Record RegisteredClaims := {
  ExpiresAt : option NumericDate;
  NotBefore : option NumericDate;
  IssuedAt : option NumericDate;
  Subject : string
}.

(** The signing methods golang-jwt registers. *)
Inductive SigningMethod :=
| SigningMethodHMAC (name : string)
| SigningMethodRSA (name : string)
| SigningMethodRSAPSS (name : string)
| SigningMethodECDSA (name : string)
| SigningMethodEd25519
| SigningMethodNone.

(** [jwt.GetSigningMethod(alg)]; [None] is Go's nil. *)
Definition GetSigningMethod (alg : string) : option SigningMethod :=
  if existsb (String.eqb alg) ["HS256"; "HS384"; "HS512"] then Some (SigningMethodHMAC alg)
  else if existsb (String.eqb alg) ["RS256"; "RS384"; "RS512"] then Some (SigningMethodRSA alg)
  else if existsb (String.eqb alg) ["PS256"; "PS384"; "PS512"] then Some (SigningMethodRSAPSS alg)
  else if existsb (String.eqb alg) ["ES256"; "ES384"; "ES512"] then Some (SigningMethodECDSA alg)
  else if (alg =? "EdDSA")%string then Some SigningMethodEd25519
  else if (alg =? "none")%string then Some SigningMethodNone
  else None.

Definition isHMAC (m : SigningMethod) : bool :=
  match m with SigningMethodHMAC _ => true | _ => false end.


Definition ErrTokenMalformed := errors_New "token is malformed".
Definition ErrTokenUnverifiable := errors_New "token is unverifiable".
Definition ErrTokenSignatureInvalid := errors_New "token signature is invalid".
Definition ErrTokenInvalidClaims := errors_New "token has invalid claims".
Definition ErrTokenExpired := errors_New "token is expired".
Definition ErrTokenNotValidYet := errors_New "token is not valid yet".

Section Parser.

(** The claims type of the caller, its embedded registered claims, and
    equality of claims (of their JSON encodings). *)
Context {C : Type} (registered : C -> RegisteredClaims) (claims_eqb : C -> C -> bool).

(** The third segment of a compact token.  [HMAC alg key claims] is the
    MAC that method [alg] computes with [key] over the first two segments
    (a header naming [alg], and [claims]); any other byte string is
    [NotMAC]. MACs are symbolic: two of them agree only when method, key
    and signed content agree. *)
Inductive Signature :=
| HMAC (alg : string) (key : string) (claims : C)
| NotMAC (raw : string).

(** A token string, decoded: either text that is not three base64url
    segments carrying a JSON header and JSON claims, or the header's
    [alg] entry ([None] when absent or not a string), the claims and the
    signature segment. *)
Inductive TokenString :=
| Malformed (raw : string)
| Compact (alg : option string) (claims : C) (sig : Signature).

(** [jwt.Token] after parsing. *)
Record Token := {
  Method : SigningMethod;
  Header_alg : string;
  Claims : C;
  Valid : bool
}.

(** [token.SignedString(key)] for [jwt.NewWithClaims(method, claims)] and
    a [[]byte] key; only HMAC methods accept such a key. *)
Definition SignedString (method : SigningMethod) (claims : C) (key : string)
  : result TokenString :=
  match method with
  | SigningMethodHMAC alg => Ok (Compact (Some alg) claims (HMAC alg key claims))
  | _ => Err (errors_New "key is of invalid type")
  end.

(** [method.Verify(signingString, sig, key)] for a [[]byte] key. *)
Definition Verify (method : SigningMethod) (key : string) (claims : C)
  (sig : Signature) : bool :=
  match method, sig with
  | SigningMethodHMAC alg, HMAC alg' key' claims' =>
      (alg =? alg')%string && (key =? key')%string && claims_eqb claims claims'
  | _, _ => false
  end.

(** The default [jwt.Validator]: [exp] and [nbf] when present, without
    leeway; [iat] is not checked by default. *)
Definition Validate (now : Time) (rc : RegisteredClaims) : option error :=
  let expired :=
    match ExpiresAt rc with
    | Some exp => negb (Before now (NumericDate_Time exp))
    | None => false
    end in
  let early :=
    match NotBefore rc with
    | Some nbf => Before now (NumericDate_Time nbf)
    | None => false
    end in
  if expired then Some (fmt_Errorf (Error ErrTokenInvalidClaims) ErrTokenExpired)
  else if early then Some (fmt_Errorf (Error ErrTokenInvalidClaims) ErrTokenNotValidYet)
  else None.

(** [jwt.ParseWithClaims(tokenString, claims, keyFunc)] at time [now]:
    decode, look the method up, ask [keyFunc] for the key, verify the
    signature, then validate the registered claims. *)
Definition ParseWithClaims (now : Time) (tokenString : TokenString)
  (keyFunc : Token -> result string) : result Token :=
  match tokenString with
  | Malformed _ => Err ErrTokenMalformed
  | Compact None _ _ =>
      Err (fmt_Errorf (Error ErrTokenUnverifiable)
             (errors_New "signing method (alg) is unspecified"))
  | Compact (Some alg) claims sig =>
      match GetSigningMethod alg with
      | None =>
          Err (fmt_Errorf (Error ErrTokenUnverifiable)
                 (errors_New "signing method (alg) is unavailable"))
      | Some method =>
          let token :=
            {| Method := method; Header_alg := alg; Claims := claims; Valid := false |} in
          match keyFunc token with
          | Err e =>
              Err (fmt_Errorf (Error ErrTokenUnverifiable)
                     (fmt_Errorf "error while executing keyfunc" e))
          | Ok key =>
              if negb (Verify method key claims sig) then Err ErrTokenSignatureInvalid
              else
                match Validate now (registered claims) with
                | Some e => Err e
                | None =>
                    Ok {| Method := method; Header_alg := alg; Claims := claims;
                          Valid := true |}
                end
          end
      end
  end.

End Parser.
End Jwt.
Export Jwt.

(* ================================================================== *)
(** ** golang.org/x/crypto/bcrypt *)
(* ================================================================== *)

Module Bcrypt.

Definition MinCost : Z := 4.
Definition MaxCost : Z := 31.
Definition DefaultCost : Z := 10.

Definition ErrMismatchedHashAndPassword :=
  errors_New "crypto/bcrypt: hashedPassword is not the hash of the given password".
Definition ErrHashTooShort :=
  errors_New "crypto/bcrypt: hashedSecret too short to be a bcrypted password".
Definition ErrPasswordTooLong :=
  errors_New "bcrypt: password length exceeds 72 bytes".
Definition InvalidCostError (cost : Z) :=
  errors_New ("crypto/bcrypt: cost " ++ NilEmpty.string_of_int (Z.to_int cost)
              ++ " is outside allowed inclusive range 4..31").

(** [n] bytes read from [key] cyclically, continuing at [cur]. *)
Fixpoint cycle (n : nat) (key cur : string) : string :=
  match n with
  | O => EmptyString
  | S m =>
      match cur with
      | String c r => String c (cycle m key r)
      | EmptyString =>
          match key with
          | String c r => String c (cycle m key r)
          | EmptyString => EmptyString
          end
      end
  end.

(** What the digest depends on besides cost and salt: the Blowfish key
    schedule reads the password with a trailing NUL, cyclically, for 72
    bytes. *)
Definition key_material (password : string) : string :=
  let ckey := password ++ String zero EmptyString in
  cycle 72 ckey ckey.

(** The text of a password column, decoded: a bcrypt hash
    "$2a$<cost>$<salt><digest>", whose digest is the symbolic digest of
    [key] under [cost] and [salt], or any other text. *)
Inductive Hashed :=
| NotBcrypt (raw : string)
| Bcrypted (cost : Z) (salt : nat) (key : string).

Definition checkCost (cost : Z) : option error :=
  if (cost <? MinCost) || (MaxCost <? cost) then Some (InvalidCostError cost) else None.

(** [bcrypt.GenerateFromPassword(password, cost)], with the 16 salt bytes
    read from the random source given as [salt]. *)
Definition GenerateFromPassword (password : string) (cost : Z) (salt : nat)
  : result Hashed :=
  if 72 <? len password then Err ErrPasswordTooLong
  else
    let cost := if cost <? MinCost then DefaultCost else cost in
    match checkCost cost with
    | Some e => Err e
    | None => Ok (Bcrypted cost salt (key_material password))
    end.

(** [bcrypt.CompareHashAndPassword(hashedPassword, password)]; [None] is
    nil. *)
Definition CompareHashAndPassword (hashedPassword : Hashed) (password : string)
  : option error :=
  match hashedPassword with
  | NotBcrypt _ => Some ErrHashTooShort
  | Bcrypted cost salt key =>
      match checkCost cost with
      | Some e => Some e
      | None =>
          if (key =? key_material password)%string then None
          else Some ErrMismatchedHashAndPassword
      end
  end.

End Bcrypt.

(* ================================================================== *)
(** ** Data model *)
(* ================================================================== *)

(** *** service: token claims *)

Definition TokenType := string.
Definition TokenTypeAccess : TokenType := "access".
Definition TokenTypeRefresh : TokenType := "refresh".

Record TokenClaims := {
  Claims_UserID : string;
  Claims_Email : string;
  Claims_Role : string;
  Claims_TokenType : TokenType;
  Claims_Registered : Jwt.RegisteredClaims
}.

(** A token string carrying [TokenClaims]. *)
Definition TokenString := @Jwt.TokenString TokenClaims.

(** *** entity *)

Definition Role := string.
Definition RoleUser : Role := "USER".
Definition RoleAdmin : Role := "ADMIN".

Definition Provider := string.
Definition ProviderLocal : Provider := "LOCAL".
Definition ProviderGoogle : Provider := "GOOGLE".

Record User := {
  User_ID : string;
  User_Email : string;
  User_Password : option Bcrypt.Hashed;
  User_Name : string;
  User_Role : Role;
  User_Provider : Provider;
  User_ProviderID : option string;
  User_Avatar : option string;
  User_EmailVerified : bool;
  User_CreatedAt : Time;
  User_UpdatedAt : Time
}.

Record Token := {
  Token_ID : string;
  Token_UserID : string;
  Token_RefreshToken : TokenString;
  Token_ExpiresAt : Time;
  Token_CreatedAt : Time;
  Token_UpdatedAt : Time
}.

(** *** The world the use cases run in *)

Record World := {
  users : list User;      (* table "users" *)
  tokens : list Token;    (* table "tokens" *)
  clock : Time;           (* what time.Now() reads *)
  entropy : nat;          (* position in the random source *)
  faults : list bool      (* per coming SQL statement: does the driver fail? *)
}.

Definition set_users (us : list User) (w : World) : World :=
  {| users := us; tokens := tokens w; clock := clock w; entropy := entropy w;
     faults := faults w |}.
Definition set_tokens (ts : list Token) (w : World) : World :=
  {| users := users w; tokens := ts; clock := clock w; entropy := entropy w;
     faults := faults w |}.
Definition set_clock (t : Time) (w : World) : World :=
  {| users := users w; tokens := tokens w; clock := t; entropy := entropy w;
     faults := faults w |}.
Definition set_entropy (n : nat) (w : World) : World :=
  {| users := users w; tokens := tokens w; clock := clock w; entropy := n;
     faults := faults w |}.
Definition set_faults (fs : list bool) (w : World) : World :=
  {| users := users w; tokens := tokens w; clock := clock w; entropy := entropy w;
     faults := fs |}.

(** *** The monad of effectful code: a result and the world afterwards *)

Definition M (A : Type) : Type := World -> result A * World.

Definition ret {A} (a : A) : M A := fun w => (Ok a, w).
Definition fail {A} (e : error) : M A := fun w => (Err e, w).
Definition bind {A B} (m : M A) (k : A -> M B) : M B :=
  fun w =>
    match m w with
    | (Ok a, w') => k a w'
    | (Err e, w') => (Err e, w')
    end.

(** [if err != nil { return nil, fmt.Errorf("msg: %w", err) }] *)
Definition wrap {A} (msg : string) (m : M A) : M A :=
  fun w =>
    match m w with
    | (Ok a, w') => (Ok a, w')
    | (Err e, w') => (Err (fmt_Errorf msg e), w')
    end.

(** [if err := m; err != nil { }] with an empty body: the error is dropped. *)
Definition ignore_error (m : M unit) : M unit :=
  fun w => (Ok tt, snd (m w)).

Definition lift {A} (r : result A) : M A := fun w => (r, w).
Definition gets {A} (f : World -> A) : M A := fun w => (Ok (f w), w).
Definition modify (f : World -> World) : M unit := fun w => (Ok tt, f w).

Declare Scope go_scope.
Delimit Scope go_scope with go.
Notation "x <- m ;; k" := (bind m (fun x => k))
  (at level 61, m at next level, right associativity) : go_scope.
Notation "m ;;; k" := (bind m (fun _ => k))
  (at level 61, right associativity) : go_scope.
Notation "x <- m 'or' msg ;; k" := (bind (wrap msg m) (fun x => k))
  (at level 61, m at next level, msg at next level, right associativity) : go_scope.
Local Open Scope go_scope.

(** [time.Now()] *)
Definition time_Now : M Time := gets clock.

(** The next value of the random source. *)
Definition rand_Read : M nat :=
  fun w => (Ok (entropy w), set_entropy (S (entropy w)) w).

(** The text of a random (version 4) UUID; the [n]-th value of the random
    source gives the [n]-th identifier. *)
Definition uuid_text (n : nat) : string :=
  "uuid-" ++ NilEmpty.string_of_uint (Nat.to_uint n).

(** [uuid.New().String()] *)
Definition uuid_New : M string := n <- rand_Read ;; ret (uuid_text n).

(* ================================================================== *)
(** ** Decidable equality of the data *)
(* ================================================================== *)

Definition option_eq_dec {A} (dec : forall a b : A, {a = b} + {a <> b})
  (x y : option A) : {x = y} + {x <> y}.
Proof. decide equality. Defined.

Definition RegisteredClaims_eq_dec (x y : Jwt.RegisteredClaims) : {x = y} + {x <> y}.
Proof.
  decide equality;
    try apply string_dec; apply (option_eq_dec Z.eq_dec).
Defined.

Definition TokenClaims_eq_dec (x y : TokenClaims) : {x = y} + {x <> y}.
Proof.
  decide equality; try apply string_dec; apply RegisteredClaims_eq_dec.
Defined.

Definition Signature_eq_dec (x y : @Jwt.Signature TokenClaims) : {x = y} + {x <> y}.
Proof.
  decide equality; try apply string_dec; apply TokenClaims_eq_dec.
Defined.

Definition TokenString_eq_dec (x y : TokenString) : {x = y} + {x <> y}.
Proof.
  decide equality;
    try apply string_dec; try apply TokenClaims_eq_dec;
    try apply Signature_eq_dec; apply (option_eq_dec string_dec).
Defined.

Definition TokenClaims_eqb (x y : TokenClaims) : bool :=
  if TokenClaims_eq_dec x y then true else false.

Definition TokenString_eqb (x y : TokenString) : bool :=
  if TokenString_eq_dec x y then true else false.

(* ================================================================== *)
(** ** entity *)
(* ================================================================== *)

Definition set_User_Password (p : option Bcrypt.Hashed) (u : User) : User :=
  {| User_ID := User_ID u; User_Email := User_Email u; User_Password := p;
     User_Name := User_Name u; User_Role := User_Role u;
     User_Provider := User_Provider u; User_ProviderID := User_ProviderID u;
     User_Avatar := User_Avatar u; User_EmailVerified := User_EmailVerified u;
     User_CreatedAt := User_CreatedAt u; User_UpdatedAt := User_UpdatedAt u |}.

Definition set_User_Provider (p : Provider) (u : User) : User :=
  {| User_ID := User_ID u; User_Email := User_Email u; User_Password := User_Password u;
     User_Name := User_Name u; User_Role := User_Role u;
     User_Provider := p; User_ProviderID := User_ProviderID u;
     User_Avatar := User_Avatar u; User_EmailVerified := User_EmailVerified u;
     User_CreatedAt := User_CreatedAt u; User_UpdatedAt := User_UpdatedAt u |}.

Definition set_User_ProviderID (p : option string) (u : User) : User :=
  {| User_ID := User_ID u; User_Email := User_Email u; User_Password := User_Password u;
     User_Name := User_Name u; User_Role := User_Role u;
     User_Provider := User_Provider u; User_ProviderID := p;
     User_Avatar := User_Avatar u; User_EmailVerified := User_EmailVerified u;
     User_CreatedAt := User_CreatedAt u; User_UpdatedAt := User_UpdatedAt u |}.

Definition set_User_Avatar (a : option string) (u : User) : User :=
  {| User_ID := User_ID u; User_Email := User_Email u; User_Password := User_Password u;
     User_Name := User_Name u; User_Role := User_Role u;
     User_Provider := User_Provider u; User_ProviderID := User_ProviderID u;
     User_Avatar := a; User_EmailVerified := User_EmailVerified u;
     User_CreatedAt := User_CreatedAt u; User_UpdatedAt := User_UpdatedAt u |}.

Definition set_User_EmailVerified (b : bool) (u : User) : User :=
  {| User_ID := User_ID u; User_Email := User_Email u; User_Password := User_Password u;
     User_Name := User_Name u; User_Role := User_Role u;
     User_Provider := User_Provider u; User_ProviderID := User_ProviderID u;
     User_Avatar := User_Avatar u; User_EmailVerified := b;
     User_CreatedAt := User_CreatedAt u; User_UpdatedAt := User_UpdatedAt u |}.

Definition set_User_ID (id : string) (u : User) : User :=
  {| User_ID := id; User_Email := User_Email u; User_Password := User_Password u;
     User_Name := User_Name u; User_Role := User_Role u;
     User_Provider := User_Provider u; User_ProviderID := User_ProviderID u;
     User_Avatar := User_Avatar u; User_EmailVerified := User_EmailVerified u;
     User_CreatedAt := User_CreatedAt u; User_UpdatedAt := User_UpdatedAt u |}.

Definition set_User_CreatedAt (t : Time) (u : User) : User :=
  {| User_ID := User_ID u; User_Email := User_Email u; User_Password := User_Password u;
     User_Name := User_Name u; User_Role := User_Role u;
     User_Provider := User_Provider u; User_ProviderID := User_ProviderID u;
     User_Avatar := User_Avatar u; User_EmailVerified := User_EmailVerified u;
     User_CreatedAt := t; User_UpdatedAt := User_UpdatedAt u |}.

Definition set_User_UpdatedAt (t : Time) (u : User) : User :=
  {| User_ID := User_ID u; User_Email := User_Email u; User_Password := User_Password u;
     User_Name := User_Name u; User_Role := User_Role u;
     User_Provider := User_Provider u; User_ProviderID := User_ProviderID u;
     User_Avatar := User_Avatar u; User_EmailVerified := User_EmailVerified u;
     User_CreatedAt := User_CreatedAt u; User_UpdatedAt := t |}.

(** [entity.NewUser] *)
Definition NewUser (email name : string) (role : Role) : M User :=
  id <- uuid_New ;;
  createdAt <- time_Now ;;
  updatedAt <- time_Now ;;
  ret {| User_ID := id;
         User_Email := strings_ToLower (strings_TrimSpace email);
         User_Password := None;
         User_Name := strings_TrimSpace name;
         User_Role := role;
         User_Provider := ProviderLocal;
         User_ProviderID := None;
         User_Avatar := None;
         User_EmailVerified := false;
         User_CreatedAt := createdAt;
         User_UpdatedAt := updatedAt |}.

(** [entity.NewOAuthUser] *)
Definition NewOAuthUser (email name providerID : string) (provider : Provider)
  (avatar : option string) : M User :=
  id <- uuid_New ;;
  createdAt <- time_Now ;;
  updatedAt <- time_Now ;;
  ret {| User_ID := id;
         User_Email := strings_ToLower (strings_TrimSpace email);
         User_Password := None;
         User_Name := strings_TrimSpace name;
         User_Role := RoleUser;
         User_Provider := provider;
         User_ProviderID := Some providerID;
         User_Avatar := avatar;
         User_EmailVerified := true;
         User_CreatedAt := createdAt;
         User_UpdatedAt := updatedAt |}.

(** [User.IsValidEmail] *)
Definition User_IsValidEmail (u : User) : bool :=
  let email := User_Email u in
  strings_Contains email "@" && strings_Contains email "." &&
  (5 <? len email) && (len email <=? 255).

Definition is_empty_hash (h : Bcrypt.Hashed) : bool :=
  match h with
  | Bcrypt.NotBcrypt raw => (raw =? "")%string
  | Bcrypt.Bcrypted _ _ _ => false
  end.

(** [User.Validate]; [None] is nil. *)
Definition User_Validate (u : User) : option error :=
  if (User_Email u =? "")%string then Some (errors_New "email is required")
  else if negb (User_IsValidEmail u) then Some (errors_New "invalid email format")
  else if (User_Name u =? "")%string then Some (errors_New "name is required")
  else if (len (User_Name u) <? 2) || (100 <? len (User_Name u)) then
    Some (errors_New "name must be between 2 and 100 characters")
  else if (User_Provider u =? ProviderLocal)%string &&
          match User_Password u with
          | None => true
          | Some p => is_empty_hash p
          end then
    Some (errors_New "password is required for local users")
  else if negb (User_Provider u =? ProviderLocal)%string &&
          match User_ProviderID u with
          | None => true
          | Some p => (p =? "")%string
          end then
    Some (errors_New "provider ID is required for OAuth users")
  else None.

(** [User.IsOAuthUser] *)
Definition User_IsOAuthUser (u : User) : bool :=
  negb (User_Provider u =? ProviderLocal)%string.

(** [User.SetPassword]; the user after the call. *)
Definition User_SetPassword (u : User) (hashedPassword : Bcrypt.Hashed) : M User :=
  if (User_Provider u =? ProviderLocal)%string then
    now <- time_Now ;;
    ret (set_User_UpdatedAt now (set_User_Password (Some hashedPassword) u))
  else ret u.

(** [entity.NewToken] *)
Definition NewToken (userID : string) (refreshToken : TokenString) (expiresAt : Time)
  : M Token :=
  id <- uuid_New ;;
  createdAt <- time_Now ;;
  updatedAt <- time_Now ;;
  ret {| Token_ID := id; Token_UserID := userID; Token_RefreshToken := refreshToken;
         Token_ExpiresAt := expiresAt; Token_CreatedAt := createdAt;
         Token_UpdatedAt := updatedAt |}.

(* ================================================================== *)
(** ** service: password service *)
(* ================================================================== *)

Record passwordService := { cost : Z }.

Definition NewPasswordService : passwordService := {| cost := Bcrypt.DefaultCost |}.
Definition NewPasswordServiceWithCost (c : Z) : passwordService := {| cost := c |}.

(** [passwordService.ValidatePassword]; [None] is nil. *)
Definition passwordService_ValidatePassword (s : passwordService) (password : string)
  : option error :=
  if len password <? 8 then
    Some (errors_New "password must be at least 8 characters long")
  else if 128 <? len password then
    Some (errors_New "password must be less than 128 characters long")
  else None.

(** [passwordService.HashPassword] *)
Definition passwordService_HashPassword (s : passwordService) (password : string)
  : M Bcrypt.Hashed :=
  match passwordService_ValidatePassword s password with
  | Some err => fail (fmt_Errorf "password validation failed" err)
  | None =>
      salt <- rand_Read ;;
      match Bcrypt.GenerateFromPassword password (cost s) salt with
      | Err err => fail (fmt_Errorf "failed to hash password" err)
      | Ok hashedBytes => ret hashedBytes
      end
  end.

(** [passwordService.VerifyPassword]; [None] is nil. *)
Definition passwordService_VerifyPassword (s : passwordService)
  (password : string) (hash : Bcrypt.Hashed) : option error :=
  Bcrypt.CompareHashAndPassword hash password.

(* ================================================================== *)
(** ** service: token service *)
(* ================================================================== *)

Record tokenService := {
  secretKey : string;
  accessExpiry : Duration;
  refreshExpiry : Duration
}.

Definition NewTokenService (key : string) (access refresh : Duration) : tokenService :=
  {| secretKey := key; accessExpiry := access; refreshExpiry := refresh |}.

(** [tokenService.GenerateAccessToken] *)
Definition tokenService_GenerateAccessToken (s : tokenService)
  (userID email role : string) : M TokenString :=
  t_exp <- time_Now ;;
  t_iat <- time_Now ;;
  t_nbf <- time_Now ;;
  let claims :=
    {| Claims_UserID := userID; Claims_Email := email; Claims_Role := role;
       Claims_TokenType := TokenTypeAccess;
       Claims_Registered :=
         {| Jwt.ExpiresAt := Some (Jwt.NewNumericDate (Add t_exp (accessExpiry s)));
            Jwt.IssuedAt := Some (Jwt.NewNumericDate t_iat);
            Jwt.NotBefore := Some (Jwt.NewNumericDate t_nbf);
            Jwt.Subject := userID |} |} in
  lift (Jwt.SignedString (Jwt.SigningMethodHMAC "HS256") claims (secretKey s)).

(** [tokenService.GenerateRefreshToken] *)
Definition tokenService_GenerateRefreshToken (s : tokenService)
  (userID email role : string) : M TokenString :=
  t_exp <- time_Now ;;
  t_iat <- time_Now ;;
  t_nbf <- time_Now ;;
  let claims :=
    {| Claims_UserID := userID; Claims_Email := email; Claims_Role := role;
       Claims_TokenType := TokenTypeRefresh;
       Claims_Registered :=
         {| Jwt.ExpiresAt := Some (Jwt.NewNumericDate (Add t_exp (refreshExpiry s)));
            Jwt.IssuedAt := Some (Jwt.NewNumericDate t_iat);
            Jwt.NotBefore := Some (Jwt.NewNumericDate t_nbf);
            Jwt.Subject := userID |} |} in
  lift (Jwt.SignedString (Jwt.SigningMethodHMAC "HS256") claims (secretKey s)).

(** The key function [validateToken] hands to the parser. *)
Definition keyFunc (s : tokenService) (token : @Jwt.Token TokenClaims) : result string :=
  if negb (Jwt.isHMAC (Jwt.Method token)) then
    Err (errors_New ("unexpected signing method: " ++ Jwt.Header_alg token))
  else Ok (secretKey s).

(** [tokenService.validateToken] *)
Definition tokenService_validateToken (s : tokenService) (tokenString : TokenString)
  (expectedType : TokenType) : M TokenClaims :=
  now <- time_Now ;;
  match Jwt.ParseWithClaims Claims_Registered TokenClaims_eqb now tokenString (keyFunc s) with
  | Err err => fail (fmt_Errorf "failed to parse token" err)
  | Ok token =>
      let claims := Jwt.Claims token in
      if negb (Jwt.Valid token) then fail (errors_New "invalid token claims")
      else if negb (Claims_TokenType claims =? expectedType)%string then
        fail (errors_New ("invalid token type: expected " ++ expectedType
                          ++ ", got " ++ Claims_TokenType claims))
      else ret claims
  end.

(** [tokenService.ValidateAccessToken] *)
Definition tokenService_ValidateAccessToken (s : tokenService) (tokenString : TokenString)
  : M TokenClaims :=
  tokenService_validateToken s tokenString TokenTypeAccess.

(** [tokenService.ValidateRefreshToken] *)
Definition tokenService_ValidateRefreshToken (s : tokenService) (tokenString : TokenString)
  : M TokenClaims :=
  tokenService_validateToken s tokenString TokenTypeRefresh.

(** [tokenService.GetTokenExpiration] *)
Definition tokenService_GetTokenExpiration (s : tokenService) (tokenType : TokenType)
  : Duration :=
  if (tokenType =? TokenTypeAccess)%string then accessExpiry s
  else if (tokenType =? TokenTypeRefresh)%string then refreshExpiry s
  else accessExpiry s.

(* ================================================================== *)
(** ** persistence/postgres: gorm over the two tables *)
(* ================================================================== *)

Definition driver_error : error := errors_New "driver: bad connection".
Definition pg_unique_violation : error :=
  errors_New "ERROR: duplicate key value violates unique constraint (SQLSTATE 23505)".

(** One round trip to the database: it fails when the driver does, as the
    head of [faults] tells; an empty list is a driver that never fails. *)
Definition sql_exec : M unit :=
  fun w =>
    (if hd false (faults w) then Err driver_error else Ok tt,
     set_faults (tl (faults w)) w).

(** The row with the least primary key. *)
Fixpoint least {A} (key : A -> string) (rows : list A) : option A :=
  match rows with
  | [] => None
  | r :: rs =>
      match least key rs with
      | None => Some r
      | Some m => if String.leb (key r) (key m) then Some r else Some m
      end
  end.

(** [db.Where(cond).First(&row)]: ORDER BY the primary key, LIMIT 1;
    [None] is [gorm.ErrRecordNotFound]. *)
Definition gorm_First {A} (key : A -> string) (cond : A -> bool) (rows : list A)
  : option A :=
  least key (filter cond rows).

(** The config's [NowFunc]: [time.Now().UTC()]. *)
Definition gorm_NowFunc : M Time := time_Now.

(** *** userRepository *)

(** Columns gorm fills on INSERT: a zero [CreatedAt] or [UpdatedAt] gets
    the current time, an empty [ID] the column default gen_random_uuid(). *)
Definition gorm_prepare_user (user : User) : M User :=
  now <- gorm_NowFunc ;;
  id <- (if (User_ID user =? "")%string then uuid_New else ret (User_ID user)) ;;
  let user := set_User_ID id user in
  let user := if IsZero (User_CreatedAt user) then set_User_CreatedAt now user else user in
  let user := if IsZero (User_UpdatedAt user) then set_User_UpdatedAt now user else user in
  ret user.

(** INSERT INTO users, under the primary key and the unique index on
    email. *)
Definition insert_user (row : User) : M unit :=
  rows <- gets users ;;
  if existsb (fun r => (User_ID r =? User_ID row)%string) rows ||
     existsb (fun r => (User_Email r =? User_Email row)%string) rows
  then fail pg_unique_violation
  else modify (set_users (rows ++ [row])).

(** [userRepository.Create] *)
Definition userRepository_Create (user : User) : M unit :=
  wrap "failed to create user"
    (sql_exec ;;;
     row <- gorm_prepare_user user ;;
     insert_user row).

(** [userRepository.FindByID]; [Ok None] is [(nil, nil)]. *)
Definition userRepository_FindByID (id : string) : M (option User) :=
  wrap "failed to find user by ID"
    (sql_exec ;;;
     rows <- gets users ;;
     ret (gorm_First User_ID (fun r => (User_ID r =? id)%string) rows)).

(** [userRepository.FindByEmail] *)
Definition userRepository_FindByEmail (email : string) : M (option User) :=
  wrap "failed to find user by email"
    (sql_exec ;;;
     rows <- gets users ;;
     ret (gorm_First User_ID (fun r => (User_Email r =? email)%string) rows)).

(** [userRepository.FindByProviderID]; a NULL provider_id matches nothing. *)
Definition userRepository_FindByProviderID (provider : Provider) (providerID : string)
  : M (option User) :=
  wrap "failed to find user by provider ID"
    (sql_exec ;;;
     rows <- gets users ;;
     ret (gorm_First User_ID
            (fun r => (User_Provider r =? provider)%string &&
                      match User_ProviderID r with
                      | Some p => (p =? providerID)%string
                      | None => false
                      end) rows)).

(** [userRepository.Update]: gorm's [Save] writes every column of the row
    with the user's primary key, setting updated_at, and inserts the row
    when no row has that key. *)
Definition userRepository_Update (user : User) : M unit :=
  wrap "failed to update user"
    (sql_exec ;;;
     now <- gorm_NowFunc ;;
     let row := set_User_UpdatedAt now user in
     rows <- gets users ;;
     if existsb (fun r => negb (User_ID r =? User_ID row)%string &&
                          (User_Email r =? User_Email row)%string) rows
     then fail pg_unique_violation
     else if existsb (fun r => (User_ID r =? User_ID row)%string) rows
     then modify (set_users
                    (map (fun r => if (User_ID r =? User_ID row)%string then row else r) rows))
     else modify (set_users (rows ++ [row]))).

(** [userRepository.EmailExists] *)
Definition userRepository_EmailExists (email : string) : M bool :=
  wrap "failed to check email existence"
    (sql_exec ;;;
     rows <- gets users ;;
     ret (0 <? Z.of_nat (List.length (filter (fun r => (User_Email r =? email)%string) rows)))).

(** *** tokenRepository *)

Definition set_Token_expiry (expiresAt updatedAt : Time) (t : Token) : Token :=
  {| Token_ID := Token_ID t; Token_UserID := Token_UserID t;
     Token_RefreshToken := Token_RefreshToken t; Token_ExpiresAt := expiresAt;
     Token_CreatedAt := Token_CreatedAt t; Token_UpdatedAt := updatedAt |}.

Definition gorm_prepare_token (token : Token) : M Token :=
  now <- gorm_NowFunc ;;
  id <- (if (Token_ID token =? "")%string then uuid_New else ret (Token_ID token)) ;;
  ret {| Token_ID := id; Token_UserID := Token_UserID token;
         Token_RefreshToken := Token_RefreshToken token;
         Token_ExpiresAt := Token_ExpiresAt token;
         Token_CreatedAt :=
           if IsZero (Token_CreatedAt token) then now else Token_CreatedAt token;
         Token_UpdatedAt :=
           if IsZero (Token_UpdatedAt token) then now else Token_UpdatedAt token |}.

(** INSERT INTO tokens, under the primary key and the unique index on
    refresh_token. *)
Definition insert_token (row : Token) : M unit :=
  rows <- gets tokens ;;
  if existsb (fun r => (Token_ID r =? Token_ID row)%string) rows ||
     existsb (fun r => TokenString_eqb (Token_RefreshToken r) (Token_RefreshToken row)) rows
  then fail pg_unique_violation
  else modify (set_tokens (rows ++ [row])).

(** [tokenRepository.Create] *)
Definition tokenRepository_Create (token : Token) : M unit :=
  wrap "failed to create token"
    (sql_exec ;;;
     row <- gorm_prepare_token token ;;
     insert_token row).

(** [tokenRepository.FindByRefreshToken] *)
Definition tokenRepository_FindByRefreshToken (refreshToken : TokenString)
  : M (option Token) :=
  wrap "failed to find token by refresh token"
    (sql_exec ;;;
     rows <- gets tokens ;;
     ret (gorm_First Token_ID
            (fun r => TokenString_eqb (Token_RefreshToken r) refreshToken) rows)).

(** [tokenRepository.DeleteByRefreshToken] *)
Definition tokenRepository_DeleteByRefreshToken (refreshToken : TokenString) : M unit :=
  wrap "failed to delete token by refresh token"
    (sql_exec ;;;
     rows <- gets tokens ;;
     modify (set_tokens
               (filter (fun r => negb (TokenString_eqb (Token_RefreshToken r) refreshToken))
                  rows))).

(** [tokenRepository.RevokeToken] *)
Definition tokenRepository_RevokeToken (refreshToken : TokenString) : M unit :=
  wrap "failed to revoke token"
    (sql_exec ;;;
     now <- time_Now ;;
     updatedAt <- gorm_NowFunc ;;
     rows <- gets tokens ;;
     modify (set_tokens
               (map (fun r => if TokenString_eqb (Token_RefreshToken r) refreshToken
                              then set_Token_expiry (Add now (-1 * time_Hour)) updatedAt r
                              else r) rows))).

(** [tokenRepository.RevokeAllUserTokens] *)
Definition tokenRepository_RevokeAllUserTokens (userID : string) : M unit :=
  wrap "failed to revoke all user tokens"
    (sql_exec ;;;
     now <- time_Now ;;
     updatedAt <- gorm_NowFunc ;;
     rows <- gets tokens ;;
     modify (set_tokens
               (map (fun r => if (Token_UserID r =? userID)%string
                              then set_Token_expiry (Add now (-1 * time_Hour)) updatedAt r
                              else r) rows))).

(** The WHERE clause of [IsTokenValid]. *)
Definition active_at (now : Time) (refreshToken : TokenString) (r : Token) : bool :=
  TokenString_eqb (Token_RefreshToken r) refreshToken && (now <? Token_ExpiresAt r).

(** [tokenRepository.IsTokenValid] *)
Definition tokenRepository_IsTokenValid (refreshToken : TokenString) : M bool :=
  wrap "failed to check token validity"
    (sql_exec ;;;
     now <- time_Now ;;
     rows <- gets tokens ;;
     ret (0 <? Z.of_nat (List.length (filter (active_at now refreshToken) rows)))).

(* ================================================================== *)
(** ** application/dto *)
(* ================================================================== *)

Record RegisterRequest := {
  RegisterRequest_Email : string;
  RegisterRequest_Password : string;
  RegisterRequest_Name : string
}.

Record LoginRequest := {
  LoginRequest_Email : string;
  LoginRequest_Password : string
}.

Record RefreshTokenRequest := {
  RefreshTokenRequest_RefreshToken : TokenString
}.

(** The two time stamps are kept as times; the code formats them as
    RFC 3339 text. *)
Record UserResponse := {
  UserResponse_ID : string;
  UserResponse_Email : string;
  UserResponse_Name : string;
  UserResponse_Role : string;
  UserResponse_Provider : string;
  UserResponse_Avatar : option string;
  UserResponse_EmailVerified : bool;
  UserResponse_CreatedAt : Time;
  UserResponse_UpdatedAt : Time
}.

Record AuthResponse := {
  AuthResponse_User : UserResponse;
  AuthResponse_AccessToken : TokenString;
  AuthResponse_RefreshToken : TokenString;
  AuthResponse_TokenType : string;
  AuthResponse_ExpiresIn : Z
}.

(** [dto.isGoogleAvatar] *)
Definition isGoogleAvatar (avatarURL : string) : bool :=
  strings_Contains avatarURL "googleusercontent.com" ||
  strings_Contains avatarURL "lh3.googleusercontent.com".

(** [dto.ToUserResponse] *)
Definition ToUserResponse (user : User) : UserResponse :=
  let avatarURL :=
    match User_Avatar user with
    | Some a =>
        if isGoogleAvatar a then Some a
        else Some ("/api/v1/users/avatar/" ++ User_ID user)
    | None => None
    end in
  {| UserResponse_ID := User_ID user;
     UserResponse_Email := User_Email user;
     UserResponse_Name := User_Name user;
     UserResponse_Role := User_Role user;
     UserResponse_Provider := User_Provider user;
     UserResponse_Avatar := avatarURL;
     UserResponse_EmailVerified := User_EmailVerified user;
     UserResponse_CreatedAt := User_CreatedAt user;
     UserResponse_UpdatedAt := User_UpdatedAt user |}.

(** [dto.ToAuthResponse] *)
Definition ToAuthResponse (user : User) (accessToken refreshToken : TokenString)
  (expiresIn : Z) : AuthResponse :=
  {| AuthResponse_User := ToUserResponse user;
     AuthResponse_AccessToken := accessToken;
     AuthResponse_RefreshToken := refreshToken;
     AuthResponse_TokenType := "Bearer";
     AuthResponse_ExpiresIn := expiresIn |}.

(* ================================================================== *)
(** ** application/usecase *)
(* ================================================================== *)

(** The use cases hold their services; their repositories are the two
    tables of the world. *)

Record RegisterUseCase := {
  Register_passwordService : passwordService;
  Register_tokenService : tokenService
}.

Record LoginUseCase := {
  Login_passwordService : passwordService;
  Login_tokenService : tokenService
}.

Record RefreshTokenUseCase := {
  Refresh_tokenService : tokenService
}.

Record GoogleAuthUseCase := {
  Google_tokenService : tokenService
}.

Record GoogleUserInfo := {
  GoogleUserInfo_ID : string;
  GoogleUserInfo_Email : string;
  GoogleUserInfo_Name : string;
  GoogleUserInfo_Avatar : string;
  GoogleUserInfo_VerifiedEmail : bool
}.

(** [RegisterUseCase.Execute] *)
Definition RegisterUseCase_Execute (uc : RegisterUseCase) (req : RegisterRequest)
  : M AuthResponse :=
  exists_ <- userRepository_EmailExists (RegisterRequest_Email req)
    or "failed to check email existence" ;;
  if (exists_ : bool) then fail (errors_New "email already exists")
  else
    hashedPassword <- passwordService_HashPassword (Register_passwordService uc)
                        (RegisterRequest_Password req)
      or "failed to hash password" ;;
    user <- NewUser (RegisterRequest_Email req) (RegisterRequest_Name req) RoleUser ;;
    user <- User_SetPassword user hashedPassword ;;
    match User_Validate user with
    | Some err => fail (fmt_Errorf "invalid user data" err)
    | None =>
        wrap "failed to create user" (userRepository_Create user) ;;;
        accessToken <- tokenService_GenerateAccessToken (Register_tokenService uc)
                         (User_ID user) (User_Email user) (User_Role user)
          or "failed to generate access token" ;;
        refreshToken <- tokenService_GenerateRefreshToken (Register_tokenService uc)
                          (User_ID user) (User_Email user) (User_Role user)
          or "failed to generate refresh token" ;;
        let expiresIn :=
          Seconds (tokenService_GetTokenExpiration (Register_tokenService uc)
                     TokenTypeAccess) in
        ret (ToAuthResponse user accessToken refreshToken expiresIn)
    end.

(** The common tail of the login paths: issue the pair, store the refresh
    token, answer. [mkToken] builds the session record. *)
Definition issue_and_store (ts : tokenService) (user : User)
  (mkToken : string -> TokenString -> Time -> M Token) (storeMsg : string)
  : M AuthResponse :=
  accessToken <- tokenService_GenerateAccessToken ts
                   (User_ID user) (User_Email user) (User_Role user)
    or "failed to generate access token" ;;
  refreshToken <- tokenService_GenerateRefreshToken ts
                    (User_ID user) (User_Email user) (User_Role user)
    or "failed to generate refresh token" ;;
  now <- time_Now ;;
  refreshTokenEntity <- mkToken (User_ID user) refreshToken
                          (Add now (tokenService_GetTokenExpiration ts TokenTypeRefresh)) ;;
  wrap storeMsg (tokenRepository_Create refreshTokenEntity) ;;;
  let expiresIn := Seconds (tokenService_GetTokenExpiration ts TokenTypeAccess) in
  ret (ToAuthResponse user accessToken refreshToken expiresIn).

(** The literal [&entity.Token{UserID: .., RefreshToken: .., ExpiresAt: ..}]
    of the login use case: the other fields are zero. *)
Definition Token_literal (userID : string) (refreshToken : TokenString) (expiresAt : Time)
  : M Token :=
  ret {| Token_ID := ""; Token_UserID := userID; Token_RefreshToken := refreshToken;
         Token_ExpiresAt := expiresAt; Token_CreatedAt := time_zero;
         Token_UpdatedAt := time_zero |}.

(** [LoginUseCase.Execute] *)
Definition LoginUseCase_Execute (uc : LoginUseCase) (req : LoginRequest) : M AuthResponse :=
  user <- userRepository_FindByEmail (LoginRequest_Email req) or "failed to find user" ;;
  match user with
  | None => fail (errors_New "invalid credentials")
  | Some user =>
      if User_IsOAuthUser user then
        fail (errors_New "please use OAuth login for this account")
      else
        match User_Password user with
        | None => fail (errors_New "invalid credentials")
        | Some password =>
            match passwordService_VerifyPassword (Login_passwordService uc)
                    (LoginRequest_Password req) password with
            | Some _ => fail (errors_New "invalid credentials")
            | None =>
                (* Log error but don't fail login *)
                ignore_error (tokenRepository_RevokeAllUserTokens (User_ID user)) ;;;
                issue_and_store (Login_tokenService uc) user Token_literal
                  "failed to store refresh token"
            end
        end
  end.

(** [RefreshTokenUseCase.Execute] *)
Definition RefreshTokenUseCase_Execute (uc : RefreshTokenUseCase)
  (req : RefreshTokenRequest) : M AuthResponse :=
  claims <- tokenService_ValidateRefreshToken (Refresh_tokenService uc)
              (RefreshTokenRequest_RefreshToken req)
    or "invalid refresh token" ;;
  isValid <- tokenRepository_IsTokenValid (RefreshTokenRequest_RefreshToken req)
    or "failed to validate refresh token" ;;
  if negb isValid then fail (errors_New "refresh token has been revoked or expired")
  else
    user <- userRepository_FindByID (Claims_UserID claims) or "failed to find user" ;;
    match user with
    | None => fail (errors_New "user not found")
    | Some user =>
        wrap "failed to delete old refresh token"
          (tokenRepository_DeleteByRefreshToken (RefreshTokenRequest_RefreshToken req)) ;;;
        issue_and_store (Refresh_tokenService uc) user NewToken
          "failed to store new refresh token"
    end.

(** The account merge of the Google login: the existing user gets the
    Google provider data. *)
Definition merge_google (googleUser : GoogleUserInfo) (now : Time) (user : User) : User :=
  let user := set_User_Provider ProviderGoogle user in
  let user := set_User_ProviderID (Some (GoogleUserInfo_ID googleUser)) user in
  let user :=
    if negb (GoogleUserInfo_Avatar googleUser =? "")%string
    then set_User_Avatar (Some (GoogleUserInfo_Avatar googleUser)) user
    else user in
  let user := set_User_EmailVerified true user in
  set_User_UpdatedAt now user.

(** Lines 54 to 106 of [GoogleAuthUseCase.Execute]: the user the login is
    for, found by Google ID, or found by email and merged, or created. *)
Definition GoogleAuthUseCase_resolve (googleUser : GoogleUserInfo) : M User :=
  user <- userRepository_FindByProviderID ProviderGoogle (GoogleUserInfo_ID googleUser)
    or "failed to find user by provider ID" ;;
  user <-
    match user with
    | Some _ => ret user
    | None =>
        user <- userRepository_FindByEmail (GoogleUserInfo_Email googleUser)
          or "failed to find user by email" ;;
        match user with
        | Some found =>
            if negb (User_Provider found =? ProviderGoogle)%string then
              now <- time_Now ;;
              let merged := merge_google googleUser now found in
              wrap "failed to merge user account" (userRepository_Update merged) ;;;
              ret (Some merged)
            else ret user
        | None => ret user
        end
    end ;;
  match user with
  | Some user => ret user
  | None =>
      let avatar :=
        if negb (GoogleUserInfo_Avatar googleUser =? "")%string
        then Some (GoogleUserInfo_Avatar googleUser) else None in
      user <- NewOAuthUser (GoogleUserInfo_Email googleUser)
                (GoogleUserInfo_Name googleUser) (GoogleUserInfo_ID googleUser)
                ProviderGoogle avatar ;;
      match User_Validate user with
      | Some err => fail (fmt_Errorf "invalid user data" err)
      | None =>
          wrap "failed to create user" (userRepository_Create user) ;;;
          ret user
      end
  end.

(** [GoogleAuthUseCase.Execute]; [None] is a nil [googleUser]. *)
Definition GoogleAuthUseCase_Execute (uc : GoogleAuthUseCase)
  (googleUser : option GoogleUserInfo) : M AuthResponse :=
  match googleUser with
  | None => fail (errors_New "google user info is required")
  | Some googleUser =>
      if negb (GoogleUserInfo_VerifiedEmail googleUser) then
        fail (errors_New "email is not verified")
      else
        user <- GoogleAuthUseCase_resolve googleUser ;;
        (* Log error but don't fail login *)
        ignore_error (tokenRepository_RevokeAllUserTokens (User_ID user)) ;;;
        issue_and_store (Google_tokenService uc) user NewToken
          "failed to store refresh token"
  end.

(** [LogoutUseCase.Execute] *)
Definition LogoutUseCase_Execute (refreshToken : TokenString) : M unit :=
  wrap "failed to delete refresh token" (tokenRepository_DeleteByRefreshToken refreshToken).

(** [LogoutUseCase.ExecuteAll] *)
Definition LogoutUseCase_ExecuteAll (userID : string) : M unit :=
  wrap "failed to revoke all user tokens" (tokenRepository_RevokeAllUserTokens userID).

(* ================================================================== *)
(** ** entity: the other methods of User and Token *)
(* ================================================================== *)

Definition set_User_Name (n : string) (u : User) : User :=
  {| User_ID := User_ID u; User_Email := User_Email u; User_Password := User_Password u;
     User_Name := n; User_Role := User_Role u;
     User_Provider := User_Provider u; User_ProviderID := User_ProviderID u;
     User_Avatar := User_Avatar u; User_EmailVerified := User_EmailVerified u;
     User_CreatedAt := User_CreatedAt u; User_UpdatedAt := User_UpdatedAt u |}.

Definition set_User_Role (r : Role) (u : User) : User :=
  {| User_ID := User_ID u; User_Email := User_Email u; User_Password := User_Password u;
     User_Name := User_Name u; User_Role := r;
     User_Provider := User_Provider u; User_ProviderID := User_ProviderID u;
     User_Avatar := User_Avatar u; User_EmailVerified := User_EmailVerified u;
     User_CreatedAt := User_CreatedAt u; User_UpdatedAt := User_UpdatedAt u |}.

(** [User.HasRole] *)
Definition User_HasRole (u : User) (role : Role) : bool :=
  (User_Role u =? role)%string.

(** [User.IsAdmin] *)
Definition User_IsAdmin (u : User) : bool :=
  (User_Role u =? RoleAdmin)%string.

(** [User.UpdateProfile]; the user after the call. *)
Definition User_UpdateProfile (u : User) (name : string) (avatar : option string)
  : M User :=
  now <- time_Now ;;
  ret (set_User_UpdatedAt now
         (set_User_Avatar avatar (set_User_Name (strings_TrimSpace name) u))).

(** [User.VerifyEmail] *)
Definition User_VerifyEmail (u : User) : M User :=
  now <- time_Now ;;
  ret (set_User_UpdatedAt now (set_User_EmailVerified true u)).

(** [User.PromoteToAdmin] *)
Definition User_PromoteToAdmin (u : User) : M User :=
  now <- time_Now ;;
  ret (set_User_UpdatedAt now (set_User_Role RoleAdmin u)).

(** [User.DemoteToUser] *)
Definition User_DemoteToUser (u : User) : M User :=
  now <- time_Now ;;
  ret (set_User_UpdatedAt now (set_User_Role RoleUser u)).

(** The empty string, among the token strings. *)
Definition is_empty_token (t : TokenString) : bool :=
  match t with
  | Jwt.Malformed raw => (raw =? "")%string
  | Jwt.Compact _ _ _ => false
  end.

(** [Token.Validate]; [None] is nil. *)
Definition Token_Validate (t : Token) : M (option error) :=
  if (Token_UserID t =? "")%string then
    ret (Some (errors_New "user ID is required"))
  else if is_empty_token (Token_RefreshToken t) then
    ret (Some (errors_New "refresh token is required"))
  else if IsZero (Token_ExpiresAt t) then
    ret (Some (errors_New "expiration time is required"))
  else
    now <- time_Now ;;
    if Before (Token_ExpiresAt t) now then
      ret (Some (errors_New "token has already expired"))
    else ret None.

(** [Token.IsExpired] *)
Definition Token_IsExpired (t : Token) : M bool :=
  now <- time_Now ;;
  ret (After now (Token_ExpiresAt t)).

(** [Token.IsValid] *)
Definition Token_IsValid (t : Token) : M bool :=
  expired <- Token_IsExpired t ;;
  ret (negb expired).

(** [Token.UpdateRefreshToken]; the token after the call. *)
Definition Token_UpdateRefreshToken (t : Token) (newRefreshToken : TokenString)
  (newExpiresAt : Time) : M Token :=
  now <- time_Now ;;
  ret {| Token_ID := Token_ID t; Token_UserID := Token_UserID t;
         Token_RefreshToken := newRefreshToken; Token_ExpiresAt := newExpiresAt;
         Token_CreatedAt := Token_CreatedAt t; Token_UpdatedAt := now |}.

(** [Token.Revoke]; the token after the call. *)
Definition Token_Revoke (t : Token) : M Token :=
  expiresAt <- time_Now ;;
  updatedAt <- time_Now ;;
  ret (set_Token_expiry (Add expiresAt (-1 * time_Hour)) updatedAt t).

(* ================================================================== *)
(** ** persistence/postgres: the deleting statements *)
(* ================================================================== *)

(** [userRepository.Delete] *)
Definition userRepository_Delete (id : string) : M unit :=
  wrap "failed to delete user"
    (sql_exec ;;;
     rows <- gets users ;;
     modify (set_users (filter (fun r => negb (User_ID r =? id)%string) rows))).

(** [userRepository.Count] *)
Definition userRepository_Count : M Z :=
  wrap "failed to count users"
    (sql_exec ;;;
     rows <- gets users ;;
     ret (Z.of_nat (List.length rows))).

(** [tokenRepository.Delete] *)
Definition tokenRepository_Delete (id : string) : M unit :=
  wrap "failed to delete token"
    (sql_exec ;;;
     rows <- gets tokens ;;
     modify (set_tokens (filter (fun r => negb (Token_ID r =? id)%string) rows))).

(** [tokenRepository.DeleteByUserID] *)
Definition tokenRepository_DeleteByUserID (userID : string) : M unit :=
  wrap "failed to delete tokens by user ID"
    (sql_exec ;;;
     rows <- gets tokens ;;
     modify (set_tokens (filter (fun r => negb (Token_UserID r =? userID)%string) rows))).

(** [tokenRepository.DeleteExpiredTokens] *)
Definition tokenRepository_DeleteExpiredTokens : M unit :=
  wrap "failed to delete expired tokens"
    (sql_exec ;;;
     now <- time_Now ;;
     rows <- gets tokens ;;
     modify (set_tokens (filter (fun r => negb (Token_ExpiresAt r <? now)) rows))).

(* ================================================================== *)
(** ** application/usecase: the user use cases *)
(* ================================================================== *)

Record UpdateProfileRequest := {
  UpdateProfileRequest_Name : string;
  UpdateProfileRequest_Avatar : option string
}.

(** [GetUserProfileUseCase.Execute] *)
Definition GetUserProfileUseCase_Execute (userID : string) : M UserResponse :=
  user <- userRepository_FindByID userID or "failed to find user" ;;
  match user with
  | None => fail (errors_New "user not found")
  | Some user => ret (ToUserResponse user)
  end.

(** [UpdateUserProfileUseCase.Execute] *)
Definition UpdateUserProfileUseCase_Execute (userID : string) (req : UpdateProfileRequest)
  : M UserResponse :=
  user <- userRepository_FindByID userID or "failed to find user" ;;
  match user with
  | None => fail (errors_New "user not found")
  | Some user =>
      user <- User_UpdateProfile user (UpdateProfileRequest_Name req)
                (UpdateProfileRequest_Avatar req) ;;
      match User_Validate user with
      | Some err => fail (fmt_Errorf "invalid user data" err)
      | None =>
          wrap "failed to update user" (userRepository_Update user) ;;;
          ret (ToUserResponse user)
      end
  end.

(** [DeleteUserUseCase.Execute] *)
Definition DeleteUserUseCase_Execute (targetUserID : string) : M unit :=
  user <- userRepository_FindByID targetUserID or "failed to find user" ;;
  match user with
  | None => fail (errors_New "user not found")
  | Some _ => wrap "failed to delete user" (userRepository_Delete targetUserID)
  end.

(** [PromoteUserUseCase.Execute] *)
Definition PromoteUserUseCase_Execute (targetUserID : string) : M UserResponse :=
  user <- userRepository_FindByID targetUserID or "failed to find user" ;;
  match user with
  | None => fail (errors_New "user not found")
  | Some user =>
      if User_IsAdmin user then fail (errors_New "user is already an admin")
      else
        user <- User_PromoteToAdmin user ;;
        wrap "failed to promote user" (userRepository_Update user) ;;;
        ret (ToUserResponse user)
  end.

(** [DemoteUserUseCase.Execute] *)
Definition DemoteUserUseCase_Execute (targetUserID : string) : M UserResponse :=
  user <- userRepository_FindByID targetUserID or "failed to find user" ;;
  match user with
  | None => fail (errors_New "user not found")
  | Some user =>
      if negb (User_IsAdmin user) then fail (errors_New "user is not an admin")
      else
        user <- User_DemoteToUser user ;;
        wrap "failed to demote user" (userRepository_Update user) ;;;
        ret (ToUserResponse user)
  end.

(* ================================================================== *)
(** ** interfaces/http/middleware: role middleware *)
(* ================================================================== *)

(** What a middleware does with a request: hand it on, or answer with a
    status and an error code and abort. *)
Inductive Outcome :=
| Next
| Abort (status : Z) (code : string).

(** [RoleMiddleware.RequireRole]; [userRole] is the "user_role" entry of
    the request context, [None] when it is not set. *)
Definition RoleMiddleware_RequireRole (role : Role) (userRole : option string) : Outcome :=
  match userRole with
  | None => Abort 401 "UNAUTHORIZED"
  | Some userRole =>
      if negb (userRole =? role)%string then Abort 403 "INSUFFICIENT_PERMISSIONS"
      else Next
  end.

(** [RoleMiddleware.RequireAdmin] *)
Definition RoleMiddleware_RequireAdmin (userRole : option string) : Outcome :=
  RoleMiddleware_RequireRole RoleAdmin userRole.

(** [RoleMiddleware.RequireUser] *)
Definition RoleMiddleware_RequireUser (userRole : option string) : Outcome :=
  match userRole with
  | None => Abort 401 "UNAUTHORIZED"
  | Some role =>
      if negb (role =? RoleUser)%string && negb (role =? RoleAdmin)%string
      then Abort 403 "INSUFFICIENT_PERMISSIONS"
      else Next
  end.

(** [middleware.HasRole] *)
Definition middleware_HasRole (userRole : option string) (role : Role) : bool :=
  match userRole with
  | None => false
  | Some userRole => (userRole =? role)%string
  end.

(** [middleware.IsAdmin] *)
Definition middleware_IsAdmin (userRole : option string) : bool :=
  middleware_HasRole userRole RoleAdmin.

(** [middleware.IsUser] *)
Definition middleware_IsUser (userRole : option string) : bool :=
  match userRole with
  | None => false
  | Some role => (role =? RoleUser)%string || (role =? RoleAdmin)%string
  end.

(* ================================================================== *)
(** ** interfaces/http/middleware: auth middleware *)
(* ================================================================== *)

(** The entries the auth middleware sets in the request context:
    "user_id", "user_email" and "user_role"; [None] is an entry that is
    not set. *)
Record Context := {
  Context_user_id : option string;
  Context_user_email : option string;
  Context_user_role : option string
}.

(** [authHeader == ""], on the fields [strings.Split(authHeader, " ")]
    of the header: the empty header has the one field [""]. *)
Definition is_empty_header (tokenParts : list TokenString) : bool :=
  match tokenParts with
  | [field] => is_empty_token field
  | _ => false
  end.

(** [AuthMiddleware.RequireAuth]; the Authorization header is given by
    its fields [tokenParts], [c] is the request context before the call. *)
Definition AuthMiddleware_RequireAuth (m : tokenService) (tokenParts : list TokenString)
  (c : Context) : M (Outcome * Context) :=
  if is_empty_header tokenParts then ret (Abort 401 "MISSING_TOKEN", c)
  else
    match tokenParts with
    | [scheme; accessToken] =>
        if negb (TokenString_eqb scheme (Jwt.Malformed "Bearer")) then
          ret (Abort 401 "INVALID_TOKEN_FORMAT", c)
        else
          fun w =>
            match tokenService_ValidateAccessToken m accessToken w with
            | (Err _, w') => (Ok (Abort 401 "INVALID_TOKEN", c), w')
            | (Ok claims, w') =>
                (Ok (Next,
                     {| Context_user_id := Some (Claims_UserID claims);
                        Context_user_email := Some (Claims_Email claims);
                        Context_user_role := Some (Claims_Role claims) |}), w')
            end
    | _ => ret (Abort 401 "INVALID_TOKEN_FORMAT", c)
    end.

(** The admin routes: [RequireAuth] and then [RequireAdmin], as the
    router installs them. *)
Definition admin_route (m : tokenService) (tokenParts : list TokenString) (c : Context)
  : M Outcome :=
  r <- AuthMiddleware_RequireAuth m tokenParts c ;;
  match r with
  | (Next, c) => ret (RoleMiddleware_RequireAdmin (Context_user_role c))
  | (abort, _) => ret abort
  end.

(* ================================================================== *)
(** ** Vocabulary of the statements, and sample data *)
(* ================================================================== *)

Ltac run :=
  unfold gorm_NowFunc, uuid_New, time_Now, rand_Read, sql_exec,
    ignore_error, wrap, bind, ret, fail, gets, modify, lift in *;
  cbn [fst snd users tokens clock entropy faults
       set_users set_tokens set_clock set_entropy set_faults] in *.

(** The token a generator yields at time [now]. *)
Definition issued (s : tokenService) (kind : TokenType) (lifetime : Duration)
  (now : Time) (userID email role : string) : TokenString :=
  let claims :=
    {| Claims_UserID := userID; Claims_Email := email; Claims_Role := role;
       Claims_TokenType := kind;
       Claims_Registered :=
         {| Jwt.ExpiresAt := Some (Jwt.NewNumericDate (Add now lifetime));
            Jwt.IssuedAt := Some (Jwt.NewNumericDate now);
            Jwt.NotBefore := Some (Jwt.NewNumericDate now);
            Jwt.Subject := userID |} |} in
  Jwt.Compact (Some "HS256") claims (Jwt.HMAC "HS256" (secretKey s) claims).

Definition sample_tokens : tokenService :=
  NewTokenService "secret" (900 * time_Second) (604800 * time_Second).

Definition sample_register : RegisterUseCase :=
  {| Register_passwordService := NewPasswordService;
     Register_tokenService := sample_tokens |}.

Definition sample_login : LoginUseCase :=
  {| Login_passwordService := NewPasswordService;
     Login_tokenService := sample_tokens |}.

Definition sample_refresh : RefreshTokenUseCase :=
  {| Refresh_tokenService := sample_tokens |}.

Definition sample_google : GoogleAuthUseCase :=
  {| Google_tokenService := sample_tokens |}.

(** An empty database, a clock a little after a full second, a driver that
    does not fail. *)
Definition empty_world : World :=
  {| users := []; tokens := []; clock := 1700000000 * time_Second + 5;
     entropy := 0; faults := [] |}.

Definition sample_claims : TokenClaims :=
  {| Claims_UserID := "uuid-1"; Claims_Email := "u@x.com"; Claims_Role := "ADMIN";
     Claims_TokenType := TokenTypeAccess;
     Claims_Registered :=
       {| Jwt.ExpiresAt := None; Jwt.NotBefore := None; Jwt.IssuedAt := None;
          Jwt.Subject := "uuid-1" |} |}.

(** The row [tokenRepository.Create] writes for [token] in world [w]. *)
Definition created_row (token : Token) (w : World) : Token :=
  {| Token_ID := if (Token_ID token =? "")%string then uuid_text (entropy w)
                 else Token_ID token;
     Token_UserID := Token_UserID token;
     Token_RefreshToken := Token_RefreshToken token;
     Token_ExpiresAt := Token_ExpiresAt token;
     Token_CreatedAt :=
       if IsZero (Token_CreatedAt token) then clock w else Token_CreatedAt token;
     Token_UpdatedAt :=
       if IsZero (Token_UpdatedAt token) then clock w else Token_UpdatedAt token |}.

(** The world after a statement that drew the identifier of [token] when
    it had none. *)
Definition after_insert (token : Token) (w : World) : World :=
  let w := set_faults (tl (faults w)) w in
  if (Token_ID token =? "")%string then set_entropy (S (entropy w)) w else w.

Definition access_of (ts : tokenService) (user : User) (w : World) : TokenString :=
  issued ts TokenTypeAccess (accessExpiry ts) (clock w)
    (User_ID user) (User_Email user) (User_Role user).

Definition refresh_of (ts : tokenService) (user : User) (w : World) : TokenString :=
  issued ts TokenTypeRefresh (refreshExpiry ts) (clock w)
    (User_ID user) (User_Email user) (User_Role user).

Definition literal_entity (ts : tokenService) (user : User) (w : World) : Token :=
  {| Token_ID := ""; Token_UserID := User_ID user;
     Token_RefreshToken := refresh_of ts user w;
     Token_ExpiresAt := Add (clock w) (refreshExpiry ts);
     Token_CreatedAt := time_zero; Token_UpdatedAt := time_zero |}.

Definition new_entity (ts : tokenService) (user : User) (w : World) : Token :=
  {| Token_ID := uuid_text (entropy w); Token_UserID := User_ID user;
     Token_RefreshToken := refresh_of ts user w;
     Token_ExpiresAt := Add (clock w) (refreshExpiry ts);
     Token_CreatedAt := clock w; Token_UpdatedAt := clock w |}.

(** A local account, as registration creates it for ("u@x.com",
    "password1", "Una"), and one active session of it. *)
Definition sample_user : User :=
  {| User_ID := "uuid-1"; User_Email := "u@x.com";
     User_Password := Some (Bcrypt.Bcrypted 10 0 (Bcrypt.key_material "password1"));
     User_Name := "Una"; User_Role := RoleUser; User_Provider := ProviderLocal;
     User_ProviderID := None; User_Avatar := None; User_EmailVerified := false;
     User_CreatedAt := 1700000000 * time_Second + 5;
     User_UpdatedAt := 1700000000 * time_Second + 5 |}.

Definition sample_session : Token :=
  {| Token_ID := "uuid-2"; Token_UserID := "uuid-1";
     Token_RefreshToken :=
       issued sample_tokens TokenTypeRefresh (refreshExpiry sample_tokens)
         (1700000000 * time_Second + 5) "uuid-1" "u@x.com" "USER";
     Token_ExpiresAt := 1700604800 * time_Second + 5;
     Token_CreatedAt := 1700000000 * time_Second + 5;
     Token_UpdatedAt := 1700000000 * time_Second + 5 |}.

(** One minute later, with that account and that session in the tables. *)
Definition sample_world : World :=
  {| users := [sample_user]; tokens := [sample_session];
     clock := 1700000060 * time_Second + 5; entropy := 3; faults := [] |}.

(** The sample session outliving its account: the user row is gone. *)
Definition orphan_world : World :=
  {| users := []; tokens := [sample_session];
     clock := 1700000060 * time_Second + 5; entropy := 3; faults := [] |}.

Definition sample_refresh_request : RefreshTokenRequest :=
  {| RefreshTokenRequest_RefreshToken := Token_RefreshToken sample_session |}.

Ltac break_if :=
  match goal with
  | |- context [if ?b then _ else _] => destruct b
  | |- context [match ?x with Some _ => _ | None => _ end] => destruct x
  | |- context [match ?x with Ok _ => _ | Err _ => _ end] => destruct x
  end.

Definition register_request : RegisterRequest :=
  {| RegisterRequest_Email := "u@x.com"; RegisterRequest_Password := "password1";
     RegisterRequest_Name := "Una" |}.

Definition register_ab : RegisterRequest :=
  {| RegisterRequest_Email := "a@b.com"; RegisterRequest_Password := "password1";
     RegisterRequest_Name := "Ann" |}.

Definition register_AB : RegisterRequest :=
  {| RegisterRequest_Email := "A@B.com"; RegisterRequest_Password := "password1";
     RegisterRequest_Name := "Ann" |}.

(** The test of the HTTP handler that turns a registration error into
    the EMAIL_EXISTS conflict. *)
Definition is_email_exists (e : error) : bool :=
  strings_Contains (Error e) "email already exists".

(** 73 times the letter a. *)
Definition password73 : string := string_of_list_ascii (repeat "a"%char 73).

(** The session table takes a new row for [refreshToken]: the driver does
    not fail on the coming statement, no row holds that token (unique
    index), and the identifier drawn next is the primary key of no row. *)
Definition accepts_session (refreshToken : TokenString) (w : World) : Prop :=
  hd false (faults w) = false /\
  (forall r, In r (tokens w) -> Token_RefreshToken r <> refreshToken) /\
  (forall r, In r (tokens w) -> Token_ID r <> uuid_text (entropy w)).

Definition good_login : LoginRequest :=
  {| LoginRequest_Email := "u@x.com"; LoginRequest_Password := "password1" |}.

(** The sample world with a driver that answers the first statement and
    fails on the second. *)
Definition revoke_fails_world : World := set_faults [false; true] sample_world.

Definition sample_session_claims : TokenClaims :=
  {| Claims_UserID := "uuid-1"; Claims_Email := "u@x.com"; Claims_Role := "USER";
     Claims_TokenType := TokenTypeRefresh;
     Claims_Registered :=
       {| Jwt.ExpiresAt := Some 1700604800; Jwt.NotBefore := Some 1700000000;
          Jwt.IssuedAt := Some 1700000000; Jwt.Subject := "uuid-1" |} |}.

(** Half a second after the sample session was issued. *)
Definition same_second_world : World :=
  {| users := [sample_user]; tokens := [sample_session];
     clock := 1700000000 * time_Second + 500000000; entropy := 3; faults := [] |}.

(** The sample account with an avatar of its own, and what Google reports
    for the same email. *)
Definition avatar_user : User := set_User_Avatar (Some "/uploads/old.png") sample_user.

Definition avatar_world : World :=
  {| users := [avatar_user]; tokens := [sample_session];
     clock := 1700000060 * time_Second + 5; entropy := 3; faults := [] |}.

Definition google_una : GoogleUserInfo :=
  {| GoogleUserInfo_ID := "g1"; GoogleUserInfo_Email := "u@x.com";
     GoogleUserInfo_Name := "Una";
     GoogleUserInfo_Avatar := "https://lh3.googleusercontent.com/a/new";
     GoogleUserInfo_VerifiedEmail := true |}.

(** Further vocabulary and sample data. *)

(** Text outside ASCII, in UTF-8: the letters U+00C9 and U+00E9 (E with
    acute, capital and small) and the no-break space U+00A0. *)
Definition capital_e_acute : string := String (chr 195) (String (chr 137) EmptyString).
Definition small_e_acute : string := String (chr 195) (String (chr 169) EmptyString).
Definition no_break_space : string := String (chr 194) (String (chr 160) EmptyString).

(** A registration with such text: a blank and a capital letter with an
    accent in the email, no-break spaces around the name. *)
Definition register_elan : RegisterRequest :=
  {| RegisterRequest_Email := " " ++ capital_e_acute ++ "lan@B.com";
     RegisterRequest_Password := "password1";
     RegisterRequest_Name := no_break_space ++ "Elan" ++ no_break_space |}.

(** A request whose name is one letter between no-break spaces. *)
Definition one_letter_name : UpdateProfileRequest :=
  {| UpdateProfileRequest_Name := no_break_space ++ "A" ++ no_break_space;
     UpdateProfileRequest_Avatar := Some "/uploads/new.png" |}.

(** The Google profile of the sample user, with the email in capitals and
    no avatar. *)
Definition google_capitals : GoogleUserInfo :=
  {| GoogleUserInfo_ID := "g1"; GoogleUserInfo_Email := "U@X.com";
     GoogleUserInfo_Name := "Una"; GoogleUserInfo_Avatar := "";
     GoogleUserInfo_VerifiedEmail := true |}.

Definition sample_access_claims : TokenClaims :=
  {| Claims_UserID := "uuid-1"; Claims_Email := "u@x.com"; Claims_Role := "USER";
     Claims_TokenType := TokenTypeAccess;
     Claims_Registered :=
       {| Jwt.ExpiresAt := Some 1700000960; Jwt.NotBefore := Some 1700000060;
          Jwt.IssuedAt := Some 1700000060; Jwt.Subject := "uuid-1" |} |}.

Definition expired_session : Token :=
  {| Token_ID := "uuid-0"; Token_UserID := "uuid-9";
     Token_RefreshToken := Jwt.Malformed "stale";
     Token_ExpiresAt := 1600000000 * time_Second;
     Token_CreatedAt := 1599000000 * time_Second;
     Token_UpdatedAt := 1599000000 * time_Second |}.

Definition two_sessions_world : World :=
  {| users := [sample_user]; tokens := [expired_session; sample_session];
     clock := 1700000060 * time_Second + 5; entropy := 3; faults := [] |}.

(** The row [userRepository.Create] writes for [user] in world [w], and
    the world after the statement. *)
Definition prepared_user (user : User) (w : World) : User :=
  let id := if (User_ID user =? "")%string then uuid_text (entropy w) else User_ID user in
  let user := set_User_ID id user in
  let user :=
    if IsZero (User_CreatedAt user) then set_User_CreatedAt (clock w) user else user in
  if IsZero (User_UpdatedAt user) then set_User_UpdatedAt (clock w) user else user.

Definition after_user_insert (user : User) (w : World) : World :=
  let w := set_faults (tl (faults w)) w in
  if (User_ID user =? "")%string then set_entropy (S (entropy w)) w else w.

Definition register_short_password : RegisterRequest :=
  {| RegisterRequest_Email := "v@x.com"; RegisterRequest_Password := "short";
     RegisterRequest_Name := "Vic" |}.

(** No byte of the string is NUL. *)
Fixpoint nul_free (s : string) : bool :=
  match s with
  | EmptyString => true
  | String c r => negb (Ascii.eqb c zero) && nul_free r
  end.


(** The user table after a promotion, a demotion or a profile update of
    the user with key [id]. *)
Definition replaced (id : string) (new : User) (rows : list User) : list User :=
  map (fun r => if (User_ID r =? id)%string then new else r) rows.

(** A request that carries an avatar and no name, as the binding rule
    [omitempty] lets through. *)
Definition avatar_only : UpdateProfileRequest :=
  {| UpdateProfileRequest_Name := "";
     UpdateProfileRequest_Avatar := Some "/uploads/new.png" |}.

Definition rename_request : UpdateProfileRequest :=
  {| UpdateProfileRequest_Name := no_break_space ++ " Una Lee " ++ no_break_space;
     UpdateProfileRequest_Avatar := None |}.

(** The sample world with a driver that fails on the fourth statement. *)
Definition store_fails_world : World :=
  set_faults [false; false; false; true] sample_world.

(** A Google profile no account matches. *)
Definition google_new : GoogleUserInfo :=
  {| GoogleUserInfo_ID := "g2";
     GoogleUserInfo_Email := " " ++ capital_e_acute ++ "lan@X.com";
     GoogleUserInfo_Name := no_break_space ++ "Nia"; GoogleUserInfo_Avatar := "";
     GoogleUserInfo_VerifiedEmail := true |}.

Definition no_context : Context :=
  {| Context_user_id := None; Context_user_email := None; Context_user_role := None |}.

Definition bearer (accessToken : TokenString) : list TokenString :=
  [Jwt.Malformed "Bearer"; accessToken].

Definition sample_admin : User := set_User_Role RoleAdmin sample_user.

Definition admin_world : World :=
  {| users := [sample_admin]; tokens := [];
     clock := 1700000060 * time_Second + 5; entropy := 3; faults := [] |}.

(* ================================================================== *)
(** * Properties *)
(* ================================================================== *)


(** ** Equality tests *)

Lemma string_eqb_neq (a b : string) : a <> b -> (a =? b)%string = false.
Proof. intro H. destruct (String.eqb_spec a b); congruence. Qed.

Lemma TokenClaims_eqb_refl (c : TokenClaims) : TokenClaims_eqb c c = true.
Proof. unfold TokenClaims_eqb. destruct (TokenClaims_eq_dec c c); congruence. Qed.

Lemma TokenString_eqb_eq (a b : TokenString) : TokenString_eqb a b = true <-> a = b.
Proof.
  unfold TokenString_eqb. destruct (TokenString_eq_dec a b); split; congruence.
Qed.

Lemma TokenString_eqb_neq (a b : TokenString) : TokenString_eqb a b = false <-> a <> b.
Proof.
  unfold TokenString_eqb. destruct (TokenString_eq_dec a b); split; congruence.
Qed.

(** ** The token service *)

Lemma GenerateAccessToken_run s userID email role w :
  tokenService_GenerateAccessToken s userID email role w =
  (Ok (issued s TokenTypeAccess (accessExpiry s) (clock w) userID email role), w).
Proof. reflexivity. Qed.

Lemma GenerateRefreshToken_run s userID email role w :
  tokenService_GenerateRefreshToken s userID email role w =
  (Ok (issued s TokenTypeRefresh (refreshExpiry s) (clock w) userID email role), w).
Proof. reflexivity. Qed.

(** Validation reads the clock and nothing else. *)
Lemma validateToken_world s t kind w :
  snd (tokenService_validateToken s t kind w) = w.
Proof.
  unfold tokenService_validateToken. run.
  destruct (Jwt.ParseWithClaims Claims_Registered TokenClaims_eqb _ _ _) as [tok|];
    [|reflexivity].
  destruct (negb (Jwt.Valid tok)); [reflexivity|].
  destruct (negb _); reflexivity.
Qed.

(** What a successful validation tells about the token string. *)
Lemma validateToken_ok s t kind w claims :
  fst (tokenService_validateToken s t kind w) = Ok claims ->
  exists alg sig,
    t = Jwt.Compact (Some alg) claims sig /\
    In alg ["HS256"; "HS384"; "HS512"] /\
    sig = Jwt.HMAC alg (secretKey s) claims /\
    Claims_TokenType claims = kind /\
    Jwt.Validate (clock w) (Claims_Registered claims) = None.
Proof.
  unfold tokenService_validateToken. run.
  destruct t as [raw | [alg|] c sig]; cbn; try discriminate.
  unfold Jwt.GetSigningMethod.
  destruct (existsb (String.eqb alg) ["HS256"; "HS384"; "HS512"]) eqn:Hh.
  - cbn. unfold Jwt.Verify.
    destruct sig as [alg' key' c' | raw]; cbn; try discriminate.
    destruct (String.eqb_spec alg alg'); cbn; try discriminate.
    destruct (String.eqb_spec (secretKey s) key'); cbn; try discriminate.
    unfold TokenClaims_eqb. destruct (TokenClaims_eq_dec c c'); cbn; try discriminate.
    destruct (Jwt.Validate (clock w) (Claims_Registered c)) eqn:Hv; cbn; try discriminate.
    destruct (String.eqb_spec (Claims_TokenType c) kind); cbn; try discriminate.
    intro H; inversion H; subst.
    exists alg', (Jwt.HMAC alg' (secretKey s) claims).
    repeat split; auto.
    apply existsb_exists in Hh. destruct Hh as [x [Hin Hx]].
    apply String.eqb_eq in Hx. subst x. exact Hin.
  - repeat match goal with
           | |- context [if ?b then _ else _] => destruct b; cbn; try discriminate
           end.
Qed.

Lemma issued_validate s kind lifetime now userID email role expected w :
  fst (tokenService_validateToken s
         (issued s kind lifetime now userID email role) expected w) =
  match Jwt.Validate (clock w)
          {| Jwt.ExpiresAt := Some (Jwt.NewNumericDate (Add now lifetime));
             Jwt.IssuedAt := Some (Jwt.NewNumericDate now);
             Jwt.NotBefore := Some (Jwt.NewNumericDate now);
             Jwt.Subject := userID |} with
  | Some e => Err (fmt_Errorf "failed to parse token" e)
  | None =>
      if (kind =? expected)%string then
        Ok {| Claims_UserID := userID; Claims_Email := email; Claims_Role := role;
              Claims_TokenType := kind;
              Claims_Registered :=
                {| Jwt.ExpiresAt := Some (Jwt.NewNumericDate (Add now lifetime));
                   Jwt.IssuedAt := Some (Jwt.NewNumericDate now);
                   Jwt.NotBefore := Some (Jwt.NewNumericDate now);
                   Jwt.Subject := userID |} |}
      else Err (errors_New ("invalid token type: expected " ++ expected
                            ++ ", got " ++ kind))
  end.
Proof.
  unfold tokenService_validateToken, issued. run.
  unfold Jwt.ParseWithClaims.
  change (Jwt.GetSigningMethod "HS256") with (Some (Jwt.SigningMethodHMAC "HS256")).
  cbn [keyFunc Jwt.isHMAC Jwt.Method negb Jwt.Verify].
  rewrite !String.eqb_refl, TokenClaims_eqb_refl.
  cbn [andb negb Claims_Registered].
  destruct (Jwt.Validate _ _); [reflexivity|].
  cbn [Jwt.Valid Jwt.Claims negb Claims_TokenType].
  destruct (kind =? expected)%string; reflexivity.
Qed.

(** ** C7: token kinds *)

(** C7. A token issued as a refresh token never validates through the
    access-token validator, and a token issued as an access token never
    validates through the refresh-token validator, whatever the time of
    the check: the validator answers with the wrong-kind error, unless the
    token already fails to parse (expired, or not yet valid). *)
Theorem C7_token_kind_isolation :
  forall (s : tokenService) (userID email role : string) (w w' : World),
    (exists t,
        fst (tokenService_GenerateRefreshToken s userID email role w) = Ok t /\
        (fst (tokenService_ValidateAccessToken s t w') =
           Err (errors_New "invalid token type: expected access, got refresh") \/
         exists e, fst (tokenService_ValidateAccessToken s t w') =
                     Err (fmt_Errorf "failed to parse token" e))) /\
    (exists t,
        fst (tokenService_GenerateAccessToken s userID email role w) = Ok t /\
        (fst (tokenService_ValidateRefreshToken s t w') =
           Err (errors_New "invalid token type: expected refresh, got access") \/
         exists e, fst (tokenService_ValidateRefreshToken s t w') =
                     Err (fmt_Errorf "failed to parse token" e))).
Proof.
  intros s userID email role w w'. split.
  - rewrite GenerateRefreshToken_run. eexists. split; [reflexivity|].
    unfold tokenService_ValidateAccessToken. rewrite issued_validate.
    destruct (Jwt.Validate _ _) as [e|]; [right; eauto | left; reflexivity].
  - rewrite GenerateAccessToken_run. eexists. split; [reflexivity|].
    unfold tokenService_ValidateRefreshToken. rewrite issued_validate.
    destruct (Jwt.Validate _ _) as [e|]; [right; eauto | left; reflexivity].
Qed.

(** ** C9: signing methods *)

Lemma validateToken_non_hmac s alg claims sig kind w :
  ~ In alg ["HS256"; "HS384"; "HS512"] ->
  exists e,
    fst (tokenService_validateToken s (Jwt.Compact (Some alg) claims sig) kind w) =
    Err (fmt_Errorf "failed to parse token" (fmt_Errorf "token is unverifiable" e)).
Proof.
  intro Hn.
  assert (Hh : existsb (String.eqb alg) ["HS256"; "HS384"; "HS512"] = false).
  { destruct (existsb _ _) eqn:E; [|reflexivity].
    apply existsb_exists in E. destruct E as [x [Hin Hx]].
    apply String.eqb_eq in Hx. subst x. contradiction. }
  unfold tokenService_validateToken. run.
  unfold Jwt.ParseWithClaims, Jwt.GetSigningMethod. rewrite Hh.
  repeat match goal with
         | |- context [if ?b then _ else _] => destruct b
         end; cbn; eauto.
Qed.

(** C9. A token string whose header names an algorithm other than HS256,
    HS384 or HS512 (none, RS256, an unknown name) is refused by both
    validators as unverifiable, whatever its claims and signature. *)
Theorem C9_only_hmac_validates :
  forall (s : tokenService) (alg : string) (claims : TokenClaims)
         (sig : Jwt.Signature) (w : World),
    ~ In alg ["HS256"; "HS384"; "HS512"] ->
    (exists e,
        fst (tokenService_ValidateAccessToken s (Jwt.Compact (Some alg) claims sig) w) =
        Err (fmt_Errorf "failed to parse token" (fmt_Errorf "token is unverifiable" e))) /\
    (exists e,
        fst (tokenService_ValidateRefreshToken s (Jwt.Compact (Some alg) claims sig) w) =
        Err (fmt_Errorf "failed to parse token" (fmt_Errorf "token is unverifiable" e))).
Proof.
  intros s alg claims sig w Hn. split.
  - apply validateToken_non_hmac; exact Hn.
  - apply validateToken_non_hmac; exact Hn.
Qed.

(** C9 at the algorithm "none". *)
Lemma C9_only_hmac_validates_witness :
  ~ In "none" ["HS256"; "HS384"; "HS512"] /\
  (exists e,
      fst (tokenService_ValidateAccessToken sample_tokens
             (Jwt.Compact (Some "none") sample_claims (Jwt.NotMAC "")) empty_world) =
      Err (fmt_Errorf "failed to parse token" (fmt_Errorf "token is unverifiable" e))) /\
  (exists e,
      fst (tokenService_ValidateRefreshToken sample_tokens
             (Jwt.Compact (Some "none") sample_claims (Jwt.NotMAC "")) empty_world) =
      Err (fmt_Errorf "failed to parse token" (fmt_Errorf "token is unverifiable" e))).
Proof.
  assert (H : ~ In "none" ["HS256"; "HS384"; "HS512"]).
  { simpl. intros [H | [H | [H | []]]]; discriminate H. }
  split; [exact H|].
  exact (C9_only_hmac_validates sample_tokens "none" sample_claims (Jwt.NotMAC "")
           empty_world H).
Defined.

(** ** The repositories, run *)

Lemma FindByEmail_run email w :
  userRepository_FindByEmail email w =
  (if hd false (faults w)
   then Err (fmt_Errorf "failed to find user by email" driver_error)
   else Ok (gorm_First User_ID (fun r => (User_Email r =? email)%string) (users w)),
   set_faults (tl (faults w)) w).
Proof.
  unfold userRepository_FindByEmail. run. destruct (hd false (faults w)); reflexivity.
Qed.

Lemma FindByID_run id w :
  userRepository_FindByID id w =
  (if hd false (faults w)
   then Err (fmt_Errorf "failed to find user by ID" driver_error)
   else Ok (gorm_First User_ID (fun r => (User_ID r =? id)%string) (users w)),
   set_faults (tl (faults w)) w).
Proof.
  unfold userRepository_FindByID. run. destruct (hd false (faults w)); reflexivity.
Qed.

Lemma FindByProviderID_run provider providerID w :
  userRepository_FindByProviderID provider providerID w =
  (if hd false (faults w)
   then Err (fmt_Errorf "failed to find user by provider ID" driver_error)
   else Ok (gorm_First User_ID
              (fun r => (User_Provider r =? provider)%string &&
                        match User_ProviderID r with
                        | Some p => (p =? providerID)%string
                        | None => false
                        end) (users w)),
   set_faults (tl (faults w)) w).
Proof.
  unfold userRepository_FindByProviderID. run.
  destruct (hd false (faults w)); reflexivity.
Qed.

Lemma EmailExists_run email w :
  userRepository_EmailExists email w =
  (if hd false (faults w)
   then Err (fmt_Errorf "failed to check email existence" driver_error)
   else Ok (0 <? Z.of_nat (List.length
                             (filter (fun r => (User_Email r =? email)%string) (users w)))),
   set_faults (tl (faults w)) w).
Proof.
  unfold userRepository_EmailExists. run. destruct (hd false (faults w)); reflexivity.
Qed.

Lemma IsTokenValid_run refreshToken w :
  tokenRepository_IsTokenValid refreshToken w =
  (if hd false (faults w)
   then Err (fmt_Errorf "failed to check token validity" driver_error)
   else Ok (0 <? Z.of_nat (List.length
                             (filter (active_at (clock w) refreshToken) (tokens w)))),
   set_faults (tl (faults w)) w).
Proof.
  unfold tokenRepository_IsTokenValid. run. destruct (hd false (faults w)); reflexivity.
Qed.

Lemma DeleteByRefreshToken_run refreshToken w :
  tokenRepository_DeleteByRefreshToken refreshToken w =
  if hd false (faults w)
  then (Err (fmt_Errorf "failed to delete token by refresh token" driver_error),
        set_faults (tl (faults w)) w)
  else (Ok tt,
        set_tokens
          (filter (fun r => negb (TokenString_eqb (Token_RefreshToken r) refreshToken))
             (tokens w))
          (set_faults (tl (faults w)) w)).
Proof.
  unfold tokenRepository_DeleteByRefreshToken. run.
  destruct (hd false (faults w)); reflexivity.
Qed.

Lemma RevokeAllUserTokens_run userID w :
  tokenRepository_RevokeAllUserTokens userID w =
  if hd false (faults w)
  then (Err (fmt_Errorf "failed to revoke all user tokens" driver_error),
        set_faults (tl (faults w)) w)
  else (Ok tt,
        set_tokens
          (map (fun r => if (Token_UserID r =? userID)%string
                         then set_Token_expiry (Add (clock w) (-1 * time_Hour)) (clock w) r
                         else r) (tokens w))
          (set_faults (tl (faults w)) w)).
Proof.
  unfold tokenRepository_RevokeAllUserTokens. run.
  destruct (hd false (faults w)); reflexivity.
Qed.

Lemma tokenRepository_Create_run token w :
  tokenRepository_Create token w =
  if hd false (faults w)
  then (Err (fmt_Errorf "failed to create token" driver_error),
        set_faults (tl (faults w)) w)
  else
    let row := created_row token w in
    if existsb (fun r => (Token_ID r =? Token_ID row)%string) (tokens w) ||
       existsb (fun r => TokenString_eqb (Token_RefreshToken r) (Token_RefreshToken row))
         (tokens w)
    then (Err (fmt_Errorf "failed to create token" pg_unique_violation),
          after_insert token w)
    else (Ok tt, set_tokens (tokens w ++ [row]) (after_insert token w)).
Proof.
  unfold tokenRepository_Create, gorm_prepare_token, insert_token, created_row,
    after_insert. run.
  destruct (hd false (faults w)); [reflexivity|].
  destruct (Token_ID token =? "")%string; run;
    match goal with
    | |- context [if ?b then _ else _] => destruct b
    end; reflexivity.
Qed.

(** Whatever [tokenRepository.Create] answers, it leaves users and clock
    alone, and the session table is unchanged or longer by one row. *)
Lemma tokenRepository_Create_frame token w :
  users (snd (tokenRepository_Create token w)) = users w /\
  clock (snd (tokenRepository_Create token w)) = clock w.
Proof.
  rewrite tokenRepository_Create_run. unfold after_insert.
  destruct (hd false (faults w)); [split; reflexivity|]. cbv zeta.
  destruct (_ || _); destruct (Token_ID token =? "")%string; split; reflexivity.
Qed.

Lemma filter_length_pos {A} (f : A -> bool) (l : list A) :
  (0 <? Z.of_nat (List.length (filter f l))) = true <->
  exists r, In r l /\ f r = true.
Proof.
  split.
  - intro H. destruct (filter f l) as [|r rs] eqn:E; [discriminate H|].
    exists r. apply filter_In. rewrite E. left; reflexivity.
  - intros [r Hr]. apply filter_In in Hr.
    destruct (filter f l); [destruct Hr|]. cbn [List.length].
    apply Z.ltb_lt. lia.
Qed.

(** ** The common tail of the login paths *)

Lemma issue_and_store_run ts user mk msg w entity w1 :
  mk (User_ID user) (refresh_of ts user w) (Add (clock w) (refreshExpiry ts)) w
  = (Ok entity, w1) ->
  issue_and_store ts user mk msg w =
  match tokenRepository_Create entity w1 with
  | (Ok _, w2) =>
      (Ok (ToAuthResponse user (access_of ts user w) (refresh_of ts user w)
             (Seconds (accessExpiry ts))), w2)
  | (Err e, w2) => (Err (fmt_Errorf msg (e)), w2)
  end.
Proof.
  intro Hmk. unfold issue_and_store, bind, wrap.
  rewrite GenerateAccessToken_run, GenerateRefreshToken_run.
  unfold time_Now, gets.
  change (tokenService_GetTokenExpiration ts TokenTypeRefresh) with (refreshExpiry ts).
  change (tokenService_GetTokenExpiration ts TokenTypeAccess) with (accessExpiry ts).
  unfold refresh_of in Hmk. rewrite Hmk.
  destruct (tokenRepository_Create entity w1) as [[u|e] w2]; reflexivity.
Qed.

Lemma issue_and_store_literal ts user msg w :
  issue_and_store ts user Token_literal msg w =
  match tokenRepository_Create (literal_entity ts user w) w with
  | (Ok _, w2) =>
      (Ok (ToAuthResponse user (access_of ts user w) (refresh_of ts user w)
             (Seconds (accessExpiry ts))), w2)
  | (Err e, w2) => (Err (fmt_Errorf msg e), w2)
  end.
Proof. apply issue_and_store_run. reflexivity. Qed.

Lemma issue_and_store_new ts user msg w :
  issue_and_store ts user NewToken msg w =
  match tokenRepository_Create (new_entity ts user w) (set_entropy (S (entropy w)) w) with
  | (Ok _, w2) =>
      (Ok (ToAuthResponse user (access_of ts user w) (refresh_of ts user w)
             (Seconds (accessExpiry ts))), w2)
  | (Err e, w2) => (Err (fmt_Errorf msg e), w2)
  end.
Proof. apply issue_and_store_run. reflexivity. Qed.

(** The tail fails only with a wrapped error, and never touches the users
    or the clock. *)
Lemma issue_and_store_literal_err ts user msg w e :
  fst (issue_and_store ts user Token_literal msg w) = Err e ->
  exists cause, e = fmt_Errorf msg cause.
Proof.
  rewrite issue_and_store_literal.
  destruct (tokenRepository_Create _ _) as [[u|e'] w2]; cbn; intro H; inversion H; eauto.
Qed.

Lemma issue_and_store_new_err ts user msg w e :
  fst (issue_and_store ts user NewToken msg w) = Err e ->
  exists cause, e = fmt_Errorf msg cause.
Proof.
  rewrite issue_and_store_new.
  destruct (tokenRepository_Create _ _) as [[u|e'] w2]; cbn; intro H; inversion H; eauto.
Qed.

Lemma issue_and_store_literal_users ts user msg w :
  users (snd (issue_and_store ts user Token_literal msg w)) = users w.
Proof.
  rewrite issue_and_store_literal.
  pose proof (tokenRepository_Create_frame (literal_entity ts user w) w) as [Hu _].
  destruct (tokenRepository_Create _ _) as [[u|e'] w2]; exact Hu.
Qed.

Lemma issue_and_store_new_users ts user msg w :
  users (snd (issue_and_store ts user NewToken msg w)) = users w.
Proof.
  rewrite issue_and_store_new.
  pose proof (tokenRepository_Create_frame (new_entity ts user w)
                (set_entropy (S (entropy w)) w)) as [Hu _].
  destruct (tokenRepository_Create _ _) as [[u|e'] w2]; exact Hu.
Qed.

(** The sample world is what Register followed by Login leaves behind,
    one minute later. *)
Lemma sample_world_reached :
  exists resp1 w1 resp2 w2,
    RegisterUseCase_Execute sample_register register_request empty_world = (Ok resp1, w1) /\
    LoginUseCase_Execute sample_login good_login w1 = (Ok resp2, w2) /\
    set_clock (clock sample_world) w2 = sample_world.
Proof.
  eexists. eexists. eexists. eexists.
  split; [vm_compute; reflexivity|].
  split; vm_compute; reflexivity.
Qed.

(** ** C8: a refused login leaves the sessions alone *)

(** C8. A login that fails with "invalid credentials" (unknown email, no
    password on the account, or password mismatch) or with the request to
    use OAuth (OAuth-only account) leaves the session table, and the user
    table, exactly as they were: no session is created, deleted or
    modified. *)
Theorem C8_failed_login_keeps_sessions :
  forall (uc : LoginUseCase) (req : LoginRequest) (w w' : World) (e : error),
    LoginUseCase_Execute uc req w = (Err e, w') ->
    e = errors_New "invalid credentials" \/
    e = errors_New "please use OAuth login for this account" ->
    tokens w' = tokens w /\ users w' = users w.
Proof.
  intros uc req w w' e Hrun He.
  unfold LoginUseCase_Execute, bind, wrap in Hrun.
  rewrite FindByEmail_run in Hrun.
  destruct (hd false (faults w)).
  { inversion Hrun; subst. destruct He as [He|He]; discriminate He. }
  destruct (gorm_First _ _ _) as [user|].
  2:{ unfold fail in Hrun. inversion Hrun; subst. split; reflexivity. }
  destruct (User_IsOAuthUser user).
  { unfold fail in Hrun. inversion Hrun; subst. split; reflexivity. }
  destruct (User_Password user) as [password|].
  2:{ unfold fail in Hrun. inversion Hrun; subst. split; reflexivity. }
  destruct (passwordService_VerifyPassword _ _ _).
  { unfold fail in Hrun. inversion Hrun; subst. split; reflexivity. }
  unfold ignore_error in Hrun. cbn [fst snd] in Hrun.
  match type of Hrun with
  | issue_and_store ?ts ?u _ ?m ?w0 = _ =>
      pose proof (issue_and_store_literal_err ts u m w0 e) as Herr
  end.
  rewrite Hrun in Herr. destruct (Herr eq_refl) as [cause Hc].
  subst e. destruct He as [He|He]; discriminate He.
Qed.

(** C8 at a login with a wrong password. *)
Lemma C8_failed_login_keeps_sessions_witness :
  LoginUseCase_Execute sample_login
    {| LoginRequest_Email := "u@x.com"; LoginRequest_Password := "wrongpass" |}
    sample_world
  = (Err (errors_New "invalid credentials"), sample_world) /\
  tokens sample_world = tokens sample_world /\
  users sample_world = users sample_world.
Proof.
  assert (H : LoginUseCase_Execute sample_login
                {| LoginRequest_Email := "u@x.com"; LoginRequest_Password := "wrongpass" |}
                sample_world
              = (Err (errors_New "invalid credentials"), sample_world))
    by (vm_compute; reflexivity).
  split; [exact H|].
  exact (C8_failed_login_keeps_sessions _ _ _ _ _ H (or_introl eq_refl)).
Defined.

(** ** C10: a refresh for a vanished identity *)

(** C10. When Refresh fails with "user not found", the session table is
    what it was before the call, the clock has not moved, and the session
    record of the presented token is still there and still active
    (expires_at > now): the lookup of the user comes before the deletion
    of the old token. *)
Theorem C10_refresh_user_not_found_keeps_session :
  forall (uc : RefreshTokenUseCase) (req : RefreshTokenRequest) (w w' : World),
    RefreshTokenUseCase_Execute uc req w = (Err (errors_New "user not found"), w') ->
    tokens w' = tokens w /\
    clock w' = clock w /\
    exists r, In r (tokens w') /\
              Token_RefreshToken r = RefreshTokenRequest_RefreshToken req /\
              clock w' < Token_ExpiresAt r.
Proof.
  intros uc req w w' Hrun.
  unfold RefreshTokenUseCase_Execute, bind, wrap in Hrun.
  unfold tokenService_ValidateRefreshToken in Hrun.
  pose proof (validateToken_world (Refresh_tokenService uc)
                (RefreshTokenRequest_RefreshToken req) TokenTypeRefresh w) as Hw.
  destruct (tokenService_validateToken _ _ _ w) as [[claims|e] w0]; cbn in Hw; subst w0;
    [|discriminate Hrun].
  rewrite IsTokenValid_run in Hrun.
  destruct (hd false (faults w)); [discriminate Hrun|].
  destruct (0 <? _) eqn:Hvalid; cbn [negb] in Hrun; [|discriminate Hrun].
  rewrite FindByID_run in Hrun. cbn [faults set_faults users] in Hrun.
  destruct (hd false (tl (faults w))); [discriminate Hrun|].
  destruct (gorm_First _ _ _) as [user|].
  - rewrite DeleteByRefreshToken_run in Hrun. cbn [faults set_faults] in Hrun.
    destruct (hd false (tl (tl (faults w)))); [discriminate Hrun|].
    match type of Hrun with
    | issue_and_store ?ts ?u _ ?m ?w0 = _ =>
        pose proof (issue_and_store_new_err ts u m w0 (errors_New "user not found")) as Herr
    end.
    rewrite Hrun in Herr. destruct (Herr eq_refl) as [cause Hc]. discriminate Hc.
  - unfold fail in Hrun. inversion Hrun; subst w'. cbn.
    split; [reflexivity|]. split; [reflexivity|].
    apply filter_length_pos in Hvalid. destruct Hvalid as [r [Hin Hact]].
    unfold active_at in Hact. apply andb_true_iff in Hact. destruct Hact as [Ht Hexp].
    exists r. split; [exact Hin|]. split.
    + apply TokenString_eqb_eq. exact Ht.
    + apply Z.ltb_lt. exact Hexp.
Qed.

(** C10 at the session of an account that is gone. *)
Lemma C10_refresh_user_not_found_keeps_session_witness :
  RefreshTokenUseCase_Execute sample_refresh sample_refresh_request orphan_world
  = (Err (errors_New "user not found"), orphan_world) /\
  tokens orphan_world = tokens orphan_world /\
  clock orphan_world = clock orphan_world /\
  exists r, In r (tokens orphan_world) /\
            Token_RefreshToken r = RefreshTokenRequest_RefreshToken sample_refresh_request /\
            clock orphan_world < Token_ExpiresAt r.
Proof.
  assert (H : RefreshTokenUseCase_Execute sample_refresh sample_refresh_request orphan_world
              = (Err (errors_New "user not found"), orphan_world))
    by (vm_compute; reflexivity).
  split; [exact H|].
  exact (C10_refresh_user_not_found_keeps_session _ _ _ _ H).
Defined.

(** ** C1: registration and the session table *)

(** Registration never writes to the session table. *)
Lemma Register_keeps_sessions uc req w :
  tokens (snd (RegisterUseCase_Execute uc req w)) = tokens w.
Proof.
  unfold RegisterUseCase_Execute, bind, wrap.
  rewrite EmailExists_run.
  destruct (hd false (faults w)); [reflexivity|].
  destruct (0 <? _); [reflexivity|].
  unfold passwordService_HashPassword, NewUser, User_SetPassword,
    userRepository_Create, gorm_prepare_user, insert_user.
  rewrite ?GenerateAccessToken_run, ?GenerateRefreshToken_run.
  run.
  repeat (break_if; run; try reflexivity).
Qed.

(** C1 (what the code does). No registration writes a session record; so
    Register("u@x.com", "password1", "Una") on an empty database succeeds,
    creates the account, leaves the session table empty, and the refresh
    token it returned is refused by Refresh as revoked or expired. *)
Theorem C1_register_stores_no_session :
  (forall uc req w, tokens (snd (RegisterUseCase_Execute uc req w)) = tokens w) /\
  exists resp w1,
    RegisterUseCase_Execute sample_register register_request empty_world = (Ok resp, w1) /\
    users w1 = [sample_user] /\
    tokens w1 = [] /\
    fst (RefreshTokenUseCase_Execute sample_refresh
           {| RefreshTokenRequest_RefreshToken := AuthResponse_RefreshToken resp |} w1)
    = Err (errors_New "refresh token has been revoked or expired").
Proof.
  split; [exact Register_keeps_sessions|].
  eexists. eexists. split; [vm_compute; reflexivity|].
  split; [reflexivity|]. split; [reflexivity|].
  vm_compute. reflexivity.
Qed.

(** ** C4: registering an email twice *)

(** C4 (what the code does). After Register("a@b.com") has succeeded,
    Register("a@b.com") is refused with "email already exists", but
    Register("A@B.com") is not: the existence check compares the email as
    typed, the insert of the lower-cased email then breaks the unique
    index, and the call fails with "failed to create user", which the
    handler does not report as a duplicate email. The user table keeps
    its single row. *)
Theorem C4_other_casing_fails_at_the_insert :
  exists resp w1 w2,
    RegisterUseCase_Execute sample_register register_ab empty_world = (Ok resp, w1) /\
    fst (RegisterUseCase_Execute sample_register register_ab w1)
    = Err (errors_New "email already exists") /\
    RegisterUseCase_Execute sample_register register_AB w1
    = (Err (fmt_Errorf "failed to create user"
              (fmt_Errorf "failed to create user" pg_unique_violation)), w2) /\
    is_email_exists (fmt_Errorf "failed to create user"
                       (fmt_Errorf "failed to create user" pg_unique_violation)) = false /\
    users w2 = users w1.
Proof.
  eexists. eexists. eexists.
  split; [vm_compute; reflexivity|].
  split; [vm_compute; reflexivity|].
  split; [vm_compute; reflexivity|].
  split; vm_compute; reflexivity.
Qed.

(** ** C6: the password service *)

(** Outside 8..128 bytes a password is refused before bcrypt is called:
    the random source is not read. *)
Lemma HashPassword_outside_policy s password w :
  len password < 8 \/ 128 < len password ->
  exists e,
    passwordService_HashPassword s password w
    = (Err (fmt_Errorf "password validation failed" e), w).
Proof.
  intro H. unfold passwordService_HashPassword, passwordService_ValidatePassword.
  destruct (Z.ltb_spec (len password) 8); [eexists; reflexivity|].
  destruct (Z.ltb_spec 128 (len password)); [eexists; reflexivity|]. lia.
Qed.

(** From 8 to 72 bytes, with a cost bcrypt takes, hashing succeeds and the
    hash verifies the password. *)
Lemma HashPassword_round_trip s password w :
  8 <= len password <= 72 -> cost s <= Bcrypt.MaxCost ->
  exists h,
    fst (passwordService_HashPassword s password w) = Ok h /\
    passwordService_VerifyPassword s password h = None.
Proof.
  intros Hlen Hcost.
  unfold passwordService_HashPassword, passwordService_ValidatePassword,
    passwordService_VerifyPassword, Bcrypt.GenerateFromPassword,
    Bcrypt.CompareHashAndPassword.
  destruct (Z.ltb_spec (len password) 8); [lia|].
  destruct (Z.ltb_spec 128 (len password)); [lia|].
  run.
  destruct (Z.ltb_spec 72 (len password)); [lia|].
  assert (Hc : Bcrypt.checkCost
                 (if cost s <? Bcrypt.MinCost then Bcrypt.DefaultCost else cost s) = None).
  { unfold Bcrypt.checkCost, Bcrypt.MinCost, Bcrypt.MaxCost, Bcrypt.DefaultCost in *.
    destruct (Z.ltb_spec (cost s) 4).
    - reflexivity.
    - destruct (Z.ltb_spec (cost s) 4); [lia|].
      destruct (Z.ltb_spec 31 (cost s)); [lia|]. reflexivity. }
  rewrite Hc. eexists. split; [reflexivity|].
  cbv beta iota. rewrite Hc, String.eqb_refl. reflexivity.
Qed.

(** From 73 to 128 bytes a password passes validation and bcrypt refuses
    it. *)
Lemma HashPassword_too_long s password w :
  72 < len password <= 128 ->
  passwordService_ValidatePassword s password = None /\
  fst (passwordService_HashPassword s password w)
  = Err (fmt_Errorf "failed to hash password" Bcrypt.ErrPasswordTooLong).
Proof.
  intro Hlen.
  unfold passwordService_HashPassword, passwordService_ValidatePassword,
    Bcrypt.GenerateFromPassword.
  destruct (Z.ltb_spec (len password) 8); [lia|].
  destruct (Z.ltb_spec 128 (len password)); [lia|].
  split; [reflexivity|]. run.
  destruct (Z.ltb_spec 72 (len password)); [reflexivity|lia].
Qed.

(** C6 (what the code does). A password of 73 bytes is within the policy
    of [ValidatePassword], yet [HashPassword] fails on it: bcrypt takes at
    most 72 bytes. *)
Theorem C6_hash_fails_on_73_bytes :
  len password73 = 73 /\
  passwordService_ValidatePassword NewPasswordService password73 = None /\
  fst (passwordService_HashPassword NewPasswordService password73 empty_world)
  = Err (fmt_Errorf "failed to hash password" Bcrypt.ErrPasswordTooLong).
Proof.
  split; [vm_compute; reflexivity|].
  apply HashPassword_too_long. vm_compute. split; congruence.
Qed.

(** ** C2: a failing revocation *)

Lemma existsb_none {A} (f : A -> bool) (l : list A) :
  (forall r, In r l -> f r = false) -> existsb f l = false.
Proof.
  intro H. destruct (existsb f l) eqn:E; [|reflexivity].
  apply existsb_exists in E. destruct E as [r [Hin Hr]].
  rewrite (H r Hin) in Hr. discriminate Hr.
Qed.

Lemma tokenRepository_Create_ok token w :
  hd false (faults w) = false ->
  (forall r, In r (tokens w) -> Token_ID r <> Token_ID (created_row token w)) ->
  (forall r, In r (tokens w) -> Token_RefreshToken r <> Token_RefreshToken token) ->
  tokenRepository_Create token w =
  (Ok tt, set_tokens (tokens w ++ [created_row token w]) (after_insert token w)).
Proof.
  intros Hf Hid Htok. rewrite tokenRepository_Create_run, Hf. cbv zeta.
  rewrite (existsb_none _ _ (fun r Hin => string_eqb_neq _ _ (Hid r Hin))).
  rewrite existsb_none; [reflexivity|].
  intros r Hin. apply TokenString_eqb_neq. exact (Htok r Hin).
Qed.

(** When the table accepts the session, the tail of a login path succeeds
    and appends one row carrying the refresh token it returns. *)
Lemma issue_and_store_literal_ok ts user msg w :
  accepts_session (refresh_of ts user w) w ->
  exists resp w' row,
    issue_and_store ts user Token_literal msg w = (Ok resp, w') /\
    AuthResponse_RefreshToken resp = refresh_of ts user w /\
    tokens w' = (tokens w ++ [row])%list /\
    users w' = users w /\ clock w' = clock w /\ faults w' = tl (faults w) /\
    Token_RefreshToken row = refresh_of ts user w /\
    Token_UserID row = User_ID user /\
    Token_ExpiresAt row = Add (clock w) (refreshExpiry ts).
Proof.
  intros [Hf [Htok Hid]]. rewrite issue_and_store_literal.
  rewrite tokenRepository_Create_ok; [| exact Hf | exact Hid | exact Htok].
  eexists. eexists. eexists. split; [reflexivity|].
  unfold after_insert. cbn. repeat split; reflexivity.
Qed.

Lemma issue_and_store_new_ok ts user msg w :
  accepts_session (refresh_of ts user w) w ->
  exists resp w' row,
    issue_and_store ts user NewToken msg w = (Ok resp, w') /\
    AuthResponse_RefreshToken resp = refresh_of ts user w /\
    tokens w' = (tokens w ++ [row])%list /\
    users w' = users w /\ clock w' = clock w /\ faults w' = tl (faults w) /\
    Token_RefreshToken row = refresh_of ts user w /\
    Token_UserID row = User_ID user /\
    Token_ExpiresAt row = Add (clock w) (refreshExpiry ts).
Proof.
  intros [Hf [Htok Hid]]. rewrite issue_and_store_new.
  rewrite tokenRepository_Create_ok; [| exact Hf | exact Hid | exact Htok].
  eexists. eexists. eexists. split; [reflexivity|].
  unfold after_insert. cbn. repeat split; reflexivity.
Qed.

Lemma Revoke_failed userID w e w' :
  tokenRepository_RevokeAllUserTokens userID w = (Err e, w') ->
  w' = set_faults (tl (faults w)) w.
Proof.
  rewrite RevokeAllUserTokens_run. destruct (hd false (faults w)); intro H; inversion H.
  reflexivity.
Qed.

(** The identity resolution of the Google login works on the user table
    only. *)
Lemma resolve_frame g w :
  tokens (snd (GoogleAuthUseCase_resolve g w)) = tokens w /\
  clock (snd (GoogleAuthUseCase_resolve g w)) = clock w.
Proof.
  unfold GoogleAuthUseCase_resolve, bind, wrap.
  rewrite FindByProviderID_run.
  destruct (hd false (faults w)); [split; reflexivity|].
  destruct (gorm_First _ _ _) as [u|]; [split; reflexivity|].
  unfold ret at 1. rewrite FindByEmail_run. cbn [faults set_faults users].
  destruct (hd false (tl (faults w))); [split; reflexivity|].
  unfold userRepository_Update, userRepository_Create, gorm_prepare_user,
    insert_user, NewOAuthUser.
  run.
  repeat (break_if; run; try (split; reflexivity)).
Qed.

(** C2 (amended). A failure to revoke the prior sessions does not abort a
    login. For Login: when the account is found, is a local one and the
    password verifies, and the revocation then returns an error, the call
    goes on as if nothing had happened; provided the session table accepts
    the new row, Login succeeds, returns the freshly issued refresh token
    and has stored it as a new session after the prior sessions, all of
    them untouched. The same holds for the Google login, once the
    identity has been resolved. *)
Theorem C2_revocation_failure_does_not_abort :
  (forall (uc : LoginUseCase) (req : LoginRequest) (w w1 w2 : World)
          (user : User) (password : Bcrypt.Hashed) (e : error),
      userRepository_FindByEmail (LoginRequest_Email req) w = (Ok (Some user), w1) ->
      User_IsOAuthUser user = false ->
      User_Password user = Some password ->
      passwordService_VerifyPassword (Login_passwordService uc)
        (LoginRequest_Password req) password = None ->
      tokenRepository_RevokeAllUserTokens (User_ID user) w1 = (Err e, w2) ->
      accepts_session (refresh_of (Login_tokenService uc) user w2) w2 ->
      exists resp w3 row,
        LoginUseCase_Execute uc req w = (Ok resp, w3) /\
        tokens w3 = (tokens w ++ [row])%list /\
        Token_RefreshToken row = AuthResponse_RefreshToken resp /\
        Token_UserID row = User_ID user /\
        Token_ExpiresAt row = Add (clock w) (refreshExpiry (Login_tokenService uc)))
  /\
  (forall (uc : GoogleAuthUseCase) (g : GoogleUserInfo) (w w1 w2 : World)
          (user : User) (e : error),
      GoogleUserInfo_VerifiedEmail g = true ->
      GoogleAuthUseCase_resolve g w = (Ok user, w1) ->
      tokenRepository_RevokeAllUserTokens (User_ID user) w1 = (Err e, w2) ->
      accepts_session (refresh_of (Google_tokenService uc) user w2) w2 ->
      exists resp w3 row,
        GoogleAuthUseCase_Execute uc (Some g) w = (Ok resp, w3) /\
        tokens w3 = (tokens w ++ [row])%list /\
        Token_RefreshToken row = AuthResponse_RefreshToken resp /\
        Token_UserID row = User_ID user /\
        Token_ExpiresAt row = Add (clock w) (refreshExpiry (Google_tokenService uc))).
Proof.
  split.
  - intros uc req w w1 w2 user password e Hfind Hlocal Hpw Hverify Hrevoke Hacc.
    pose proof (Revoke_failed _ _ _ _ Hrevoke) as Hw2.
    assert (Hw1 : w1 = set_faults (tl (faults w)) w).
    { rewrite FindByEmail_run in Hfind. inversion Hfind. reflexivity. }
    destruct (issue_and_store_literal_ok (Login_tokenService uc) user
                "failed to store refresh token" w2 Hacc)
      as [resp [w3 [row [Hrun [Hrt [Htok [_ [_ [_ [Hrow [Huid Hexp]]]]]]]]]]].
    exists resp, w3, row.
    split.
    + unfold LoginUseCase_Execute, bind, wrap. rewrite FindByEmail_run.
      rewrite FindByEmail_run in Hfind.
      destruct (hd false (faults w)); [discriminate Hfind|].
      inversion Hfind as [[Hg Hw]]. rewrite Hg, Hlocal, Hpw, Hverify.
      unfold ignore_error. rewrite Hw, Hrevoke. cbn [fst snd]. exact Hrun.
    + subst w2 w1. cbn in Htok, Hexp.
      repeat split; try assumption. congruence.
  - intros uc g w w1 w2 user e Hver Hres Hrevoke Hacc.
    pose proof (Revoke_failed _ _ _ _ Hrevoke) as Hw2.
    pose proof (resolve_frame g w) as [Ht Hc]. rewrite Hres in Ht, Hc. cbn in Ht, Hc.
    destruct (issue_and_store_new_ok (Google_tokenService uc) user
                "failed to store refresh token" w2 Hacc)
      as [resp [w3 [row [Hrun [Hrt [Htok [_ [_ [_ [Hrow [Huid Hexp]]]]]]]]]]].
    exists resp, w3, row.
    split.
    + unfold GoogleAuthUseCase_Execute. rewrite Hver. cbn [negb].
      unfold bind at 1. rewrite Hres.
      unfold bind, ignore_error. rewrite Hrevoke. cbn [fst snd]. exact Hrun.
    + subst w2. cbn in Htok, Hexp. rewrite Ht in Htok. rewrite Hc in Hexp.
      repeat split; try assumption. congruence.
Qed.

Lemma sample_world_accepts :
  accepts_session (refresh_of sample_tokens sample_user sample_world) sample_world.
Proof.
  split; [reflexivity|]. split.
  - intros r [<-|[]]. apply TokenString_eqb_neq. vm_compute. reflexivity.
  - intros r [<-|[]] H. vm_compute in H. discriminate H.
Defined.

(** C2 at a login during which the driver fails on the revocation. *)
Lemma C2_revocation_failure_does_not_abort_witness :
  tokenRepository_RevokeAllUserTokens (User_ID sample_user)
    (set_faults [true] sample_world)
  = (Err (fmt_Errorf "failed to revoke all user tokens" driver_error), sample_world) /\
  exists resp w3 row,
    LoginUseCase_Execute sample_login good_login revoke_fails_world = (Ok resp, w3) /\
    tokens w3 = (tokens revoke_fails_world ++ [row])%list /\
    Token_RefreshToken row = AuthResponse_RefreshToken resp /\
    Token_UserID row = User_ID sample_user /\
    Token_ExpiresAt row =
      Add (clock revoke_fails_world) (refreshExpiry (Login_tokenService sample_login)).
Proof.
  assert (Hrevoke :
            tokenRepository_RevokeAllUserTokens (User_ID sample_user)
              (set_faults [true] sample_world)
            = (Err (fmt_Errorf "failed to revoke all user tokens" driver_error),
               sample_world))
    by (vm_compute; reflexivity).
  split; [exact Hrevoke|].
  exact (proj1 C2_revocation_failure_does_not_abort sample_login good_login
           revoke_fails_world (set_faults [true] sample_world) sample_world
           sample_user (Bcrypt.Bcrypted 10 0 (Bcrypt.key_material "password1"))
           (fmt_Errorf "failed to revoke all user tokens" driver_error)
           eq_refl eq_refl eq_refl eq_refl Hrevoke sample_world_accepts).
Defined.

(** C2 (counterexample). With the driver failing on the revocation, the
    step returns an error, and yet Login("u@x.com", "password1") succeeds:
    it returns a token pair and stores the new session next to the prior
    one, which is still there, unrevoked. *)
Lemma C2_revocation_failure_counterexample :
  fst (tokenRepository_RevokeAllUserTokens (User_ID sample_user)
         (set_faults [true] sample_world))
  = Err (fmt_Errorf "failed to revoke all user tokens" driver_error) /\
  exists resp w' row,
    LoginUseCase_Execute sample_login good_login revoke_fails_world = (Ok resp, w') /\
    tokens w' = [sample_session; row] /\
    Token_RefreshToken row = AuthResponse_RefreshToken resp.
Proof.
  split; [vm_compute; reflexivity|].
  eexists. eexists. eexists.
  split; [vm_compute; reflexivity|].
  split; reflexivity.
Qed.

(** ** C3: refresh rotation *)

Lemma filter_none {A} (f : A -> bool) (l : list A) :
  (forall r, In r l -> f r = false) -> filter f l = [].
Proof.
  induction l as [|a l IH]; intro H; [reflexivity|]. cbn.
  rewrite (H a (or_introl eq_refl)). apply IH. intros r Hr. apply H. right. exact Hr.
Qed.

(** C3. The rotation fails for a refresh token that is redeemed within
    the clock second it was issued in. A refresh token carries the user,
    the token type and its times in whole seconds and nothing else, so the
    token Refresh issues in that second for the same user is the token
    presented. Register and Login on an empty database; (a) half a second
    after the login the returned refresh token validates and is active,
    Refresh succeeds, the refresh token it returns is the very token
    presented, and redeeming the presented token a second time succeeds
    again; (b) one minute after the login instead, Refresh returns another
    token, and the second redemption fails with "refresh token has been
    revoked or expired". *)
Theorem C3_refresh_in_the_second_of_issue_repeats_the_token :
  (exists resp1 w1 login w2,
      RegisterUseCase_Execute sample_register register_request empty_world = (Ok resp1, w1) /\
      LoginUseCase_Execute sample_login good_login w1 = (Ok login, w2) /\
      AuthResponse_RefreshToken login
      = RefreshTokenRequest_RefreshToken sample_refresh_request /\
      set_clock (clock w2 + 499999995) w2 = same_second_world /\
      set_clock (clock w2 + 60 * time_Second) w2 = sample_world)
  /\
  (is_ok (fst (tokenService_ValidateRefreshToken sample_tokens
                 (RefreshTokenRequest_RefreshToken sample_refresh_request)
                 same_second_world)) = true /\
   fst (tokenRepository_IsTokenValid
          (RefreshTokenRequest_RefreshToken sample_refresh_request) same_second_world)
   = Ok true /\
   exists resp w' resp2 w'',
     RefreshTokenUseCase_Execute sample_refresh sample_refresh_request same_second_world
     = (Ok resp, w') /\
     AuthResponse_RefreshToken resp
     = RefreshTokenRequest_RefreshToken sample_refresh_request /\
     RefreshTokenUseCase_Execute sample_refresh sample_refresh_request w' = (Ok resp2, w''))
  /\
  (exists resp w',
      RefreshTokenUseCase_Execute sample_refresh sample_refresh_request sample_world
      = (Ok resp, w') /\
      AuthResponse_RefreshToken resp
      <> RefreshTokenRequest_RefreshToken sample_refresh_request /\
      fst (RefreshTokenUseCase_Execute sample_refresh sample_refresh_request w')
      = Err (errors_New "refresh token has been revoked or expired")).
Proof.
  split; [|split].
  - eexists. eexists. eexists. eexists.
    split; [vm_compute; reflexivity|].
    split; [vm_compute; reflexivity|].
    split; [vm_compute; reflexivity|].
    split; vm_compute; reflexivity.
  - split; [vm_compute; reflexivity|]. split; [vm_compute; reflexivity|].
    eexists. eexists. eexists. eexists.
    split; [vm_compute; reflexivity|].
    split; vm_compute; reflexivity.
  - eexists. eexists. split; [vm_compute; reflexivity|].
    split; [intro H; vm_compute in H; discriminate H|].
    vm_compute. reflexivity.
Qed.

(** ** C5: the account merge of the Google login *)

Lemma least_In {A} (key : A -> string) (rows : list A) (r : A) :
  least key rows = Some r -> In r rows.
Proof.
  revert r. induction rows as [|a rows IH]; intros r H; [discriminate H|].
  cbn in H. destruct (least key rows) as [m|].
  - destruct (String.leb (key a) (key m)); inversion H; subst.
    + left; reflexivity.
    + right. apply IH. reflexivity.
  - inversion H. left; reflexivity.
Qed.

Lemma gorm_First_In {A} (key : A -> string) (cond : A -> bool) (rows : list A) (r : A) :
  gorm_First key cond rows = Some r -> In r rows /\ cond r = true.
Proof.
  intro H. apply least_In in H. apply filter_In in H. exact H.
Qed.

(** [Save] on a row that exists, under the unique index on email. *)
Lemma userRepository_Update_existing user w :
  hd false (faults w) = false ->
  (exists r, In r (users w) /\ User_ID r = User_ID user) ->
  (forall r, In r (users w) -> User_Email r = User_Email user -> User_ID r = User_ID user) ->
  userRepository_Update user w =
  (Ok tt,
   set_users
     (map (fun r => if (User_ID r =? User_ID user)%string
                    then set_User_UpdatedAt (clock w) user else r) (users w))
     (set_faults (tl (faults w)) w)).
Proof.
  intros Hf [r0 [Hin0 Hid0]] Huniq.
  unfold userRepository_Update. run. rewrite Hf.
  cbn [User_ID User_Email set_User_UpdatedAt].
  rewrite existsb_none.
  - assert (He : existsb (fun r => (User_ID r =? User_ID user)%string) (users w) = true).
    { apply existsb_exists. exists r0. split; [exact Hin0|].
      apply String.eqb_eq. exact Hid0. }
    rewrite He. reflexivity.
  - intros r Hr. destruct (String.eqb_spec (User_Email r) (User_Email user)) as [E|E].
    + rewrite (proj2 (String.eqb_eq _ _) (Huniq r Hr E)). reflexivity.
    + apply andb_false_r.
Qed.

Lemma merge_google_ID g t u : User_ID (merge_google g t u) = User_ID u.
Proof. unfold merge_google. destruct (negb _); reflexivity. Qed.

Lemma merge_google_Email g t u : User_Email (merge_google g t u) = User_Email u.
Proof. unfold merge_google. destruct (negb _); reflexivity. Qed.

Lemma merge_google_touch g t u :
  set_User_UpdatedAt t (merge_google g t u) = merge_google g t u.
Proof. unfold merge_google. destruct (negb _); reflexivity. Qed.

(** C5. The merge is missed when the email of the Google profile equals
    the stored email only after normalisation. The stored email is
    "u@x.com", of a LOCAL account; the Google ID matches nobody. (a) The
    profile gives "U@X.com": the lookup by the email as given finds
    nothing, the new Google account gets the normalised email "u@x.com",
    the insert breaks the unique index, and the login fails with "failed
    to create user"; the stored account is unchanged, still LOCAL and
    without Google ID. (b) The profile gives "u@x.com": the account is
    merged; it carries provider GOOGLE and the Google ID, its email is
    verified, password hash and role are kept; and the avatar it had is
    replaced by the Google avatar, although it had one. *)
Theorem C5_google_email_in_capitals_is_not_merged :
  (strings_ToLower (strings_TrimSpace (GoogleUserInfo_Email google_capitals))
   = User_Email sample_user /\
   User_Provider sample_user = ProviderLocal /\
   fst (userRepository_FindByProviderID ProviderGoogle (GoogleUserInfo_ID google_capitals)
          sample_world) = Ok None /\
   fst (userRepository_FindByEmail (GoogleUserInfo_Email google_capitals) sample_world)
   = Ok None /\
   exists w',
     GoogleAuthUseCase_Execute sample_google (Some google_capitals) sample_world
     = (Err (fmt_Errorf "failed to create user"
               (fmt_Errorf "failed to create user" pg_unique_violation)), w') /\
     users w' = [sample_user] /\
     tokens w' = tokens sample_world)
  /\
  (GoogleUserInfo_Email google_una = User_Email avatar_user /\
   User_Provider avatar_user = ProviderLocal /\
   User_Avatar avatar_user = Some "/uploads/old.png" /\
   fst (userRepository_FindByProviderID ProviderGoogle (GoogleUserInfo_ID google_una)
          avatar_world) = Ok None /\
   exists resp w' row,
     GoogleAuthUseCase_Execute sample_google (Some google_una) avatar_world = (Ok resp, w') /\
     users w' = [row] /\
     User_ID row = User_ID avatar_user /\
     User_Provider row = ProviderGoogle /\
     User_ProviderID row = Some "g1" /\
     User_EmailVerified row = true /\
     User_Password row = User_Password avatar_user /\
     User_Role row = User_Role avatar_user /\
     User_Avatar row = Some "https://lh3.googleusercontent.com/a/new").
Proof.
  split.
  - split; [vm_compute; reflexivity|]. split; [reflexivity|].
    split; [vm_compute; reflexivity|]. split; [vm_compute; reflexivity|].
    eexists. split; [vm_compute; reflexivity|]. split; reflexivity.
  - split; [reflexivity|]. split; [reflexivity|]. split; [reflexivity|].
    split; [vm_compute; reflexivity|].
    eexists. eexists. eexists. split; [vm_compute; reflexivity|].
    repeat split; reflexivity.
Qed.


(* ================================================================== *)
(** * Further properties of the code *)
(* ================================================================== *)

(** ** Token service: life time, key, statelessness *)

Lemma truncated_le (t : Time) :
  Jwt.NumericDate_Time (Jwt.NewNumericDate t) <= t.
Proof.
  unfold Jwt.NumericDate_Time, Jwt.NewNumericDate, time_Second.
  pose proof (Z.div_mod t 1000000000 ltac:(lia)).
  pose proof (Z.mod_pos_bound t 1000000000 ltac:(lia)). lia.
Qed.

Lemma truncated_gt (t : Time) :
  t - time_Second < Jwt.NumericDate_Time (Jwt.NewNumericDate t).
Proof.
  unfold Jwt.NumericDate_Time, Jwt.NewNumericDate, time_Second.
  pose proof (Z.div_mod t 1000000000 ltac:(lia)).
  pose proof (Z.mod_pos_bound t 1000000000 ltac:(lia)). lia.
Qed.

Lemma validateToken_set_clock s tok kind t w :
  fst (tokenService_validateToken s tok kind (set_clock t w)) =
  fst (tokenService_validateToken s tok kind
         {| users := []; tokens := []; clock := t; entropy := 0; faults := [] |}).
Proof.
  unfold tokenService_validateToken. run.
  destruct (Jwt.ParseWithClaims Claims_Registered TokenClaims_eqb t tok (keyFunc s))
    as [token|e]; [|reflexivity].
  destruct (negb (Jwt.Valid token)); [reflexivity|].
  destruct (negb _); reflexivity.
Qed.

(** A token validates by the clock alone. *)
Lemma validateToken_clock_only s tok kind w w' :
  clock w = clock w' ->
  fst (tokenService_validateToken s tok kind w) =
  fst (tokenService_validateToken s tok kind w').
Proof.
  intro H.
  assert (Hw : forall v, fst (tokenService_validateToken s tok kind v) =
                         fst (tokenService_validateToken s tok kind (set_clock (clock v) v))).
  { intro v. destruct v; reflexivity. }
  rewrite (Hw w), (Hw w'), !validateToken_set_clock, H. reflexivity.
Qed.

Lemma issued_window (lifetime : Duration) (now : Time) (userID : string) (t : Time) :
  now <= t -> t <= now + lifetime - time_Second ->
  Jwt.Validate t
    {| Jwt.ExpiresAt := Some (Jwt.NewNumericDate (Add now lifetime));
       Jwt.IssuedAt := Some (Jwt.NewNumericDate now);
       Jwt.NotBefore := Some (Jwt.NewNumericDate now);
       Jwt.Subject := userID |} = None.
Proof.
  intros H1 H2. unfold Jwt.Validate, Before, Add. cbn [Jwt.ExpiresAt Jwt.NotBefore].
  pose proof (truncated_gt (now + lifetime)). pose proof (truncated_le now).
  destruct (Z.ltb_spec t (Jwt.NumericDate_Time (Jwt.NewNumericDate (now + lifetime))));
    [|lia]. cbn [negb].
  destruct (Z.ltb_spec t (Jwt.NumericDate_Time (Jwt.NewNumericDate now))); [lia|].
  reflexivity.
Qed.

Lemma issued_expired (lifetime : Duration) (now : Time) (userID : string) (t : Time) :
  now + lifetime <= t ->
  Jwt.Validate t
    {| Jwt.ExpiresAt := Some (Jwt.NewNumericDate (Add now lifetime));
       Jwt.IssuedAt := Some (Jwt.NewNumericDate now);
       Jwt.NotBefore := Some (Jwt.NewNumericDate now);
       Jwt.Subject := userID |}
  = Some (fmt_Errorf "token has invalid claims" Jwt.ErrTokenExpired).
Proof.
  intros H1. unfold Jwt.Validate, Before, Add. cbn [Jwt.ExpiresAt Jwt.NotBefore].
  pose proof (truncated_le (now + lifetime)).
  destruct (Z.ltb_spec t (Jwt.NumericDate_Time (Jwt.NewNumericDate (now + lifetime))));
    [lia|]. reflexivity.
Qed.

(** X1. Round trip of the access token: from the moment it is issued
    until one second before its life time is over, the access-token
    validator accepts it and gives back the user ID, email and role it was
    issued for. *)
Theorem access_token_round_trip :
  forall (s : tokenService) (userID email role : string) (w : World) (t : Time),
    clock w <= t ->
    t <= clock w + accessExpiry s - time_Second ->
    exists tok claims,
      fst (tokenService_GenerateAccessToken s userID email role w) = Ok tok /\
      fst (tokenService_ValidateAccessToken s tok (set_clock t w)) = Ok claims /\
      Claims_UserID claims = userID /\
      Claims_Email claims = email /\
      Claims_Role claims = role /\
      Claims_TokenType claims = TokenTypeAccess.
Proof.
  intros s userID email role w t H1 H2.
  rewrite GenerateAccessToken_run. eexists. eexists. split; [reflexivity|].
  unfold tokenService_ValidateAccessToken. rewrite issued_validate.
  cbn [clock set_clock].
  rewrite (issued_window _ _ userID t H1 H2).
  cbn. repeat split; reflexivity.
Qed.

(** X1 at the sample service, ten minutes after issuance. *)
Lemma access_token_round_trip_witness :
  exists tok claims,
    fst (tokenService_GenerateAccessToken sample_tokens "uuid-1" "u@x.com" "USER"
           sample_world) = Ok tok /\
    fst (tokenService_ValidateAccessToken sample_tokens tok
           (set_clock (clock sample_world + 600 * time_Second) sample_world)) = Ok claims /\
    Claims_UserID claims = "uuid-1" /\
    Claims_Email claims = "u@x.com" /\
    Claims_Role claims = "USER" /\
    Claims_TokenType claims = TokenTypeAccess.
Proof.
  apply (access_token_round_trip sample_tokens "uuid-1" "u@x.com" "USER" sample_world
           (clock sample_world + 600 * time_Second)).
  - vm_compute. discriminate.
  - vm_compute. discriminate.
Defined.

(** X2. Expiry: once the life time has passed, an issued access token is
    refused by the access validator, and an issued refresh token by the
    refresh validator, as expired. *)
Theorem issued_tokens_expire :
  forall (s : tokenService) (userID email role : string) (w : World) (t : Time),
    (clock w + accessExpiry s <= t ->
     exists tok,
       fst (tokenService_GenerateAccessToken s userID email role w) = Ok tok /\
       fst (tokenService_ValidateAccessToken s tok (set_clock t w))
       = Err (fmt_Errorf "failed to parse token"
                (fmt_Errorf "token has invalid claims" Jwt.ErrTokenExpired))) /\
    (clock w + refreshExpiry s <= t ->
     exists tok,
       fst (tokenService_GenerateRefreshToken s userID email role w) = Ok tok /\
       fst (tokenService_ValidateRefreshToken s tok (set_clock t w))
       = Err (fmt_Errorf "failed to parse token"
                (fmt_Errorf "token has invalid claims" Jwt.ErrTokenExpired))).
Proof.
  intros s userID email role w t. split; intro H.
  - rewrite GenerateAccessToken_run. eexists. split; [reflexivity|].
    unfold tokenService_ValidateAccessToken. rewrite issued_validate.
    cbn [clock set_clock].
    rewrite (issued_expired _ _ userID t H). reflexivity.
  - rewrite GenerateRefreshToken_run. eexists. split; [reflexivity|].
    unfold tokenService_ValidateRefreshToken. rewrite issued_validate.
    cbn [clock set_clock].
    rewrite (issued_expired _ _ userID t H). reflexivity.
Qed.

(** X2 at the sample service, exactly fifteen minutes after issuance. *)
Lemma issued_tokens_expire_witness :
  exists tok,
    fst (tokenService_GenerateAccessToken sample_tokens "uuid-1" "u@x.com" "USER"
           sample_world) = Ok tok /\
    fst (tokenService_ValidateAccessToken sample_tokens tok
           (set_clock (clock sample_world + 900 * time_Second) sample_world))
    = Err (fmt_Errorf "failed to parse token"
             (fmt_Errorf "token has invalid claims" Jwt.ErrTokenExpired)).
Proof.
  apply (proj1 (issued_tokens_expire sample_tokens "uuid-1" "u@x.com" "USER" sample_world
                  (clock sample_world + 900 * time_Second))).
  vm_compute. discriminate.
Defined.

(** X3. A token signed with another secret is refused: whatever a service
    with a different key has issued, both validators answer that the
    signature is invalid. *)
Theorem foreign_key_is_refused :
  forall (s s' : tokenService) (userID email role : string) (w w' : World),
    secretKey s <> secretKey s' ->
    (exists tok,
        fst (tokenService_GenerateAccessToken s userID email role w) = Ok tok /\
        fst (tokenService_ValidateAccessToken s' tok w')
        = Err (fmt_Errorf "failed to parse token" Jwt.ErrTokenSignatureInvalid)) /\
    (exists tok,
        fst (tokenService_GenerateRefreshToken s userID email role w) = Ok tok /\
        fst (tokenService_ValidateRefreshToken s' tok w')
        = Err (fmt_Errorf "failed to parse token" Jwt.ErrTokenSignatureInvalid)).
Proof.
  intros s s' userID email role w w' Hk.
  assert (Hne : (secretKey s' =? secretKey s)%string = false).
  { apply string_eqb_neq. congruence. }
  split.
  - rewrite GenerateAccessToken_run. eexists. split; [reflexivity|].
    unfold tokenService_ValidateAccessToken, tokenService_validateToken, issued. run.
    unfold Jwt.ParseWithClaims.
    change (Jwt.GetSigningMethod "HS256") with (Some (Jwt.SigningMethodHMAC "HS256")).
    cbn [keyFunc Jwt.isHMAC Jwt.Method negb Jwt.Verify].
    rewrite Hne. reflexivity.
  - rewrite GenerateRefreshToken_run. eexists. split; [reflexivity|].
    unfold tokenService_ValidateRefreshToken, tokenService_validateToken, issued. run.
    unfold Jwt.ParseWithClaims.
    change (Jwt.GetSigningMethod "HS256") with (Some (Jwt.SigningMethodHMAC "HS256")).
    cbn [keyFunc Jwt.isHMAC Jwt.Method negb Jwt.Verify].
    rewrite Hne. reflexivity.
Qed.

(** X3 with the sample service as issuer and a service with another
    secret as validator. *)
Lemma foreign_key_is_refused_witness :
  exists tok,
    fst (tokenService_GenerateAccessToken sample_tokens "uuid-1" "u@x.com" "USER"
           sample_world) = Ok tok /\
    fst (tokenService_ValidateAccessToken
           (NewTokenService "other" (900 * time_Second) (604800 * time_Second))
           tok sample_world)
    = Err (fmt_Errorf "failed to parse token" Jwt.ErrTokenSignatureInvalid).
Proof.
  apply (proj1 (foreign_key_is_refused sample_tokens
                  (NewTokenService "other" (900 * time_Second) (604800 * time_Second))
                  "uuid-1" "u@x.com" "USER" sample_world sample_world
                  ltac:(intro H; vm_compute in H; discriminate H))).
Defined.

(** X4. Whatever a validator accepts is a token of this service: its
    header names HS256, HS384 or HS512, its signature is the MAC of its
    claims under the service's secret, its kind is the expected one, and
    the time of the check is before its expiry and not before its
    not-before time. *)
Theorem accepted_tokens_are_authentic :
  forall (s : tokenService) (tok : TokenString) (kind : TokenType) (w : World)
         (claims : TokenClaims),
    fst (tokenService_validateToken s tok kind w) = Ok claims ->
    (exists alg,
        In alg ["HS256"; "HS384"; "HS512"] /\
        tok = Jwt.Compact (Some alg) claims (Jwt.HMAC alg (secretKey s) claims)) /\
    Claims_TokenType claims = kind /\
    (forall exp, Jwt.ExpiresAt (Claims_Registered claims) = Some exp ->
                 clock w < Jwt.NumericDate_Time exp) /\
    (forall nbf, Jwt.NotBefore (Claims_Registered claims) = Some nbf ->
                 Jwt.NumericDate_Time nbf <= clock w).
Proof.
  intros s tok kind w claims H.
  destruct (validateToken_ok s tok kind w claims H)
    as [alg [sig [Ht [Halg [Hsig [Hkind Hval]]]]]].
  split; [exists alg; split; [exact Halg | congruence]|].
  split; [exact Hkind|].
  unfold Jwt.Validate, Before in Hval.
  split.
  - intros exp He. rewrite He in Hval.
    destruct (Z.ltb_spec (clock w) (Jwt.NumericDate_Time exp)); [assumption|].
    discriminate Hval.
  - intros nbf Hn. rewrite Hn in Hval.
    destruct (match Jwt.ExpiresAt (Claims_Registered claims) with
              | Some exp => negb (clock w <? Jwt.NumericDate_Time exp)
              | None => false
              end); [discriminate Hval|].
    destruct (Z.ltb_spec (clock w) (Jwt.NumericDate_Time nbf)); [discriminate Hval|lia].
Qed.

(** X4 at the refresh token of the sample session. *)
Lemma accepted_tokens_are_authentic_witness :
  fst (tokenService_validateToken sample_tokens (Token_RefreshToken sample_session)
         TokenTypeRefresh sample_world) = Ok sample_session_claims /\
  (exists alg,
      In alg ["HS256"; "HS384"; "HS512"] /\
      Token_RefreshToken sample_session
      = Jwt.Compact (Some alg) sample_session_claims
          (Jwt.HMAC alg (secretKey sample_tokens) sample_session_claims)).
Proof.
  assert (H : fst (tokenService_validateToken sample_tokens
                     (Token_RefreshToken sample_session) TokenTypeRefresh sample_world)
              = Ok sample_session_claims) by (vm_compute; reflexivity).
  split; [exact H|].
  exact (proj1 (accepted_tokens_are_authentic _ _ _ _ _ H)).
Defined.

(** ** Logout *)

Lemma userRepository_Delete_run id w :
  userRepository_Delete id w =
  if hd false (faults w)
  then (Err (fmt_Errorf "failed to delete user" driver_error),
        set_faults (tl (faults w)) w)
  else (Ok tt,
        set_users (filter (fun r => negb (User_ID r =? id)%string) (users w))
          (set_faults (tl (faults w)) w)).
Proof.
  unfold userRepository_Delete. run. destruct (hd false (faults w)); reflexivity.
Qed.

(** X5. Access tokens are stateless: a token the access validator accepts
    is still accepted after the user has logged out from all devices, and
    after the user has been deleted. *)
Theorem access_token_survives_logout_and_deletion :
  forall (s : tokenService) (tok : TokenString) (userID : string) (w : World)
         (claims : TokenClaims),
    fst (tokenService_ValidateAccessToken s tok w) = Ok claims ->
    fst (tokenService_ValidateAccessToken s tok (snd (LogoutUseCase_ExecuteAll userID w)))
    = Ok claims /\
    fst (tokenService_ValidateAccessToken s tok (snd (DeleteUserUseCase_Execute userID w)))
    = Ok claims.
Proof.
  intros s tok userID w claims H. unfold tokenService_ValidateAccessToken in *.
  split.
  - rewrite <- H. apply validateToken_clock_only.
    unfold LogoutUseCase_ExecuteAll, wrap. rewrite RevokeAllUserTokens_run.
    destruct (hd false (faults w)); reflexivity.
  - rewrite <- H. apply validateToken_clock_only.
    unfold DeleteUserUseCase_Execute, bind, wrap. rewrite FindByID_run.
    destruct (hd false (faults w)); [reflexivity|].
    destruct (gorm_First _ _ _); [|reflexivity].
    rewrite userRepository_Delete_run. cbn [faults set_faults].
    destruct (hd false (tl (faults w))); reflexivity.
Qed.

(** X5 at an access token of the sample user. *)
Lemma access_token_survives_logout_and_deletion_witness :
  fst (tokenService_ValidateAccessToken sample_tokens
         (access_of sample_tokens sample_user sample_world) sample_world)
  = Ok sample_access_claims /\
  fst (tokenService_ValidateAccessToken sample_tokens
         (access_of sample_tokens sample_user sample_world)
         (snd (LogoutUseCase_ExecuteAll "uuid-1" sample_world)))
  = Ok sample_access_claims /\
  fst (tokenService_ValidateAccessToken sample_tokens
         (access_of sample_tokens sample_user sample_world)
         (snd (DeleteUserUseCase_Execute "uuid-1" sample_world)))
  = Ok sample_access_claims.
Proof.
  assert (H : fst (tokenService_ValidateAccessToken sample_tokens
                     (access_of sample_tokens sample_user sample_world) sample_world)
              = Ok sample_access_claims) by (vm_compute; reflexivity).
  split; [exact H|].
  exact (access_token_survives_logout_and_deletion _ _ "uuid-1" _ _ H).
Defined.

(** X6. Logout deletes the session of the presented refresh token and
    nothing else, and it does not matter whether such a session exists:
    when the driver works the call succeeds, afterwards no session holds
    the token, every other session is as before, and the token is not
    active. *)
Theorem logout_deletes_the_session :
  forall (tok : TokenString) (w : World),
    hd false (faults w) = false ->
    exists w',
      LogoutUseCase_Execute tok w = (Ok tt, w') /\
      tokens w' =
        filter (fun r => negb (TokenString_eqb (Token_RefreshToken r) tok)) (tokens w) /\
      (forall r, In r (tokens w') -> Token_RefreshToken r <> tok) /\
      (forall r, In r (tokens w) -> Token_RefreshToken r <> tok -> In r (tokens w')) /\
      filter (active_at (clock w') tok) (tokens w') = [] /\
      users w' = users w.
Proof.
  intros tok w Hf. unfold LogoutUseCase_Execute, wrap.
  rewrite DeleteByRefreshToken_run, Hf.
  eexists. split; [reflexivity|]. cbn [tokens users clock set_tokens set_faults].
  split; [reflexivity|].
  assert (Hgone : forall r,
             In r (filter (fun r => negb (TokenString_eqb (Token_RefreshToken r) tok))
                     (tokens w)) -> Token_RefreshToken r <> tok).
  { intros r Hr. apply filter_In in Hr. destruct Hr as [_ Hr].
    apply negb_true_iff in Hr. apply TokenString_eqb_neq. exact Hr. }
  split; [exact Hgone|]. split.
  - intros r Hr Hne. apply filter_In. split; [exact Hr|].
    apply negb_true_iff. apply TokenString_eqb_neq. exact Hne.
  - split; [|reflexivity]. apply filter_none. intros r Hr. unfold active_at.
    apply andb_false_iff. left. apply TokenString_eqb_neq. exact (Hgone r Hr).
Qed.

(** X6 at the sample session. *)
Lemma logout_deletes_the_session_witness :
  exists w',
    LogoutUseCase_Execute (Token_RefreshToken sample_session) sample_world = (Ok tt, w') /\
    tokens w' = [].
Proof.
  destruct (logout_deletes_the_session (Token_RefreshToken sample_session) sample_world
              eq_refl) as [w' [Hrun [Htok _]]].
  exists w'. split; [exact Hrun|]. rewrite Htok. vm_compute. reflexivity.
Defined.

(** X7. Logout from all devices revokes and does not delete: when the
    driver works the call succeeds, the session table keeps its length,
    every session of the user now expires one hour before the time of the
    call, and the sessions of the other users are the rows they were. *)
Theorem logout_all_revokes_every_session :
  forall (userID : string) (w : World),
    hd false (faults w) = false ->
    exists w',
      LogoutUseCase_ExecuteAll userID w = (Ok tt, w') /\
      List.length (tokens w') = List.length (tokens w) /\
      (forall r, In r (tokens w') -> Token_UserID r = userID ->
                 Token_ExpiresAt r = clock w - time_Hour) /\
      (forall r tok, In r (tokens w') -> Token_UserID r = userID ->
                     active_at (clock w') tok r = false) /\
      (forall r, Token_UserID r <> userID -> (In r (tokens w') <-> In r (tokens w))).
Proof.
  intros userID w Hf. unfold LogoutUseCase_ExecuteAll, wrap.
  rewrite RevokeAllUserTokens_run, Hf.
  eexists. split; [reflexivity|]. cbn [tokens clock set_tokens set_faults].
  split; [apply length_map|].
  assert (Hexp : forall r,
             In r (map (fun r => if (Token_UserID r =? userID)%string
                                 then set_Token_expiry (Add (clock w) (-1 * time_Hour))
                                        (clock w) r
                                 else r) (tokens w)) ->
             Token_UserID r = userID -> Token_ExpiresAt r = clock w - time_Hour).
  { intros r Hr Hu. apply in_map_iff in Hr. destruct Hr as [r0 [Hr0 _]].
    destruct (String.eqb_spec (Token_UserID r0) userID) as [E|E].
    - subst r. cbn. unfold Add. lia.
    - subst r. contradiction. }
  split; [exact Hexp|]. split.
  - intros r tok Hr Hu. unfold active_at. rewrite (Hexp r Hr Hu).
    apply andb_false_iff. right. apply Z.ltb_ge. unfold time_Hour, time_Second. lia.
  - intros r Hne. rewrite in_map_iff. split.
    + intros [r0 [Hr0 Hin]].
      destruct (String.eqb_spec (Token_UserID r0) userID) as [E|E].
      * subst r. cbn in Hne. contradiction.
      * subst r. exact Hin.
    + intro Hin. exists r. split; [|exact Hin].
      rewrite (string_eqb_neq _ _ Hne). reflexivity.
Qed.

(** X7 at the sample user. *)
Lemma logout_all_revokes_every_session_witness :
  exists w',
    LogoutUseCase_ExecuteAll "uuid-1" sample_world = (Ok tt, w') /\
    List.length (tokens w') = 1%nat /\
    (forall r tok, In r (tokens w') -> Token_UserID r = "uuid-1" ->
                   active_at (clock w') tok r = false).
Proof.
  destruct (logout_all_revokes_every_session "uuid-1" sample_world eq_refl)
    as [w' [Hrun [Hlen [_ [Hact _]]]]].
  exists w'. split; [exact Hrun|]. split; [exact Hlen | exact Hact].
Defined.

Lemma DeleteExpiredTokens_run w :
  tokenRepository_DeleteExpiredTokens w =
  if hd false (faults w)
  then (Err (fmt_Errorf "failed to delete expired tokens" driver_error),
        set_faults (tl (faults w)) w)
  else (Ok tt,
        set_tokens (filter (fun r => negb (Token_ExpiresAt r <? clock w)) (tokens w))
          (set_faults (tl (faults w)) w)).
Proof.
  unfold tokenRepository_DeleteExpiredTokens. run.
  destruct (hd false (faults w)); reflexivity.
Qed.

Lemma filter_filter_sub {A} (f g : A -> bool) (l : list A) :
  (forall r, f r = true -> g r = true) ->
  filter f (filter g l) = filter f l.
Proof.
  intro H. induction l as [|a l IH]; [reflexivity|]. cbn.
  destruct (g a) eqn:Hg; cbn.
  - destruct (f a); [rewrite IH|]; auto.
  - destruct (f a) eqn:Hfa; [|exact IH].
    rewrite (H a Hfa) in Hg. discriminate Hg.
Qed.

(** X8. The sweep of expired tokens removes no live session: it deletes
    exactly the rows whose expiry lies before the time of the call, and
    for every refresh token the liveness check answers after the sweep
    what it answered before. *)
Theorem sweep_keeps_live_sessions :
  forall (tok : TokenString) (w : World),
    faults w = [] ->
    exists w',
      tokenRepository_DeleteExpiredTokens w = (Ok tt, w') /\
      (forall r, In r (tokens w') <-> In r (tokens w) /\ clock w <= Token_ExpiresAt r) /\
      fst (tokenRepository_IsTokenValid tok w') = fst (tokenRepository_IsTokenValid tok w).
Proof.
  intros tok w Hf. rewrite DeleteExpiredTokens_run, Hf. cbn [hd tl].
  eexists. split; [reflexivity|]. split.
  - intro r. cbn [tokens set_tokens]. rewrite filter_In.
    rewrite negb_true_iff, Z.ltb_ge. reflexivity.
  - rewrite !IsTokenValid_run, Hf. cbn [faults hd tl set_faults set_tokens tokens clock].
    rewrite filter_filter_sub; [reflexivity|].
    intros r Hr. unfold active_at in Hr. apply andb_true_iff in Hr.
    destruct Hr as [_ Hr]. apply Z.ltb_lt in Hr.
    apply negb_true_iff. apply Z.ltb_ge. lia.
Qed.

(** X8 on a table with one expired and one live session. *)
Lemma sweep_keeps_live_sessions_witness :
  exists w',
    tokenRepository_DeleteExpiredTokens two_sessions_world = (Ok tt, w') /\
    tokens w' = [sample_session] /\
    fst (tokenRepository_IsTokenValid (Token_RefreshToken sample_session) w')
    = fst (tokenRepository_IsTokenValid (Token_RefreshToken sample_session)
             two_sessions_world).
Proof.
  destruct (sweep_keeps_live_sessions (Token_RefreshToken sample_session)
              two_sessions_world eq_refl) as [w' [Hrun [_ Hlive]]].
  exists w'. split; [exact Hrun|]. split; [|exact Hlive].
  assert (Hw : w' = snd (tokenRepository_DeleteExpiredTokens two_sessions_world))
    by (rewrite Hrun; reflexivity).
  rewrite Hw. vm_compute. reflexivity.
Defined.

(** ** Login *)

(** X9. Single session. After a successful Login with a working driver,
    the session table holds a session for the returned refresh token,
    owned by the user and expiring one refresh life time after the call,
    and this is the only session of the user that is not yet expired:
    every other session of the user has been revoked. *)
Theorem login_leaves_one_live_session :
  forall (uc : LoginUseCase) (req : LoginRequest) (w w' : World) (resp : AuthResponse),
    faults w = [] ->
    LoginUseCase_Execute uc req w = (Ok resp, w') ->
    (exists row, In row (tokens w') /\
                 Token_RefreshToken row = AuthResponse_RefreshToken resp /\
                 Token_UserID row = UserResponse_ID (AuthResponse_User resp) /\
                 Token_ExpiresAt row
                 = clock w + refreshExpiry (Login_tokenService uc)) /\
    (forall r, In r (tokens w') ->
               Token_UserID r = UserResponse_ID (AuthResponse_User resp) ->
               clock w' < Token_ExpiresAt r ->
               Token_RefreshToken r = AuthResponse_RefreshToken resp).
Proof.
  intros uc req w w' resp Hf Hrun.
  unfold LoginUseCase_Execute, bind, wrap in Hrun.
  rewrite FindByEmail_run, Hf in Hrun. cbn [hd tl] in Hrun.
  destruct (gorm_First _ _ _) as [user|]; [|discriminate Hrun].
  destruct (User_IsOAuthUser user); [discriminate Hrun|].
  destruct (User_Password user) as [password|]; [|discriminate Hrun].
  destruct (passwordService_VerifyPassword _ _ _); [discriminate Hrun|].
  unfold ignore_error in Hrun. rewrite RevokeAllUserTokens_run in Hrun.
  cbn [faults set_faults hd tl fst snd] in Hrun.
  rewrite issue_and_store_literal, tokenRepository_Create_run in Hrun.
  cbn [faults set_faults set_tokens hd tl tokens clock entropy] in Hrun.
  cbv zeta in Hrun.
  destruct (_ || _); [discriminate Hrun|].
  inversion Hrun as [[Hresp Hw']]. clear Hrun.
  cbn [tokens set_tokens after_insert AuthResponse_RefreshToken AuthResponse_User
       ToAuthResponse ToUserResponse UserResponse_ID clock].
  split.
  - eexists. split; [apply in_or_app; right; left; reflexivity|].
    cbn. repeat split; reflexivity.
  - intros r Hr Hu Hlive. apply in_app_or in Hr. destruct Hr as [Hr|[<-|[]]].
    + exfalso. apply in_map_iff in Hr. destruct Hr as [r0 [Hr0 _]].
      destruct (String.eqb_spec (Token_UserID r0) (User_ID user)) as [E|E].
      * subst r. cbn in Hlive. unfold after_insert in Hlive. cbn in Hlive.
        unfold Add, time_Hour, time_Second in Hlive. lia.
      * subst r. contradiction.
    + reflexivity.
Qed.

(** X9 at a login of the sample user, who has one session already. *)
Lemma login_leaves_one_live_session_witness :
  exists resp w',
    LoginUseCase_Execute sample_login good_login sample_world = (Ok resp, w') /\
    (forall r, In r (tokens w') ->
               Token_UserID r = UserResponse_ID (AuthResponse_User resp) ->
               clock w' < Token_ExpiresAt r ->
               Token_RefreshToken r = AuthResponse_RefreshToken resp).
Proof.
  destruct (LoginUseCase_Execute sample_login good_login sample_world)
    as [[resp|e] w'] eqn:E.
  - exists resp, w'. split; [reflexivity|].
    exact (proj2 (login_leaves_one_live_session sample_login good_login sample_world
                    w' resp eq_refl E)).
  - exfalso. vm_compute in E. discriminate E.
Defined.

(** X10. The refresh token Login returns meets what Refresh asks for:
    from the login until one second before the refresh life time is over
    it validates as a refresh token naming the user, its session is in the
    table and not expired, and the user it names is in the user table. *)
Theorem login_token_is_redeemable :
  forall (uc : LoginUseCase) (req : LoginRequest) (w w' : World) (resp : AuthResponse)
         (t : Time),
    LoginUseCase_Execute uc req w = (Ok resp, w') ->
    clock w <= t ->
    t <= clock w + refreshExpiry (Login_tokenService uc) - time_Second ->
    (exists claims,
        fst (tokenService_ValidateRefreshToken (Login_tokenService uc)
               (AuthResponse_RefreshToken resp) (set_clock t w')) = Ok claims /\
        Claims_UserID claims = UserResponse_ID (AuthResponse_User resp) /\
        exists u, In u (users w') /\ User_ID u = Claims_UserID claims) /\
    (exists r, In r (tokens w') /\
               active_at t (AuthResponse_RefreshToken resp) r = true).
Proof.
  intros uc req w w' resp t Hrun H1 H2.
  unfold LoginUseCase_Execute, bind, wrap in Hrun.
  rewrite FindByEmail_run in Hrun.
  destruct (hd false (faults w)); [discriminate Hrun|].
  destruct (gorm_First _ _ _) as [user|] eqn:Hfind; [|discriminate Hrun].
  apply gorm_First_In in Hfind. destruct Hfind as [Huser _].
  destruct (User_IsOAuthUser user); [discriminate Hrun|].
  destruct (User_Password user) as [password|]; [|discriminate Hrun].
  destruct (passwordService_VerifyPassword _ _ _); [discriminate Hrun|].
  unfold ignore_error in Hrun. cbn [fst snd] in Hrun.
  rewrite issue_and_store_literal, tokenRepository_Create_run in Hrun.
  assert (Hfr : forall v,
             users (snd (tokenRepository_RevokeAllUserTokens (User_ID user) v)) = users v /\
             clock (snd (tokenRepository_RevokeAllUserTokens (User_ID user) v)) = clock v).
  { intro v. rewrite RevokeAllUserTokens_run. destruct (hd false (faults v)); split;
      reflexivity. }
  destruct (Hfr (set_faults (tl (faults w)) w)) as [Hu Hc]. cbn [users clock set_faults] in Hu, Hc.
  set (wr := snd (tokenRepository_RevokeAllUserTokens (User_ID user)
                    (set_faults (tl (faults w)) w))) in *.
  destruct (hd false (faults wr)); [discriminate Hrun|]. cbv zeta in Hrun.
  destruct (_ || _); [discriminate Hrun|].
  inversion Hrun as [[Hresp Hw']]. clear Hrun.
  cbn [AuthResponse_RefreshToken AuthResponse_User ToAuthResponse ToUserResponse
       UserResponse_ID tokens users set_tokens].
  split.
  - unfold tokenService_ValidateRefreshToken, refresh_of.
    rewrite issued_validate. cbn [clock set_clock]. rewrite Hc.
    rewrite (issued_window _ _ (User_ID user) t H1 H2).
    eexists. split; [reflexivity|]. split; [reflexivity|].
    exists user. split; [|reflexivity].
    unfold after_insert. cbn [literal_entity Token_ID String.eqb].
    cbn [users set_entropy set_faults]. rewrite Hu. exact Huser.
  - eexists. split; [apply in_or_app; right; left; reflexivity|].
    unfold active_at. cbn [created_row literal_entity Token_RefreshToken Token_ExpiresAt].
    unfold TokenString_eqb.
    destruct (TokenString_eq_dec (refresh_of (Login_tokenService uc) user wr)
                (refresh_of (Login_tokenService uc) user wr)); [|congruence].
    cbn [andb]. apply Z.ltb_lt. rewrite Hc. unfold Add, time_Second in *. lia.
Qed.

(** X10 at a login of the sample user, checked one hour later. *)
Lemma login_token_is_redeemable_witness :
  exists resp w',
    LoginUseCase_Execute sample_login good_login sample_world = (Ok resp, w') /\
    exists r, In r (tokens w') /\
              active_at (clock sample_world + time_Hour)
                (AuthResponse_RefreshToken resp) r = true.
Proof.
  destruct (LoginUseCase_Execute sample_login good_login sample_world)
    as [[resp|e] w'] eqn:E.
  - exists resp, w'. split; [reflexivity|].
    apply (login_token_is_redeemable sample_login good_login sample_world w' resp
             (clock sample_world + time_Hour) E).
    + vm_compute. discriminate.
    + vm_compute. discriminate.
  - exfalso. vm_compute in E. discriminate E.
Defined.

(** ** Register *)

Lemma userRepository_Create_run user w :
  userRepository_Create user w =
  if hd false (faults w)
  then (Err (fmt_Errorf "failed to create user" driver_error),
        set_faults (tl (faults w)) w)
  else
    let row := prepared_user user w in
    if existsb (fun r => (User_ID r =? User_ID row)%string) (users w) ||
       existsb (fun r => (User_Email r =? User_Email row)%string) (users w)
    then (Err (fmt_Errorf "failed to create user" pg_unique_violation),
          after_user_insert user w)
    else (Ok tt, set_users (users w ++ [row]) (after_user_insert user w)).
Proof.
  unfold userRepository_Create, gorm_prepare_user, insert_user, prepared_user,
    after_user_insert. run.
  destruct (hd false (faults w)); [reflexivity|].
  destruct (User_ID user =? "")%string; run;
    match goal with
    | |- context [if ?b || ?c then _ else _] => destruct (b || c)
    end; reflexivity.
Qed.

Lemma prepared_user_fields user w :
  User_Email (prepared_user user w) = User_Email user /\
  User_Password (prepared_user user w) = User_Password user /\
  User_Name (prepared_user user w) = User_Name user /\
  User_Role (prepared_user user w) = User_Role user /\
  User_Provider (prepared_user user w) = User_Provider user /\
  User_ProviderID (prepared_user user w) = User_ProviderID user /\
  User_Avatar (prepared_user user w) = User_Avatar user /\
  User_EmailVerified (prepared_user user w) = User_EmailVerified user /\
  ((User_ID user =? "")%string = false -> User_ID (prepared_user user w) = User_ID user).
Proof.
  unfold prepared_user. cbv zeta.
  destruct (User_ID user =? "")%string;
    repeat match goal with
           | |- context [if ?b then _ else _] => destruct b
           end; cbn; repeat split; try reflexivity; intro H; discriminate H.
Qed.

Lemma HashPassword_ok s p w h w1 :
  passwordService_HashPassword s p w = (Ok h, w1) ->
  w1 = set_entropy (S (entropy w)) w /\
  passwordService_VerifyPassword s p h = None /\
  8 <= len p <= 72.
Proof.
  unfold passwordService_HashPassword, passwordService_ValidatePassword,
    passwordService_VerifyPassword, Bcrypt.GenerateFromPassword.
  destruct (Z.ltb_spec (len p) 8); [discriminate|].
  destruct (Z.ltb_spec 128 (len p)); [discriminate|].
  run.
  destruct (Z.ltb_spec 72 (len p)); [discriminate|].
  destruct (Bcrypt.checkCost _) eqn:Hc; [discriminate|].
  intro H'. inversion H'; subst. split; [reflexivity|].
  split; [|lia]. cbn [Bcrypt.CompareHashAndPassword]. rewrite Hc, String.eqb_refl.
  reflexivity.
Qed.

Lemma existsb_false_all {A} (f : A -> bool) (l : list A) :
  existsb f l = false -> forall r, In r l -> f r = false.
Proof.
  intros H r Hr. destruct (f r) eqn:E; [|reflexivity].
  assert (existsb f l = true) by (apply existsb_exists; exists r; auto). congruence.
Qed.

(** What a successful registration has done. *)
Lemma Register_ok_inv uc req w resp w' :
  RegisterUseCase_Execute uc req w = (Ok resp, w') ->
  exists user h,
    users w' = (users w ++ [user])%list /\
    tokens w' = tokens w /\ clock w' = clock w /\
    faults w' = tl (tl (faults w)) /\
    User_Email user = strings_ToLower (strings_TrimSpace (RegisterRequest_Email req)) /\
    User_Name user = strings_TrimSpace (RegisterRequest_Name req) /\
    User_Provider user = ProviderLocal /\
    User_Role user = RoleUser /\
    User_EmailVerified user = false /\
    User_Password user = Some h /\
    passwordService_VerifyPassword (Register_passwordService uc)
      (RegisterRequest_Password req) h = None /\
    8 <= len (RegisterRequest_Password req) <= 72 /\
    (forall r, In r (users w) -> User_Email r <> User_Email user) /\
    UserResponse_ID (AuthResponse_User resp) = User_ID user /\
    UserResponse_Email (AuthResponse_User resp) = User_Email user.
Proof.
  intro Hrun.
  unfold RegisterUseCase_Execute, bind, wrap in Hrun.
  rewrite EmailExists_run in Hrun.
  destruct (hd false (faults w)); [discriminate Hrun|].
  destruct (0 <? _) eqn:Hex; [discriminate Hrun|].
  destruct (passwordService_HashPassword _ _ _) as [[h|e] w1] eqn:Hhash;
    [|discriminate Hrun].
  apply HashPassword_ok in Hhash. destruct Hhash as [Hw1 [Hver Hlen]]. subst w1.
  unfold NewUser, User_SetPassword in Hrun. run.
  cbn [User_Provider] in Hrun.
  change (ProviderLocal =? ProviderLocal)%string with true in Hrun.
  cbv iota in Hrun. run.
  match type of Hrun with
  | context [User_Validate ?u] => set (user := u) in *
  end.
  destruct (User_Validate user); [discriminate Hrun|].
  rewrite userRepository_Create_run in Hrun.
  cbn [faults set_faults set_entropy users] in Hrun.
  destruct (hd false (tl (faults w))); [discriminate Hrun|]. cbv zeta in Hrun.
  destruct (existsb _ _ || existsb _ _) eqn:Hdup; [discriminate Hrun|].
  rewrite GenerateAccessToken_run, GenerateRefreshToken_run in Hrun.
  unfold lift in Hrun. inversion Hrun as [[Hresp Hw']]. clear Hrun.
  apply orb_false_iff in Hdup. destruct Hdup as [_ Hmail].
  eexists. exists h.
  unfold after_user_insert.
  assert (Hid : (User_ID user =? "")%string = false) by reflexivity.
  rewrite Hid. cbn [users tokens clock faults set_users set_faults set_entropy].
  match goal with
  | |- context [prepared_user user ?v] =>
      destruct (prepared_user_fields user v) as [Fe [Fp [Fn [Fr [Fpr [_ [_ [Fv Fid]]]]]]]]
  end.
  split; [reflexivity|]. split; [reflexivity|]. split; [reflexivity|].
  split; [reflexivity|].
  rewrite Fe, Fp, Fn, Fr, Fpr, Fv.
  repeat (split; [first [reflexivity | exact Hver | exact Hlen]|]).
  split; [|split].
  - intros r Hr. pose proof (existsb_false_all _ _ Hmail r Hr) as Hne.
    cbn beta in Hne. rewrite Fe in Hne. intro E. rewrite E in Hne.
    rewrite String.eqb_refl in Hne. discriminate Hne.
  - cbn. symmetry. apply Fid. exact Hid.
  - reflexivity.
Qed.

(** X11. What a successful registration guarantees: exactly one row has
    been appended to the user table, for a LOCAL account with role USER
    and an unverified email; its email is the requested one, trimmed and
    lower-cased, and no row had that email before; its password hash
    verifies the requested password, which has 8 to 72 bytes; and the
    response names this account. *)
Theorem register_creates_local_user :
  forall (uc : RegisterUseCase) (req : RegisterRequest) (w w' : World)
         (resp : AuthResponse),
    RegisterUseCase_Execute uc req w = (Ok resp, w') ->
    exists user h,
      users w' = (users w ++ [user])%list /\
      User_Email user = strings_ToLower (strings_TrimSpace (RegisterRequest_Email req)) /\
      User_Provider user = ProviderLocal /\
      User_Role user = RoleUser /\
      User_EmailVerified user = false /\
      User_Password user = Some h /\
      passwordService_VerifyPassword (Register_passwordService uc)
        (RegisterRequest_Password req) h = None /\
      8 <= len (RegisterRequest_Password req) <= 72 /\
      (forall r, In r (users w) -> User_Email r <> User_Email user) /\
      UserResponse_ID (AuthResponse_User resp) = User_ID user.
Proof.
  intros uc req w w' resp Hrun.
  destruct (Register_ok_inv uc req w resp w' Hrun)
    as (user & h & H1 & _ & _ & _ & H2 & _ & H3 & H4 & H5 & H6 & H7 & H8 & H9 & H10 & _).
  exists user, h. repeat split; try assumption; apply H8.
Qed.

(** X11 at a registration whose email has a blank before it and a capital
    letter with an accent. *)
Lemma register_creates_local_user_witness :
  exists resp w' user,
    RegisterUseCase_Execute sample_register register_elan empty_world = (Ok resp, w') /\
    users w' = [user] /\
    User_Email user = small_e_acute ++ "lan@b.com" /\
    User_Provider user = ProviderLocal /\
    User_Role user = RoleUser.
Proof.
  destruct (RegisterUseCase_Execute sample_register register_elan empty_world)
    as [[resp|e] w'] eqn:E.
  - destruct (register_creates_local_user sample_register register_elan empty_world
                w' resp E) as [user [h [H1 [H2 [H3 [H4 _]]]]]].
    exists resp, w', user. split; [reflexivity|]. split; [exact H1|].
    split; [rewrite H2; vm_compute; reflexivity|]. split; [exact H3 | exact H4].
  - exfalso. vm_compute in E. discriminate E.
Defined.

Lemma gorm_First_app_last {A} (key : A -> string) (cond : A -> bool) (l : list A) (x : A) :
  (forall r, In r l -> cond r = false) -> cond x = true ->
  gorm_First key cond (l ++ [x]) = Some x.
Proof.
  intros Hl Hx. unfold gorm_First. rewrite filter_app, (filter_none _ _ Hl).
  cbn. rewrite Hx. reflexivity.
Qed.

(** X12. An account just registered authenticates: Login with the
    normalised email and the same password, on a driver that answers the
    lookup, is not refused; it succeeds, or fails only when the new
    session cannot be stored. *)
Theorem registered_account_logs_in :
  forall (ruc : RegisterUseCase) (luc : LoginUseCase) (req : RegisterRequest)
         (w w' : World) (resp : AuthResponse),
    RegisterUseCase_Execute ruc req w = (Ok resp, w') ->
    hd false (faults w') = false ->
    (exists resp2,
        fst (LoginUseCase_Execute luc
               {| LoginRequest_Email :=
                    strings_ToLower (strings_TrimSpace (RegisterRequest_Email req));
                  LoginRequest_Password := RegisterRequest_Password req |} w')
        = Ok resp2 /\
        UserResponse_ID (AuthResponse_User resp2)
        = UserResponse_ID (AuthResponse_User resp)) \/
    (exists cause,
        fst (LoginUseCase_Execute luc
               {| LoginRequest_Email :=
                    strings_ToLower (strings_TrimSpace (RegisterRequest_Email req));
                  LoginRequest_Password := RegisterRequest_Password req |} w')
        = Err (fmt_Errorf "failed to store refresh token" cause)).
Proof.
  intros ruc luc req w w' resp Hrun Hf.
  destruct (Register_ok_inv ruc req w resp w' Hrun)
    as (user & h & Hu & _ & _ & _ & He & _ & Hp & _ & _ & Hpw & Hv & _ & Hfresh & Hid & _).
  unfold LoginUseCase_Execute, bind, wrap.
  rewrite FindByEmail_run, Hf. cbn [LoginRequest_Email LoginRequest_Password].
  rewrite Hu, gorm_First_app_last.
  - unfold User_IsOAuthUser. rewrite Hp. cbn [String.eqb negb].
    change (ProviderLocal =? ProviderLocal)%string with true. cbn [negb].
    rewrite Hpw.
    unfold passwordService_VerifyPassword in *. rewrite Hv.
    unfold ignore_error. cbn [fst snd]. rewrite issue_and_store_literal.
    destruct (tokenRepository_Create _ _) as [[u|e] w2].
    + left. eexists. split; [reflexivity|]. rewrite Hid. reflexivity.
    + right. eexists. reflexivity.
  - intros r Hr. apply string_eqb_neq. rewrite <- He. exact (Hfresh r Hr).
  - rewrite He. apply String.eqb_refl.
Qed.

(** X12 at a registration whose email has a blank before it and a capital
    letter with an accent. *)
Lemma registered_account_logs_in_witness :
  exists resp w',
    RegisterUseCase_Execute sample_register register_elan empty_world = (Ok resp, w') /\
    ((exists resp2,
         fst (LoginUseCase_Execute sample_login
                {| LoginRequest_Email :=
                     strings_ToLower (strings_TrimSpace
                                        (RegisterRequest_Email register_elan));
                   LoginRequest_Password := RegisterRequest_Password register_elan |}
                w')
         = Ok resp2 /\
         UserResponse_ID (AuthResponse_User resp2)
         = UserResponse_ID (AuthResponse_User resp)) \/
     (exists cause,
         fst (LoginUseCase_Execute sample_login
                {| LoginRequest_Email :=
                     strings_ToLower (strings_TrimSpace
                                        (RegisterRequest_Email register_elan));
                   LoginRequest_Password := RegisterRequest_Password register_elan |}
                w')
         = Err (fmt_Errorf "failed to store refresh token" cause))).
Proof.
  destruct (RegisterUseCase_Execute sample_register register_elan empty_world)
    as [[resp|e] w'] eqn:E.
  - exists resp, w'. split; [reflexivity|].
    apply (registered_account_logs_in sample_register sample_login register_elan
             empty_world w' resp E).
    assert (Hw : w' = snd (RegisterUseCase_Execute sample_register register_elan
                             empty_world)) by (rewrite E; reflexivity).
    rewrite Hw. vm_compute. reflexivity.
  - exfalso. vm_compute in E. discriminate E.
Defined.

(** X13. An email that is stored, letter for letter, cannot be registered
    again: with a working driver the call fails with "email already
    exists" before anything is hashed or written; only the driver has
    been used. *)
Theorem register_refuses_stored_email :
  forall (uc : RegisterUseCase) (req : RegisterRequest) (w : World),
    hd false (faults w) = false ->
    (exists r, In r (users w) /\ User_Email r = RegisterRequest_Email req) ->
    RegisterUseCase_Execute uc req w
    = (Err (errors_New "email already exists"), set_faults (tl (faults w)) w).
Proof.
  intros uc req w Hf [r [Hr He]].
  unfold RegisterUseCase_Execute, bind, wrap. rewrite EmailExists_run, Hf.
  assert (Hex : (0 <? Z.of_nat (List.length
                                  (filter (fun r => (User_Email r
                                                      =? RegisterRequest_Email req)%string)
                                     (users w)))) = true).
  { apply filter_length_pos. exists r. split; [exact Hr|]. apply String.eqb_eq. exact He. }
  rewrite Hex. reflexivity.
Qed.

(** X13 at a second registration of the sample email. *)
Lemma register_refuses_stored_email_witness :
  RegisterUseCase_Execute sample_register register_request sample_world
  = (Err (errors_New "email already exists"),
     set_faults (tl (faults sample_world)) sample_world).
Proof.
  apply register_refuses_stored_email; [reflexivity|].
  exists sample_user. split; [left; reflexivity | reflexivity].
Defined.

(** A registration that fails has written nothing. *)
Lemma Register_failure_frame uc req w :
  is_ok (fst (RegisterUseCase_Execute uc req w)) = true \/
  users (snd (RegisterUseCase_Execute uc req w)) = users w.
Proof.
  unfold RegisterUseCase_Execute, bind, wrap.
  rewrite EmailExists_run.
  destruct (hd false (faults w)); [right; reflexivity|].
  destruct (0 <? _); [right; reflexivity|].
  unfold passwordService_HashPassword, NewUser, User_SetPassword,
    userRepository_Create, gorm_prepare_user, insert_user.
  rewrite ?GenerateAccessToken_run, ?GenerateRefreshToken_run.
  run.
  repeat (break_if; run; try (right; reflexivity); try (left; reflexivity)).
Qed.

(** X14. A failed registration leaves both tables as they were; and a
    registration with a password shorter than 8 bytes or longer than 72
    bytes always fails. *)
Theorem failed_registration_writes_nothing :
  forall (uc : RegisterUseCase) (req : RegisterRequest) (w : World),
    (forall e w', RegisterUseCase_Execute uc req w = (Err e, w') ->
                  users w' = users w /\ tokens w' = tokens w) /\
    (len (RegisterRequest_Password req) < 8 \/ 72 < len (RegisterRequest_Password req) ->
     exists e, fst (RegisterUseCase_Execute uc req w) = Err e).
Proof.
  intros uc req w. split.
  - intros e w' Hrun. split.
    + destruct (Register_failure_frame uc req w) as [H|H]; rewrite Hrun in H.
      * discriminate H.
      * exact H.
    + pose proof (Register_keeps_sessions uc req w) as H. rewrite Hrun in H. exact H.
  - intro Hlen.
    destruct (RegisterUseCase_Execute uc req w) as [[resp|e] w'] eqn:E.
    + destruct (Register_ok_inv uc req w resp w' E)
        as (user & h & _ & _ & _ & _ & _ & _ & _ & _ & _ & _ & _ & Hl & _). lia.
    + exists e. reflexivity.
Qed.

(** X14 at a registration with a password of five bytes. *)
Lemma failed_registration_writes_nothing_witness :
  exists e w',
    RegisterUseCase_Execute sample_register register_short_password sample_world
    = (Err e, w') /\
    users w' = users sample_world /\ tokens w' = tokens sample_world.
Proof.
  destruct (RegisterUseCase_Execute sample_register register_short_password sample_world)
    as [[resp|e] w'] eqn:E.
  - exfalso. vm_compute in E. discriminate E.
  - exists e, w'. split; [reflexivity|].
    exact (proj1 (failed_registration_writes_nothing sample_register
                    register_short_password sample_world) e w' E).
Defined.

(** ** Password service *)

Lemma cycle_app (a b key : string) (m : nat) :
  Bcrypt.cycle (String.length a + m) key (a ++ b) = a ++ Bcrypt.cycle m key b.
Proof.
  induction a as [|c a IH]; [reflexivity|]. cbn. rewrite IH. reflexivity.
Qed.

Lemma key_material_prefix (p : string) :
  (String.length p <= 72)%nat ->
  Bcrypt.key_material p =
  p ++ Bcrypt.cycle (72 - String.length p) (p ++ String zero EmptyString)
         (String zero EmptyString).
Proof.
  intro H. unfold Bcrypt.key_material.
  replace 72%nat with (String.length p + (72 - String.length p))%nat at 1 by lia.
  apply cycle_app.
Qed.

Lemma cycle_nul_shape (m : nat) (key : string) :
  Bcrypt.cycle m key (String zero EmptyString) = EmptyString \/
  exists x, Bcrypt.cycle m key (String zero EmptyString) = String zero x.
Proof. destruct m; [left; reflexivity | right; eexists; reflexivity]. Qed.

Lemma nul_terminated_inj (p p2 x y : string) :
  (x = EmptyString \/ exists x', x = String zero x') ->
  (y = EmptyString \/ exists y', y = String zero y') ->
  nul_free p = true -> nul_free p2 = true ->
  p ++ x = p2 ++ y -> p = p2.
Proof.
  intros Hx Hy. revert p2. induction p as [|c p IH]; intros [|c2 p2] Hp Hp2 E.
  - reflexivity.
  - exfalso. cbn in E, Hp2. apply andb_true_iff in Hp2. destruct Hp2 as [Hc _].
    destruct Hx as [Hx|[x' Hx]]; subst x; [discriminate E|].
    inversion E; subst. cbn in Hc. try rewrite Ascii.eqb_refl in Hc. discriminate Hc.
  - exfalso. cbn in E, Hp. apply andb_true_iff in Hp. destruct Hp as [Hc _].
    destruct Hy as [Hy|[y' Hy]]; subst y; [discriminate E|].
    inversion E; subst. cbn in Hc. try rewrite Ascii.eqb_refl in Hc. discriminate Hc.
  - cbn in E, Hp, Hp2. inversion E; subst.
    apply andb_true_iff in Hp. apply andb_true_iff in Hp2.
    f_equal. apply IH; tauto.
Qed.

(** X15. Password round trip. A password of 8 to 72 bytes, under a cost
    bcrypt takes, is hashed; the hash verifies that password; and among
    the passwords of at most 72 bytes without a NUL byte it verifies no
    other (digests being symbolic). *)
Theorem password_round_trip :
  forall (s : passwordService) (p : string) (w : World),
    8 <= len p <= 72 ->
    cost s <= Bcrypt.MaxCost ->
    exists h,
      fst (passwordService_HashPassword s p w) = Ok h /\
      passwordService_VerifyPassword s p h = None /\
      (forall p2, len p2 <= 72 -> nul_free p = true -> nul_free p2 = true ->
                  passwordService_VerifyPassword s p2 h = None -> p2 = p).
Proof.
  intros s p w Hlen Hcost.
  destruct (HashPassword_round_trip s p w Hlen Hcost) as [h [Hh Hv]].
  exists h. split; [exact Hh|]. split; [exact Hv|].
  intros p2 Hlen2 Hn Hn2 Hv2.
  unfold passwordService_HashPassword, passwordService_ValidatePassword,
    Bcrypt.GenerateFromPassword in Hh.
  destruct (Z.ltb_spec (len p) 8); [lia|].
  destruct (Z.ltb_spec 128 (len p)); [lia|].
  run.
  destruct (Z.ltb_spec 72 (len p)); [lia|].
  destruct (Bcrypt.checkCost _) eqn:Hc; [discriminate Hh|].
  inversion Hh; subst h. clear Hh.
  unfold passwordService_VerifyPassword, Bcrypt.CompareHashAndPassword in Hv2.
  rewrite Hc in Hv2.
  destruct (String.eqb_spec (Bcrypt.key_material p) (Bcrypt.key_material p2)) as [E|E];
    [|discriminate Hv2].
  unfold len in *.
  rewrite (key_material_prefix p), (key_material_prefix p2) in E by lia.
  symmetry. eapply nul_terminated_inj; [| | exact Hn | exact Hn2 | exact E];
    apply cycle_nul_shape.
Qed.

(** X15 at the password "password1" and the default cost. *)
Lemma password_round_trip_witness :
  exists h,
    fst (passwordService_HashPassword NewPasswordService "password1" empty_world) = Ok h /\
    passwordService_VerifyPassword NewPasswordService "password1" h = None /\
    (forall p2, len p2 <= 72 -> nul_free "password1" = true -> nul_free p2 = true ->
                passwordService_VerifyPassword NewPasswordService p2 h = None ->
                p2 = "password1").
Proof.
  apply (password_round_trip NewPasswordService "password1" empty_world).
  - vm_compute. split; discriminate.
  - vm_compute. discriminate.
Defined.

(** X16. The length policy comes first: a password shorter than 8 or
    longer than 128 bytes is refused with "password validation failed",
    and the random source has not been read, so bcrypt has not been
    called. *)
Theorem password_policy_before_hashing :
  forall (s : passwordService) (p : string) (w : World),
    len p < 8 \/ 128 < len p ->
    exists e,
      passwordService_HashPassword s p w
      = (Err (fmt_Errorf "password validation failed" e), w) /\
      passwordService_ValidatePassword s p = Some e.
Proof.
  intros s p w H. unfold passwordService_HashPassword, passwordService_ValidatePassword.
  destruct (Z.ltb_spec (len p) 8); [eexists; split; reflexivity|].
  destruct (Z.ltb_spec 128 (len p)); [eexists; split; reflexivity|]. lia.
Qed.

(** X16 at a password of five bytes. *)
Lemma password_policy_before_hashing_witness :
  exists e,
    passwordService_HashPassword NewPasswordService "short" sample_world
    = (Err (fmt_Errorf "password validation failed" e), sample_world) /\
    passwordService_ValidatePassword NewPasswordService "short" = Some e.
Proof.
  apply (password_policy_before_hashing NewPasswordService "short" sample_world).
  left. vm_compute. reflexivity.
Defined.

(** ** entity: normal form of the stored email *)



























(** ** User administration *)

Lemma least_all_eq {A} (key : A -> string) (l : list A) (x : A) :
  l <> [] -> (forall r, In r l -> r = x) -> least key l = Some x.
Proof.
  induction l as [|a l IH]; intros Hne Hall; [congruence|].
  cbn. assert (Ha : a = x) by (apply Hall; left; reflexivity).
  destruct l as [|b l'].
  - cbn. congruence.
  - rewrite IH; [| discriminate | intros r Hr; apply Hall; right; exact Hr].
    subst a. destruct (String.leb (key x) (key x)); reflexivity.
Qed.

(** After every row with key [id] has been replaced by [new], a lookup by
    [id] finds [new]. *)
Lemma FindByID_replaced id (new : User) (rows : list User) :
  User_ID new = id ->
  (exists r, In r rows /\ User_ID r = id) ->
  gorm_First User_ID (fun r => (User_ID r =? id)%string)
    (map (fun r => if (User_ID r =? id)%string then new else r) rows) = Some new.
Proof.
  intros Hnew [r0 [Hr0 Hid0]]. unfold gorm_First. apply least_all_eq.
  - intro E.
    assert (Hin : In new (filter (fun r => (User_ID r =? id)%string)
                            (map (fun r => if (User_ID r =? id)%string then new else r)
                               rows))).
    { apply filter_In. split.
      - apply in_map_iff. exists r0. split; [|exact Hr0].
        rewrite (proj2 (String.eqb_eq _ _) Hid0). reflexivity.
      - apply String.eqb_eq. exact Hnew. }
    rewrite E in Hin. destruct Hin.
  - intros r Hr. apply filter_In in Hr. destruct Hr as [Hr Hc].
    apply in_map_iff in Hr. destruct Hr as [r1 [Hr1 _]].
    destruct (String.eqb_spec (User_ID r1) id) as [E1|E1]; [congruence|].
    subst r. apply String.eqb_eq in Hc. contradiction.
Qed.

Lemma map_replace_twice id (a b : User) (rows : list User) :
  User_ID a = id ->
  map (fun r => if (User_ID r =? id)%string then b else r)
    (map (fun r => if (User_ID r =? id)%string then a else r) rows)
  = map (fun r => if (User_ID r =? id)%string then b else r) rows.
Proof.
  intro Ha. rewrite map_map. apply map_ext. intro r.
  destruct (String.eqb_spec (User_ID r) id) as [E|E].
  - rewrite (proj2 (String.eqb_eq _ _) Ha). reflexivity.
  - rewrite (string_eqb_neq _ _ E). reflexivity.
Qed.

Lemma PromoteUser_run id w user :
  faults w = [] ->
  gorm_First User_ID (fun r => (User_ID r =? id)%string) (users w) = Some user ->
  User_IsAdmin user = false ->
  (forall r, In r (users w) -> User_Email r = User_Email user -> User_ID r = id) ->
  PromoteUserUseCase_Execute id w =
  (Ok (ToUserResponse (set_User_UpdatedAt (clock w) (set_User_Role RoleAdmin user))),
   set_users (replaced id (set_User_UpdatedAt (clock w) (set_User_Role RoleAdmin user))
                (users w)) w).
Proof.
  intros Hf Hfind Hadm Huniq.
  destruct (gorm_First_In _ _ _ _ Hfind) as [Hin Hid]. apply String.eqb_eq in Hid.
  unfold PromoteUserUseCase_Execute, bind, wrap. rewrite FindByID_run, Hf. cbn [hd tl].
  rewrite Hfind, Hadm. unfold User_PromoteToAdmin. run.
  rewrite userRepository_Update_existing.
  - cbn [faults set_faults tl users clock User_ID set_User_UpdatedAt set_User_Role].
    rewrite Hid. destruct w; cbn in *; subst; reflexivity.
  - reflexivity.
  - exists user. cbn. auto.
  - cbn. intros r Hr He. rewrite Hid. exact (Huniq r Hr He).
Qed.

Lemma DemoteUser_run id w user :
  faults w = [] ->
  gorm_First User_ID (fun r => (User_ID r =? id)%string) (users w) = Some user ->
  User_IsAdmin user = true ->
  (forall r, In r (users w) -> User_Email r = User_Email user -> User_ID r = id) ->
  DemoteUserUseCase_Execute id w =
  (Ok (ToUserResponse (set_User_UpdatedAt (clock w) (set_User_Role RoleUser user))),
   set_users (replaced id (set_User_UpdatedAt (clock w) (set_User_Role RoleUser user))
                (users w)) w).
Proof.
  intros Hf Hfind Hadm Huniq.
  destruct (gorm_First_In _ _ _ _ Hfind) as [Hin Hid]. apply String.eqb_eq in Hid.
  unfold DemoteUserUseCase_Execute, bind, wrap. rewrite FindByID_run, Hf. cbn [hd tl].
  rewrite Hfind, Hadm. cbn [negb]. unfold User_DemoteToUser. run.
  rewrite userRepository_Update_existing.
  - cbn [faults set_faults tl users clock User_ID set_User_UpdatedAt set_User_Role].
    rewrite Hid. destruct w; cbn in *; subst; reflexivity.
  - reflexivity.
  - exists user. cbn. auto.
  - cbn. intros r Hr He. rewrite Hid. exact (Huniq r Hr He).
Qed.

(** X18. Promotion. For a user that is found, is not an admin and whose
    email is unique in the table, on a working driver, the call succeeds:
    the response shows role ADMIN, every row with the user's key now is
    the user with role ADMIN and a new update time, the other rows and
    the sessions are untouched. A user who is an admin already is refused
    with "user is already an admin", and nothing is written. *)
Theorem promote_makes_admin :
  forall (id : string) (w : World) (user : User),
    faults w = [] ->
    gorm_First User_ID (fun r => (User_ID r =? id)%string) (users w) = Some user ->
    (forall r, In r (users w) -> User_Email r = User_Email user -> User_ID r = id) ->
    (User_IsAdmin user = false ->
     exists resp w',
       PromoteUserUseCase_Execute id w = (Ok resp, w') /\
       UserResponse_Role resp = RoleAdmin /\
       users w' = replaced id (set_User_UpdatedAt (clock w) (set_User_Role RoleAdmin user))
                    (users w) /\
       tokens w' = tokens w) /\
    (User_IsAdmin user = true ->
     PromoteUserUseCase_Execute id w = (Err (errors_New "user is already an admin"), w)).
Proof.
  intros id w user Hf Hfind Huniq. split; intro Hadm.
  - rewrite (PromoteUser_run id w user Hf Hfind Hadm Huniq).
    eexists. eexists. split; [reflexivity|]. repeat split; reflexivity.
  - unfold PromoteUserUseCase_Execute, bind, wrap. rewrite FindByID_run, Hf. cbn [hd tl].
    rewrite Hfind, Hadm. unfold fail. destruct w; cbn in *; subst; reflexivity.
Qed.

(** X18 at the sample user. *)
Lemma promote_makes_admin_witness :
  exists resp w',
    PromoteUserUseCase_Execute "uuid-1" sample_world = (Ok resp, w') /\
    UserResponse_Role resp = RoleAdmin /\
    users w' = replaced "uuid-1"
                 (set_User_UpdatedAt (clock sample_world)
                    (set_User_Role RoleAdmin sample_user))
                 (users sample_world) /\
    tokens w' = tokens sample_world.
Proof.
  apply (promote_makes_admin "uuid-1" sample_world sample_user eq_refl).
  - vm_compute. reflexivity.
  - intros r [<-|[]] _. reflexivity.
  - reflexivity.
Defined.

(** X19. Demotion undoes promotion. Promote a found user of role USER
    (email unique, working driver) and demote the same key afterwards:
    both calls succeed, and the user table is the original one except
    that the rows with that key carry the time of the demotion as their
    update time. *)
Theorem demote_undoes_promote :
  forall (id : string) (w : World) (user : User) (t : Time),
    faults w = [] ->
    gorm_First User_ID (fun r => (User_ID r =? id)%string) (users w) = Some user ->
    User_Role user = RoleUser ->
    (forall r, In r (users w) -> User_Email r = User_Email user -> User_ID r = id) ->
    exists resp1 w1 resp2 w2,
      PromoteUserUseCase_Execute id w = (Ok resp1, w1) /\
      DemoteUserUseCase_Execute id (set_clock t w1) = (Ok resp2, w2) /\
      UserResponse_Role resp2 = RoleUser /\
      users w2 = replaced id (set_User_UpdatedAt t user) (users w).
Proof.
  intros id w user t Hf Hfind Hrole Huniq.
  destruct (gorm_First_In _ _ _ _ Hfind) as [Hin Hid]. apply String.eqb_eq in Hid.
  assert (Hadm : User_IsAdmin user = false).
  { unfold User_IsAdmin. rewrite Hrole. reflexivity. }
  rewrite (PromoteUser_run id w user Hf Hfind Hadm Huniq).
  set (promoted := set_User_UpdatedAt (clock w) (set_User_Role RoleAdmin user)).
  eexists. eexists.
  rewrite (DemoteUser_run id _ promoted).
  - eexists. eexists. split; [reflexivity|]. split; [reflexivity|]. split; [reflexivity|].
    cbn [users set_users set_clock clock]. unfold replaced.
    rewrite map_replace_twice; [|exact Hid].
    unfold promoted. cbn. destruct user; cbn in *; subst; reflexivity.
  - cbn. exact Hf.
  - cbn [users set_users set_clock]. apply FindByID_replaced; [exact Hid|].
    exists user. auto.
  - reflexivity.
  - cbn [users set_users set_clock]. intros r Hr He. unfold replaced in Hr.
    apply in_map_iff in Hr. destruct Hr as [r0 [Hr0 Hin0]].
    destruct (String.eqb_spec (User_ID r0) id) as [E|E].
    + subst r. exact Hid.
    + subst r. exact (Huniq r0 Hin0 He).
Qed.

(** X19 at the sample user. *)
Lemma demote_undoes_promote_witness :
  exists resp1 w1 resp2 w2,
    PromoteUserUseCase_Execute "uuid-1" sample_world = (Ok resp1, w1) /\
    DemoteUserUseCase_Execute "uuid-1" (set_clock (clock sample_world + time_Hour) w1)
    = (Ok resp2, w2) /\
    UserResponse_Role resp2 = RoleUser /\
    users w2 = replaced "uuid-1"
                 (set_User_UpdatedAt (clock sample_world + time_Hour) sample_user)
                 (users sample_world).
Proof.
  apply (demote_undoes_promote "uuid-1" sample_world sample_user
           (clock sample_world + time_Hour) eq_refl).
  - vm_compute. reflexivity.
  - reflexivity.
  - intros r [<-|[]] _. reflexivity.
Defined.

Lemma User_Validate_name u :
  User_Validate u = None -> 2 <= len (User_Name u) <= 100.
Proof.
  unfold User_Validate. intro H.
  destruct (User_Email u =? "")%string; [discriminate H|].
  destruct (negb (User_IsValidEmail u)); [discriminate H|].
  destruct (User_Name u =? "")%string; [discriminate H|].
  destruct (len (User_Name u) <? 2) eqn:E1; [discriminate H|].
  destruct (100 <? len (User_Name u)) eqn:E2; [discriminate H|].
  apply Z.ltb_ge in E1. apply Z.ltb_ge in E2. lia.
Qed.

(** X20. A profile update always writes the name. When the name of the
    request, trimmed, is shorter than 2 or longer than 100 bytes (an
    update that carries only an avatar has the empty name), the call
    fails and neither table changes. *)
Theorem profile_update_needs_a_name :
  forall (id : string) (req : UpdateProfileRequest) (w : World),
    len (strings_TrimSpace (UpdateProfileRequest_Name req)) < 2 \/
    100 < len (strings_TrimSpace (UpdateProfileRequest_Name req)) ->
    exists e w',
      UpdateUserProfileUseCase_Execute id req w = (Err e, w') /\
      users w' = users w /\ tokens w' = tokens w.
Proof.
  intros id req w Hname.
  unfold UpdateUserProfileUseCase_Execute, bind, wrap. rewrite FindByID_run.
  destruct (hd false (faults w)).
  { eexists. eexists. split; [reflexivity|]. split; reflexivity. }
  destruct (gorm_First _ _ _) as [user|].
  2:{ eexists. eexists. split; [reflexivity|]. split; reflexivity. }
  unfold User_UpdateProfile. run.
  match goal with
  | |- context [User_Validate ?u] =>
      pose proof (User_Validate_name u) as Hv; destruct (User_Validate u) as [err|]
  end.
  - eexists. eexists. split; [reflexivity|]. split; reflexivity.
  - specialize (Hv eq_refl). cbn in Hv. lia.
Qed.

(** X20 at an update of the sample user that carries only an avatar, and
    at one whose name is a single letter between no-break spaces. *)
Lemma profile_update_needs_a_name_witness :
  (exists e w',
      UpdateUserProfileUseCase_Execute "uuid-1" avatar_only sample_world = (Err e, w') /\
      users w' = users sample_world /\ tokens w' = tokens sample_world) /\
  (exists e w',
      UpdateUserProfileUseCase_Execute "uuid-1" one_letter_name sample_world = (Err e, w') /\
      users w' = users sample_world /\ tokens w' = tokens sample_world).
Proof.
  split.
  - apply (profile_update_needs_a_name "uuid-1" avatar_only sample_world).
    left. vm_compute. reflexivity.
  - apply (profile_update_needs_a_name "uuid-1" one_letter_name sample_world).
    left. vm_compute. reflexivity.
Defined.

(** X21. A profile update that passes validation, for a found user with a
    unique email on a working driver, stores the trimmed name and the
    avatar of the request in every row with the user's key; a request
    without avatar clears the stored avatar. Email, password, role and
    provider stay, and so do the other rows and the sessions. *)
Theorem profile_update_stores_name_and_avatar :
  forall (id : string) (req : UpdateProfileRequest) (w : World) (user : User),
    faults w = [] ->
    gorm_First User_ID (fun r => (User_ID r =? id)%string) (users w) = Some user ->
    (forall r, In r (users w) -> User_Email r = User_Email user -> User_ID r = id) ->
    User_Validate (set_User_Name (strings_TrimSpace (UpdateProfileRequest_Name req)) user)
    = None ->
    exists resp w' updated,
      UpdateUserProfileUseCase_Execute id req w = (Ok resp, w') /\
      users w' = replaced id updated (users w) /\
      tokens w' = tokens w /\
      User_Name updated = strings_TrimSpace (UpdateProfileRequest_Name req) /\
      User_Avatar updated = UpdateProfileRequest_Avatar req /\
      User_UpdatedAt updated = clock w /\
      User_ID updated = User_ID user /\
      User_Email updated = User_Email user /\
      User_Password updated = User_Password user /\
      User_Role updated = User_Role user /\
      User_Provider updated = User_Provider user /\
      UserResponse_Name resp = User_Name updated.
Proof.
  intros id req w user Hf Hfind Huniq Hval.
  destruct (gorm_First_In _ _ _ _ Hfind) as [Hin Hid]. apply String.eqb_eq in Hid.
  unfold UpdateUserProfileUseCase_Execute, bind, wrap. rewrite FindByID_run, Hf.
  cbn [hd tl]. rewrite Hfind. unfold User_UpdateProfile. run.
  set (updated := set_User_UpdatedAt (clock w)
                    (set_User_Avatar (UpdateProfileRequest_Avatar req)
                       (set_User_Name (strings_TrimSpace (UpdateProfileRequest_Name req))
                          user))).
  assert (Hv : User_Validate updated = None).
  { rewrite <- Hval. destruct user; reflexivity. }
  rewrite Hv. rewrite userRepository_Update_existing.
  - exists (ToUserResponse updated). eexists. exists updated.
    split; [reflexivity|].
    cbn [users tokens set_users set_faults clock faults].
    split.
    { unfold replaced. replace (User_ID updated) with id
        by (unfold updated; destruct user; cbn in *; congruence).
      apply map_ext. intro r. destruct (User_ID r =? id)%string; [|reflexivity].
      unfold updated. destruct user; reflexivity. }
    unfold updated. destruct user; cbn. repeat split; reflexivity.
  - reflexivity.
  - exists user. split; [exact Hin|]. unfold updated. destruct user; reflexivity.
  - intros r Hr He. cbn [users set_faults] in Hr.
    replace (User_ID updated) with id
      by (unfold updated; destruct user; cbn in *; congruence).
    apply (Huniq r Hr). rewrite He. unfold updated. destruct user; reflexivity.
Qed.

(** X21 at a rename of the sample user, the new name between blanks and
    no-break spaces. *)
Lemma profile_update_stores_name_and_avatar_witness :
  exists resp w' updated,
    UpdateUserProfileUseCase_Execute "uuid-1" rename_request sample_world = (Ok resp, w') /\
    users w' = replaced "uuid-1" updated (users sample_world) /\
    tokens w' = tokens sample_world /\
    User_Name updated = "Una Lee" /\
    User_Avatar updated = None /\
    User_UpdatedAt updated = clock sample_world /\
    User_ID updated = User_ID sample_user /\
    User_Email updated = User_Email sample_user /\
    User_Password updated = User_Password sample_user /\
    User_Role updated = User_Role sample_user /\
    User_Provider updated = User_Provider sample_user /\
    UserResponse_Name resp = User_Name updated.
Proof.
  apply (profile_update_stores_name_and_avatar "uuid-1" rename_request sample_world
           sample_user eq_refl).
  - vm_compute. reflexivity.
  - intros r [<-|[]] _. reflexivity.
  - vm_compute. reflexivity.
Defined.

(** ** Deleted and merged accounts *)

(** X22. Deleting a user leaves the user's sessions in the session table,
    and none of them can be redeemed afterwards: at any later time, a
    refresh with a token that validates and names the deleted user fails,
    and the session table still is what it was before the deletion. *)
Theorem deleted_user_cannot_refresh :
  forall (uc : RefreshTokenUseCase) (id : string) (req : RefreshTokenRequest)
         (w w' : World) (t : Time) (claims : TokenClaims),
    DeleteUserUseCase_Execute id w = (Ok tt, w') ->
    fst (tokenService_ValidateRefreshToken (Refresh_tokenService uc)
           (RefreshTokenRequest_RefreshToken req) (set_clock t w')) = Ok claims ->
    Claims_UserID claims = id ->
    tokens w' = tokens w /\
    (forall r, In r (users w') -> User_ID r <> id) /\
    exists e w'',
      RefreshTokenUseCase_Execute uc req (set_clock t w') = (Err e, w'') /\
      tokens w'' = tokens w.
Proof.
  intros uc id req w w' t claims Hdel Hval Hid.
  assert (Hw' : tokens w' = tokens w /\
                users w' = filter (fun r => negb (User_ID r =? id)%string) (users w)).
  { unfold DeleteUserUseCase_Execute, bind, wrap in Hdel. rewrite FindByID_run in Hdel.
    destruct (hd false (faults w)); [discriminate Hdel|].
    destruct (gorm_First _ _ _); [|discriminate Hdel].
    rewrite userRepository_Delete_run in Hdel. cbn [faults set_faults] in Hdel.
    destruct (hd false (tl (faults w))); inversion Hdel. split; reflexivity. }
  destruct Hw' as [Htok Husers].
  assert (Hnone : forall r, In r (users w') -> User_ID r <> id).
  { intros r Hr. rewrite Husers in Hr. apply filter_In in Hr. destruct Hr as [_ Hr].
    intro E. rewrite (proj2 (String.eqb_eq _ _) E) in Hr. discriminate Hr. }
  split; [exact Htok|]. split; [exact Hnone|].
  unfold RefreshTokenUseCase_Execute, bind, wrap.
  unfold tokenService_ValidateRefreshToken in *.
  pose proof (validateToken_world (Refresh_tokenService uc)
                (RefreshTokenRequest_RefreshToken req) TokenTypeRefresh (set_clock t w'))
    as Hw.
  destruct (tokenService_validateToken _ _ _ (set_clock t w')) as [[c|e] w0];
    cbn in Hw, Hval; subst w0; [|discriminate Hval].
  inversion Hval; subst c.
  rewrite IsTokenValid_run. cbn [faults set_clock].
  destruct (hd false (faults w')).
  { eexists. eexists. split; [reflexivity|]. exact Htok. }
  destruct (0 <? _); cbn [negb].
  2:{ eexists. eexists. split; [reflexivity|]. exact Htok. }
  rewrite FindByID_run. cbn [faults set_faults set_clock users].
  destruct (hd false (tl (faults w'))).
  { eexists. eexists. split; [reflexivity|]. exact Htok. }
  destruct (gorm_First _ _ _) as [user|] eqn:Hfind.
  - apply gorm_First_In in Hfind. destruct Hfind as [Hin Hc].
    apply String.eqb_eq in Hc. rewrite Hid in Hc. destruct (Hnone user Hin Hc).
  - eexists. eexists. split; [reflexivity|]. exact Htok.
Qed.

(** X22 at the sample account and its session, one hour after the
    deletion. *)
Lemma deleted_user_cannot_refresh_witness :
  exists w',
    DeleteUserUseCase_Execute "uuid-1" sample_world = (Ok tt, w') /\
    tokens w' = tokens sample_world /\
    (forall r, In r (users w') -> User_ID r <> "uuid-1") /\
    exists e w'',
      RefreshTokenUseCase_Execute sample_refresh sample_refresh_request
        (set_clock (clock sample_world + time_Hour) w') = (Err e, w'') /\
      tokens w'' = tokens sample_world.
Proof.
  destruct (DeleteUserUseCase_Execute "uuid-1" sample_world) as [[[]|e] w'] eqn:E;
    [|vm_compute in E; discriminate E].
  exists w'. split; [reflexivity|].
  apply (deleted_user_cannot_refresh sample_refresh "uuid-1" sample_refresh_request
           sample_world w' (clock sample_world + time_Hour) sample_session_claims E).
  - vm_compute in E. inversion E. vm_compute. reflexivity.
  - reflexivity.
Defined.

(** The user table after the Google login that merges into [found]. *)
Lemma google_merge_users uc g w w1 w2 found :
  GoogleUserInfo_VerifiedEmail g = true ->
  userRepository_FindByProviderID ProviderGoogle (GoogleUserInfo_ID g) w = (Ok None, w1) ->
  userRepository_FindByEmail (GoogleUserInfo_Email g) w1 = (Ok (Some found), w2) ->
  User_Provider found <> ProviderGoogle ->
  hd false (faults w2) = false ->
  (forall r, In r (users w) -> User_Email r = User_Email found ->
             User_ID r = User_ID found) ->
  In found (users w) /\
  users (snd (GoogleAuthUseCase_Execute uc (Some g) w)) =
  replaced (User_ID found) (merge_google g (clock w) found) (users w).
Proof.
  intros Hver H1 H2 Hprov Hf Huniq.
  assert (Hw1 : w1 = set_faults (tl (faults w)) w).
  { rewrite FindByProviderID_run in H1. inversion H1. reflexivity. }
  assert (Hw2 : w2 = set_faults (tl (faults w1)) w1).
  { rewrite FindByEmail_run in H2. inversion H2. reflexivity. }
  assert (Hfound : In found (users w)).
  { rewrite FindByEmail_run in H2. destruct (hd false (faults w1)); [discriminate H2|].
    inversion H2 as [[Hg Hw]]. apply gorm_First_In in Hg. subst w1. exact (proj1 Hg). }
  split; [exact Hfound|].
  set (merged := merge_google g (clock w) found).
  assert (Hupd : userRepository_Update merged w2 =
                 (Ok tt,
                  set_users (replaced (User_ID found) merged (users w))
                    (set_faults (tl (faults w2)) w2))).
  { rewrite userRepository_Update_existing.
    - subst w2 w1. cbn [clock users faults set_faults].
      unfold merged. rewrite merge_google_ID, merge_google_touch. reflexivity.
    - exact Hf.
    - exists found. subst w2 w1. split; [exact Hfound|].
      unfold merged. rewrite merge_google_ID. reflexivity.
    - subst w2 w1. unfold merged. rewrite merge_google_ID, merge_google_Email.
      exact Huniq. }
  assert (Hres : GoogleAuthUseCase_resolve g w =
                 (Ok merged,
                  set_users (replaced (User_ID found) merged (users w))
                    (set_faults (tl (faults w2)) w2))).
  { unfold GoogleAuthUseCase_resolve, bind, wrap. rewrite H1.
    unfold ret at 1. rewrite H2.
    rewrite (string_eqb_neq _ _ Hprov). cbn [negb].
    unfold time_Now, gets.
    replace (clock w2) with (clock w) by (subst w2 w1; reflexivity).
    fold merged. rewrite Hupd. reflexivity. }
  unfold GoogleAuthUseCase_Execute. rewrite Hver. cbn [negb].
  unfold bind at 1. rewrite Hres. unfold bind, ignore_error. cbn [fst snd].
  rewrite issue_and_store_new_users.
  rewrite RevokeAllUserTokens_run. cbn [faults set_users set_faults].
  match goal with
  | |- context [if ?b then _ else _] => destruct b; reflexivity
  end.
Qed.

Lemma merge_google_Provider g t u :
  User_Provider (merge_google g t u) = ProviderGoogle.
Proof. unfold merge_google. destruct (negb _); reflexivity. Qed.

(** X23. The merge takes the password login away. After a Google login
    has merged into a local account, a login with the
    account's email is refused with "please use OAuth login for this
    account" whatever password is given, the right one included: the
    password hash stays in the row, and the login never looks at it. *)
Theorem merged_account_loses_password_login :
  forall (guc : GoogleAuthUseCase) (luc : LoginUseCase) (g : GoogleUserInfo)
         (w w1 w2 : World) (found : User) (req : LoginRequest) (t : Time),
    GoogleUserInfo_VerifiedEmail g = true ->
    userRepository_FindByProviderID ProviderGoogle (GoogleUserInfo_ID g) w
    = (Ok None, w1) ->
    userRepository_FindByEmail (GoogleUserInfo_Email g) w1 = (Ok (Some found), w2) ->
    User_Provider found <> ProviderGoogle ->
    hd false (faults w2) = false ->
    (forall r, In r (users w) -> User_Email r = User_Email found ->
               User_ID r = User_ID found) ->
    LoginRequest_Email req = User_Email found ->
    hd false (faults (snd (GoogleAuthUseCase_Execute guc (Some g) w))) = false ->
    fst (LoginUseCase_Execute luc req
           (set_clock t (snd (GoogleAuthUseCase_Execute guc (Some g) w))))
    = Err (errors_New "please use OAuth login for this account").
Proof.
  intros guc luc g w w1 w2 found req t Hver H1 H2 Hprov Hf Huniq Hreq Hf'.
  destruct (google_merge_users guc g w w1 w2 found Hver H1 H2 Hprov Hf Huniq)
    as [Hfound Husers].
  set (w' := snd (GoogleAuthUseCase_Execute guc (Some g) w)) in *.
  set (merged := merge_google g (clock w) found) in *.
  unfold LoginUseCase_Execute, bind, wrap. rewrite FindByEmail_run.
  cbn [faults set_clock users]. rewrite Hf', Hreq, Husers.
  assert (Hmerged : In merged (replaced (User_ID found) merged (users w))).
  { apply in_map_iff. exists found. split; [|exact Hfound].
    rewrite String.eqb_refl. reflexivity. }
  destruct (gorm_First User_ID _ _) as [user|] eqn:Hfind.
  - apply gorm_First_In in Hfind. destruct Hfind as [Hin Hc].
    apply String.eqb_eq in Hc.
    assert (Hu : user = merged).
    { apply in_map_iff in Hin. destruct Hin as [r0 [Hr0 Hin0]].
      destruct (String.eqb_spec (User_ID r0) (User_ID found)) as [E|E];
        [congruence|].
      subst user. destruct (E (Huniq r0 Hin0 Hc)). }
    subst user. unfold User_IsOAuthUser. unfold merged at 1.
    rewrite merge_google_Provider. reflexivity.
  - exfalso. unfold gorm_First in Hfind.
    assert (Hin : In merged (filter (fun r => (User_Email r =? User_Email found)%string)
                               (replaced (User_ID found) merged (users w)))).
    { apply filter_In. split; [exact Hmerged|].
      unfold merged. rewrite merge_google_Email. apply String.eqb_refl. }
    destruct (filter _ _) as [|a l]; [destruct Hin|].
    cbn in Hfind. destruct (least User_ID l) as [m|];
      [destruct (String.leb (User_ID a) (User_ID m))|]; discriminate Hfind.
Qed.

(** X23 at the sample account, after its Google login, with the
    password the account was registered with. *)
Lemma merged_account_loses_password_login_witness :
  fst (LoginUseCase_Execute sample_login good_login
         (set_clock (clock avatar_world + time_Hour)
            (snd (GoogleAuthUseCase_Execute sample_google (Some google_una) avatar_world))))
  = Err (errors_New "please use OAuth login for this account").
Proof.
  apply (merged_account_loses_password_login sample_google sample_login google_una
           avatar_world avatar_world avatar_world avatar_user good_login
           (clock avatar_world + time_Hour)).
  - reflexivity.
  - vm_compute. reflexivity.
  - vm_compute. reflexivity.
  - intro H. vm_compute in H. discriminate H.
  - reflexivity.
  - intros r [<-|[]] _. reflexivity.
  - reflexivity.
  - vm_compute. reflexivity.
Defined.

(** ** Rotation and first Google login *)

Lemma tokenRepository_Create_failed token w e w' :
  tokenRepository_Create token w = (Err e, w') -> tokens w' = tokens w.
Proof.
  rewrite tokenRepository_Create_run. unfold after_insert.
  destruct (hd false (faults w)); [intro H; inversion H; reflexivity|]. cbv zeta.
  destruct (_ || _); intro H; inversion H.
  destruct (Token_ID token =? "")%string; reflexivity.
Qed.

(** X30. Rotation. Take a refresh token that validates as a refresh token,
    was issued in an earlier clock second than the one of the call, and
    has an active session; its user exists, the driver does not fail, and
    no other session holds the token this call issues or the identifier
    it draws. Then Refresh succeeds; the refresh token it returns differs
    from the one presented and is stored as a session of the user; no
    session holds the presented token any more; and redeeming the
    presented token again, at any time, fails: with "refresh token has
    been revoked or expired" while the token still validates, with
    "invalid refresh token" once it does not. *)
Theorem refresh_rotates :
  forall (uc : RefreshTokenUseCase) (req : RefreshTokenRequest) (w : World)
         (claims : TokenClaims) (user : User),
    fst (tokenService_ValidateRefreshToken (Refresh_tokenService uc)
           (RefreshTokenRequest_RefreshToken req) w) = Ok claims ->
    Jwt.IssuedAt (Claims_Registered claims) <> Some (Jwt.NewNumericDate (clock w)) ->
    (exists r, In r (tokens w) /\
               Token_RefreshToken r = RefreshTokenRequest_RefreshToken req /\
               clock w < Token_ExpiresAt r) ->
    fst (userRepository_FindByID (Claims_UserID claims) w) = Ok (Some user) ->
    faults w = [] ->
    (forall r, In r (tokens w) ->
               Token_RefreshToken r <> RefreshTokenRequest_RefreshToken req ->
               Token_RefreshToken r <> refresh_of (Refresh_tokenService uc) user w /\
               Token_ID r <> uuid_text (entropy w)) ->
    exists resp w',
      RefreshTokenUseCase_Execute uc req w = (Ok resp, w') /\
      AuthResponse_RefreshToken resp <> RefreshTokenRequest_RefreshToken req /\
      (exists row, In row (tokens w') /\
                   Token_RefreshToken row = AuthResponse_RefreshToken resp /\
                   Token_UserID row = User_ID user) /\
      (forall r, In r (tokens w') ->
                 Token_RefreshToken r <> RefreshTokenRequest_RefreshToken req) /\
      (forall t : Time,
          fst (RefreshTokenUseCase_Execute uc req (set_clock t w')) =
          match fst (tokenService_ValidateRefreshToken (Refresh_tokenService uc)
                       (RefreshTokenRequest_RefreshToken req) (set_clock t w')) with
          | Ok _ => Err (errors_New "refresh token has been revoked or expired")
          | Err e => Err (fmt_Errorf "invalid refresh token" e)
          end).
Proof.
  intros uc req w claims user Hvalid Hiat [r0 [Hin0 [Htok0 Hexp0]]] Hfind Hfaults Hother.
  set (ts := Refresh_tokenService uc) in *.
  set (tok := RefreshTokenRequest_RefreshToken req) in *.
  assert (Hdiff : refresh_of ts user w <> tok).
  { intro E. unfold tokenService_ValidateRefreshToken in Hvalid.
    destruct (validateToken_ok _ _ _ _ _ Hvalid) as [alg [sig [Ht _]]].
    rewrite Ht in E. unfold refresh_of, issued in E. inversion E as [[Halg Hclaims Hsig]].
    apply Hiat. rewrite <- Hclaims. reflexivity. }
  rewrite FindByID_run, Hfaults in Hfind. cbn in Hfind.
  set (wd := set_tokens
               (filter (fun r => negb (TokenString_eqb (Token_RefreshToken r) tok))
                  (tokens w))
               (set_faults [] (set_faults [] (set_faults [] w)))).
  assert (Hkept : forall r, In r (tokens wd) ->
                            In r (tokens w) /\ Token_RefreshToken r <> tok).
  { intros r Hr. cbn in Hr. apply filter_In in Hr. destruct Hr as [Hr Hn].
    split; [exact Hr|]. apply negb_true_iff in Hn. apply TokenString_eqb_neq. exact Hn. }
  assert (Hacc : accepts_session (refresh_of ts user wd) wd).
  { split; [reflexivity|]. split.
    - intros r Hr. destruct (Hkept r Hr) as [Hr' Hn]. exact (proj1 (Hother r Hr' Hn)).
    - intros r Hr. destruct (Hkept r Hr) as [Hr' Hn]. exact (proj2 (Hother r Hr' Hn)). }
  destruct (issue_and_store_new_ok ts user "failed to store new refresh token" wd Hacc)
    as [resp [w' [row [Hrun [Hrt [Htoks [_ [_ [Hf' [Hrow [Huid _]]]]]]]]]]].
  change (refresh_of ts user wd) with (refresh_of ts user w) in Hrt, Hrow.
  exists resp, w'.
  assert (Hgone : forall r, In r (tokens w') -> Token_RefreshToken r <> tok).
  { intros r Hr. rewrite Htoks in Hr. apply in_app_or in Hr. destruct Hr as [Hr|[<-|[]]].
    - exact (proj2 (Hkept r Hr)).
    - rewrite Hrow. exact Hdiff. }
  split; [|split; [|split; [|split]]].
  - unfold RefreshTokenUseCase_Execute, bind, wrap.
    pose proof (validateToken_world ts tok TokenTypeRefresh w) as Hw.
    unfold tokenService_ValidateRefreshToken in *. fold ts. fold tok.
    destruct (tokenService_validateToken ts tok TokenTypeRefresh w) as [[c|e] w0];
      cbn in Hw, Hvalid; subst w0; [|discriminate Hvalid].
    inversion Hvalid; subst c.
    rewrite IsTokenValid_run, Hfaults. cbn [hd tl].
    assert (Hact : (0 <? Z.of_nat (List.length
                                     (filter (active_at (clock w) tok) (tokens w)))) = true).
    { apply filter_length_pos. exists r0. split; [exact Hin0|].
      unfold active_at. apply andb_true_iff. split.
      - apply TokenString_eqb_eq. exact Htok0.
      - apply Z.ltb_lt. exact Hexp0. }
    rewrite Hact. cbn [negb].
    rewrite FindByID_run. cbn [faults set_faults hd tl users].
    inversion Hfind as [Hg]. rewrite Hg.
    rewrite DeleteByRefreshToken_run. cbn [faults set_faults hd tl tokens].
    exact Hrun.
  - rewrite Hrt. exact Hdiff.
  - exists row. split; [|split; [congruence | exact Huid]].
    rewrite Htoks. apply in_or_app. right. left. reflexivity.
  - exact Hgone.
  - intro t. unfold RefreshTokenUseCase_Execute, bind, wrap.
    pose proof (validateToken_world ts tok TokenTypeRefresh (set_clock t w')) as Hw.
    unfold tokenService_ValidateRefreshToken. fold ts. fold tok.
    destruct (tokenService_validateToken ts tok TokenTypeRefresh (set_clock t w'))
      as [[c|e] w0]; cbn in Hw; subst w0; [|reflexivity].
    rewrite IsTokenValid_run. cbn [faults set_clock tokens clock fst].
    rewrite Hf'. cbn [hd tl faults set_tokens set_faults wd].
    rewrite filter_none; [reflexivity|].
    intros r Hr. unfold active_at.
    apply andb_false_iff. left. apply TokenString_eqb_neq. exact (Hgone r Hr).
Qed.

(** X30 at the sample session, redeemed one minute after it was issued. *)
Lemma refresh_rotates_witness :
  exists resp w',
    RefreshTokenUseCase_Execute sample_refresh sample_refresh_request sample_world
    = (Ok resp, w') /\
    AuthResponse_RefreshToken resp <> RefreshTokenRequest_RefreshToken sample_refresh_request /\
    (exists row, In row (tokens w') /\
                 Token_RefreshToken row = AuthResponse_RefreshToken resp /\
                 Token_UserID row = User_ID sample_user) /\
    (forall r, In r (tokens w') ->
               Token_RefreshToken r <> RefreshTokenRequest_RefreshToken sample_refresh_request) /\
    (forall t : Time,
        fst (RefreshTokenUseCase_Execute sample_refresh sample_refresh_request
               (set_clock t w')) =
        match fst (tokenService_ValidateRefreshToken (Refresh_tokenService sample_refresh)
                     (RefreshTokenRequest_RefreshToken sample_refresh_request)
                     (set_clock t w')) with
        | Ok _ => Err (errors_New "refresh token has been revoked or expired")
        | Err e => Err (fmt_Errorf "invalid refresh token" e)
        end).
Proof.
  apply (refresh_rotates sample_refresh sample_refresh_request sample_world
           sample_session_claims sample_user).
  - vm_compute. reflexivity.
  - intro H. vm_compute in H. discriminate H.
  - exists sample_session. split; [left; reflexivity|]. split; reflexivity.
  - vm_compute. reflexivity.
  - reflexivity.
  - intros r [<-|[]] H. exfalso. apply H. reflexivity.
Defined.

(** X24. The rotation is not one transaction. When Refresh fails with
    "failed to store new refresh token", the presented token had an active
    session before the call, and after the call no session carries it:
    the old session has been deleted and no new one stored, so the user
    has to log in again. The users are untouched. *)
Theorem refresh_store_failure_drops_session :
  forall (uc : RefreshTokenUseCase) (req : RefreshTokenRequest) (w w' : World)
         (cause : error),
    RefreshTokenUseCase_Execute uc req w
    = (Err (fmt_Errorf "failed to store new refresh token" cause), w') ->
    (exists r, In r (tokens w) /\
               Token_RefreshToken r = RefreshTokenRequest_RefreshToken req /\
               clock w < Token_ExpiresAt r) /\
    (forall r, In r (tokens w') ->
               Token_RefreshToken r <> RefreshTokenRequest_RefreshToken req) /\
    (forall r, In r (tokens w') -> In r (tokens w)) /\
    users w' = users w.
Proof.
  intros uc req w w' cause Hrun.
  unfold RefreshTokenUseCase_Execute, bind, wrap in Hrun.
  unfold tokenService_ValidateRefreshToken in Hrun.
  pose proof (validateToken_world (Refresh_tokenService uc)
                (RefreshTokenRequest_RefreshToken req) TokenTypeRefresh w) as Hw.
  destruct (tokenService_validateToken _ _ _ w) as [[claims|e] w0]; cbn in Hw; subst w0;
    [|discriminate Hrun].
  rewrite IsTokenValid_run in Hrun.
  destruct (hd false (faults w)); [discriminate Hrun|].
  destruct (0 <? _) eqn:Hvalid; cbn [negb] in Hrun; [|discriminate Hrun].
  rewrite FindByID_run in Hrun. cbn [faults set_faults users] in Hrun.
  destruct (hd false (tl (faults w))); [discriminate Hrun|].
  destruct (gorm_First _ _ _) as [user|]; [|discriminate Hrun].
  rewrite DeleteByRefreshToken_run in Hrun. cbn [faults set_faults] in Hrun.
  destruct (hd false (tl (tl (faults w)))); [discriminate Hrun|].
  rewrite issue_and_store_new in Hrun.
  match type of Hrun with
  | context [tokenRepository_Create ?t ?v] =>
      pose proof (tokenRepository_Create_frame t v) as [Hu _];
      destruct (tokenRepository_Create t v) as [[[]|e] w2] eqn:Hc; [discriminate Hrun|]
  end.
  inversion Hrun; subst w2.
  apply tokenRepository_Create_failed in Hc as Ht.
  cbn [snd users tokens set_entropy set_tokens set_faults] in Hu, Ht.
  split; [|split; [|split]].
  - apply filter_length_pos in Hvalid. destruct Hvalid as [r [Hin Hact]].
    unfold active_at in Hact. apply andb_true_iff in Hact. destruct Hact as [Ht' Hexp].
    exists r. split; [exact Hin|]. split.
    + apply TokenString_eqb_eq. exact Ht'.
    + apply Z.ltb_lt. exact Hexp.
  - intros r Hr E. rewrite Ht in Hr. apply filter_In in Hr. destruct Hr as [_ Hr].
    apply negb_true_iff in Hr.
    rewrite (proj2 (TokenString_eqb_eq _ _) E) in Hr. discriminate Hr.
  - intros r Hr. rewrite Ht in Hr. apply filter_In in Hr. exact (proj1 Hr).
  - exact Hu.
Qed.

(** X24 at the sample session, with a driver that fails on the insert. *)
Lemma refresh_store_failure_drops_session_witness :
  exists cause w',
    RefreshTokenUseCase_Execute sample_refresh sample_refresh_request store_fails_world
    = (Err (fmt_Errorf "failed to store new refresh token" cause), w') /\
    (exists r, In r (tokens store_fails_world) /\
               Token_RefreshToken r = RefreshTokenRequest_RefreshToken sample_refresh_request /\
               clock store_fails_world < Token_ExpiresAt r) /\
    (forall r, In r (tokens w') ->
               Token_RefreshToken r <> RefreshTokenRequest_RefreshToken sample_refresh_request) /\
    (forall r, In r (tokens w') -> In r (tokens store_fails_world)) /\
    users w' = users store_fails_world.
Proof.
  destruct (RefreshTokenUseCase_Execute sample_refresh sample_refresh_request
              store_fails_world) as [[resp|[msg|msg cause]] w'] eqn:E;
    try (vm_compute in E; discriminate E).
  assert (Hmsg : msg = "failed to store new refresh token").
  { vm_compute in E. inversion E. reflexivity. }
  subst msg. exists cause, w'. split; [reflexivity|].
  exact (refresh_store_failure_drops_session _ _ _ _ _ E).
Defined.

(** X25. First Google login. When neither the Google ID nor the email of
    a verified Google profile matches an account and the login succeeds,
    it has appended exactly one account: provider GOOGLE with the Google
    ID, role USER, no password, email verified, the email trimmed and in
    lower case, the Google avatar (none when it is empty); and one session
    for that account carries the refresh token returned. *)
Theorem google_first_login_creates_account :
  forall (uc : GoogleAuthUseCase) (g : GoogleUserInfo) (w w1 w2 w' : World)
         (resp : AuthResponse),
    userRepository_FindByProviderID ProviderGoogle (GoogleUserInfo_ID g) w
    = (Ok None, w1) ->
    userRepository_FindByEmail (GoogleUserInfo_Email g) w1 = (Ok None, w2) ->
    GoogleAuthUseCase_Execute uc (Some g) w = (Ok resp, w') ->
    exists user row,
      users w' = (users w ++ [user])%list /\
      User_Provider user = ProviderGoogle /\
      User_ProviderID user = Some (GoogleUserInfo_ID g) /\
      User_Role user = RoleUser /\
      User_Password user = None /\
      User_EmailVerified user = true /\
      User_Email user = strings_ToLower (strings_TrimSpace (GoogleUserInfo_Email g)) /\
      User_Name user = strings_TrimSpace (GoogleUserInfo_Name g) /\
      User_Avatar user = (if (GoogleUserInfo_Avatar g =? "")%string then None
                          else Some (GoogleUserInfo_Avatar g)) /\
      UserResponse_ID (AuthResponse_User resp) = User_ID user /\
      In row (tokens w') /\
      Token_UserID row = User_ID user /\
      Token_RefreshToken row = AuthResponse_RefreshToken resp.
Proof.
  intros uc g w w1 w2 w' resp H1 H2 Hrun.
  assert (Hw1 : w1 = set_faults (tl (faults w)) w).
  { rewrite FindByProviderID_run in H1. inversion H1. reflexivity. }
  assert (Hw2 : w2 = set_faults (tl (faults w1)) w1).
  { rewrite FindByEmail_run in H2. inversion H2. reflexivity. }
  unfold GoogleAuthUseCase_Execute in Hrun.
  destruct (negb (GoogleUserInfo_VerifiedEmail g)); [discriminate Hrun|].
  unfold bind at 1 in Hrun.
  destruct (GoogleAuthUseCase_resolve g w) as [[user|e] w3] eqn:Hres; [|discriminate Hrun].
  unfold GoogleAuthUseCase_resolve, bind, wrap in Hres. rewrite H1 in Hres.
  unfold ret at 1 in Hres. rewrite H2 in Hres. unfold ret at 1 in Hres.
  unfold NewOAuthUser in Hres. run.
  match type of Hres with
  | context [User_Validate ?u] => set (u0 := u) in *; destruct (User_Validate u0)
  end; [discriminate Hres|].
  rewrite userRepository_Create_run in Hres.
  cbn [faults set_entropy] in Hres.
  destruct (hd false (faults w2)); [discriminate Hres|]. cbv zeta in Hres.
  destruct (_ || _); [discriminate Hres|].
  inversion Hres; subst user w3. clear Hres.
  unfold bind, ignore_error in Hrun. cbn [fst snd] in Hrun.
  rewrite issue_and_store_new in Hrun.
  match type of Hrun with
  | context [tokenRepository_Create ?t ?v] =>
      pose proof (tokenRepository_Create_frame t v) as [Hu _];
      pose proof (tokenRepository_Create_run t v) as Hcr;
      destruct (tokenRepository_Create t v) as [[[]|e] w4] eqn:Hc; [|discriminate Hrun]
  end.
  inversion Hrun; subst w4. clear Hrun.
  cbn [snd] in Hu.
  destruct (hd false _) in Hcr; [discriminate Hcr|]. cbv zeta in Hcr.
  destruct (_ || _) in Hcr; [discriminate Hcr|].
  injection Hcr as Hw'.
  match type of Hu with
  | _ = users (set_entropy _ (snd (tokenRepository_RevokeAllUserTokens ?i ?v))) =>
      assert (Hrev : users (snd (tokenRepository_RevokeAllUserTokens i v)) = users v)
        by (rewrite RevokeAllUserTokens_run; destruct (hd false (faults v)); reflexivity)
  end.
  cbn [users set_entropy] in Hu. rewrite Hrev in Hu. cbn [users set_users] in Hu.
  match type of Hu with
  | _ = (_ ++ [prepared_user u0 ?v])%list =>
      destruct (prepared_user_fields u0 v)
        as (He & Hp & Hn & Hr & Hpr & Hpi & Ha & Hev & Hid);
      exists (prepared_user u0 v)
  end.
  eexists.
  split; [rewrite Hu; subst w2 w1; reflexivity|].
  rewrite Hpr, Hpi, Hr, Hp, Hev, He, Hn, Ha, (Hid eq_refl).
  repeat (split; [reflexivity|]).
  split.
  { unfold u0. cbn [User_Avatar]. destruct (GoogleUserInfo_Avatar g =? "")%string;
      reflexivity. }
  split; [reflexivity|].
  split; [rewrite Hw'; cbn [tokens set_tokens]; apply in_or_app; right; left; reflexivity|].
  split; reflexivity.
Qed.

(** X25 at a profile new to the sample database. *)
Lemma google_first_login_creates_account_witness :
  exists resp w' user row,
    GoogleAuthUseCase_Execute sample_google (Some google_new) sample_world = (Ok resp, w') /\
    users w' = (users sample_world ++ [user])%list /\
    User_Provider user = ProviderGoogle /\
    User_ProviderID user = Some "g2" /\
    User_Role user = RoleUser /\
    User_Password user = None /\
    User_EmailVerified user = true /\
    User_Email user = small_e_acute ++ "lan@x.com" /\
    User_Name user = "Nia" /\
    User_Avatar user = None /\
    UserResponse_ID (AuthResponse_User resp) = User_ID user /\
    In row (tokens w') /\
    Token_UserID row = User_ID user /\
    Token_RefreshToken row = AuthResponse_RefreshToken resp.
Proof.
  destruct (GoogleAuthUseCase_Execute sample_google (Some google_new) sample_world)
    as [[resp|e] w'] eqn:E; [|vm_compute in E; discriminate E].
  exists resp, w'.
  destruct (google_first_login_creates_account sample_google google_new sample_world
              sample_world sample_world w' resp) as [user [row H]].
  - vm_compute. reflexivity.
  - vm_compute. reflexivity.
  - exact E.
  - exists user, row. split; [reflexivity|]. exact H.
Defined.

(** ** Middleware *)

Lemma RequireAuth_issued s now userID email role c t w :
  clock w = t -> now <= t -> t <= now + accessExpiry s - time_Second ->
  AuthMiddleware_RequireAuth s
    (bearer (issued s TokenTypeAccess (accessExpiry s) now userID email role)) c w
  = (Ok (Next, {| Context_user_id := Some userID; Context_user_email := Some email;
                  Context_user_role := Some role |}), w).
Proof.
  intros Hc H1 H2. unfold AuthMiddleware_RequireAuth, bearer.
  cbn [is_empty_header]. unfold issued at 1.
  change (TokenString_eqb (Jwt.Malformed "Bearer") (Jwt.Malformed "Bearer")) with true.
  cbn [negb].
  unfold tokenService_ValidateAccessToken.
  pose proof (validateToken_world s
                (issued s TokenTypeAccess (accessExpiry s) now userID email role)
                TokenTypeAccess w) as Hw.
  pose proof (issued_validate s TokenTypeAccess (accessExpiry s) now userID email role
                TokenTypeAccess w) as Hv.
  rewrite Hc, (issued_window _ _ userID t H1 H2) in Hv.
  change (TokenTypeAccess =? TokenTypeAccess)%string with true in Hv. cbv iota in Hv.
  destruct (tokenService_validateToken _ _ _ w) as [[claims|e] w0]; cbn in Hw, Hv;
    subst w0; [|discriminate Hv].
  inversion Hv. reflexivity.
Qed.

(** X26. The role of a request is the role in its access token, not the
    stored one. An access token issued to an admin still opens the admin
    routes after the admin has been demoted, for as long as the token
    lives: the demotion succeeds and stores role USER, and the
    middlewares of the admin routes let the old token through. *)
Theorem demoted_admin_keeps_admin_routes :
  forall (s : tokenService) (id : string) (w : World) (user : User) (t : Time)
         (c : Context),
    faults w = [] ->
    gorm_First User_ID (fun r => (User_ID r =? id)%string) (users w) = Some user ->
    User_Role user = RoleAdmin ->
    (forall r, In r (users w) -> User_Email r = User_Email user -> User_ID r = id) ->
    clock w <= t ->
    t <= clock w + accessExpiry s - time_Second ->
    exists resp w',
      DemoteUserUseCase_Execute id w = (Ok resp, w') /\
      UserResponse_Role resp = RoleUser /\
      (forall r, In r (users w') -> User_ID r = id -> User_Role r = RoleUser) /\
      admin_route s (bearer (access_of s user w)) c (set_clock t w')
      = (Ok Next, set_clock t w').
Proof.
  intros s id w user t c Hf Hfind Hrole Huniq H1 H2.
  assert (Hadm : User_IsAdmin user = true).
  { unfold User_IsAdmin. rewrite Hrole. reflexivity. }
  rewrite (DemoteUser_run id w user Hf Hfind Hadm Huniq).
  eexists. eexists. split; [reflexivity|]. split; [reflexivity|]. split.
  - cbn [users set_users]. intros r Hr Hid. unfold replaced in Hr.
    apply in_map_iff in Hr. destruct Hr as [r0 [Hr0 _]].
    destruct (String.eqb_spec (User_ID r0) id) as [E|E].
    + subst r. reflexivity.
    + subst r. contradiction.
  - unfold admin_route, bind, access_of.
    rewrite (RequireAuth_issued s (clock w) _ _ _ c t); [| reflexivity | exact H1 | exact H2].
    cbn [Context_user_role]. rewrite Hrole. reflexivity.
Qed.

(** X26 at the sample account as an admin, ten minutes after the token
    was issued. *)
Lemma demoted_admin_keeps_admin_routes_witness :
  exists resp w',
    DemoteUserUseCase_Execute "uuid-1" admin_world = (Ok resp, w') /\
    UserResponse_Role resp = RoleUser /\
    (forall r, In r (users w') -> User_ID r = "uuid-1" -> User_Role r = RoleUser) /\
    admin_route sample_tokens (bearer (access_of sample_tokens sample_admin admin_world))
      no_context (set_clock (clock admin_world + 600 * time_Second) w')
    = (Ok Next, set_clock (clock admin_world + 600 * time_Second) w').
Proof.
  apply (demoted_admin_keeps_admin_routes sample_tokens "uuid-1" admin_world sample_admin
           (clock admin_world + 600 * time_Second) no_context eq_refl).
  - vm_compute. reflexivity.
  - reflexivity.
  - intros r [<-|[]] _. reflexivity.
  - vm_compute. discriminate.
  - vm_compute. discriminate.
Defined.

(** X27. The auth middleware lets a request through only with a header of
    the two fields "Bearer" and a token that the access validator
    accepts, and then the context carries the claims of that token: a
    refresh token, an expired token or a token under another key never
    authenticates. The middleware reads neither table and changes
    nothing. *)
Theorem require_auth_passes_only_valid_access_tokens :
  forall (m : tokenService) (tokenParts : list TokenString) (c c' : Context)
         (w w' : World),
    AuthMiddleware_RequireAuth m tokenParts c w = (Ok (Next, c'), w') ->
    w' = w /\
    exists accessToken claims,
      tokenParts = bearer accessToken /\
      fst (tokenService_ValidateAccessToken m accessToken w) = Ok claims /\
      Claims_TokenType claims = TokenTypeAccess /\
      c' = {| Context_user_id := Some (Claims_UserID claims);
              Context_user_email := Some (Claims_Email claims);
              Context_user_role := Some (Claims_Role claims) |}.
Proof.
  intros m tokenParts c c' w w' H. unfold AuthMiddleware_RequireAuth in H.
  destruct (is_empty_header tokenParts); [discriminate H|].
  destruct tokenParts as [|scheme [|accessToken [|x rest]]]; try discriminate H.
  destruct (TokenString_eqb scheme (Jwt.Malformed "Bearer")) eqn:Hs; cbn [negb] in H;
    [|discriminate H].
  apply TokenString_eqb_eq in Hs. subst scheme.
  unfold tokenService_ValidateAccessToken in *.
  pose proof (validateToken_world m accessToken TokenTypeAccess w) as Hw.
  destruct (tokenService_validateToken m accessToken TokenTypeAccess w)
    as [[claims|e] w0] eqn:Hv; [|discriminate H].
  cbn in Hw. subst w0. inversion H; subst. split; [reflexivity|].
  exists accessToken, claims. split; [reflexivity|].
  split; [rewrite Hv; reflexivity|].
  split; [|reflexivity].
  unfold tokenService_validateToken in Hv. run.
  destruct (Jwt.ParseWithClaims _ _ _ _ _) as [tok|]; [|discriminate Hv].
  destruct (negb (Jwt.Valid tok)); [discriminate Hv|].
  destruct (Claims_TokenType (Jwt.Claims tok) =? TokenTypeAccess)%string eqn:Hk;
    cbn [negb] in Hv; [|discriminate Hv].
  inversion Hv; subst. apply String.eqb_eq. exact Hk.
Qed.

(** X27 at an access token of the sample user. *)
Lemma require_auth_passes_only_valid_access_tokens_witness :
  exists accessToken claims,
    bearer (access_of sample_tokens sample_user sample_world) = bearer accessToken /\
    fst (tokenService_ValidateAccessToken sample_tokens accessToken sample_world)
    = Ok claims /\
    Claims_TokenType claims = TokenTypeAccess /\
    {| Context_user_id := Some "uuid-1"; Context_user_email := Some "u@x.com";
       Context_user_role := Some "USER" |}
    = {| Context_user_id := Some (Claims_UserID claims);
         Context_user_email := Some (Claims_Email claims);
         Context_user_role := Some (Claims_Role claims) |}.
Proof.
  apply (require_auth_passes_only_valid_access_tokens sample_tokens
           (bearer (access_of sample_tokens sample_user sample_world)) no_context
           {| Context_user_id := Some "uuid-1"; Context_user_email := Some "u@x.com";
              Context_user_role := Some "USER" |} sample_world sample_world).
  vm_compute. reflexivity.
Defined.

(** X28. The role checks. The admin check passes exactly for the role
    "ADMIN" and the user check exactly for "USER" and "ADMIN", so whoever
    passes the admin check passes the user check; a request without role
    entry gets 401 and any other role 403 (role names are compared as
    they are, byte by byte); and the helpers [HasRole], [IsAdmin]
    and [IsUser] answer true exactly when the middleware of the same name
    lets the request through. *)
Theorem role_checks_agree :
  forall (userRole : option string) (role : Role),
    (RoleMiddleware_RequireRole role userRole = Next <-> userRole = Some role) /\
    (RoleMiddleware_RequireAdmin userRole = Next <-> userRole = Some RoleAdmin) /\
    (RoleMiddleware_RequireUser userRole = Next <->
     userRole = Some RoleUser \/ userRole = Some RoleAdmin) /\
    (RoleMiddleware_RequireAdmin userRole = Next ->
     RoleMiddleware_RequireUser userRole = Next) /\
    (userRole = None ->
     RoleMiddleware_RequireRole role userRole = Abort 401 "UNAUTHORIZED" /\
     RoleMiddleware_RequireUser userRole = Abort 401 "UNAUTHORIZED") /\
    (forall r, userRole = Some r -> r <> role ->
               RoleMiddleware_RequireRole role userRole
               = Abort 403 "INSUFFICIENT_PERMISSIONS") /\
    (forall r, userRole = Some r -> r <> RoleUser -> r <> RoleAdmin ->
               RoleMiddleware_RequireUser userRole
               = Abort 403 "INSUFFICIENT_PERMISSIONS") /\
    (middleware_HasRole userRole role = true <->
     RoleMiddleware_RequireRole role userRole = Next) /\
    (middleware_IsAdmin userRole = true <-> RoleMiddleware_RequireAdmin userRole = Next) /\
    (middleware_IsUser userRole = true <-> RoleMiddleware_RequireUser userRole = Next).
Proof.
  intros userRole role.
  assert (HR : forall ro : string, RoleMiddleware_RequireRole ro userRole = Next <->
                                   userRole = Some ro).
  { intro ro. unfold RoleMiddleware_RequireRole. destruct userRole as [r|].
    - destruct (String.eqb_spec r ro) as [E|E]; cbn [negb]; split; intro H.
      + rewrite E. reflexivity.
      + reflexivity.
      + discriminate H.
      + injection H as H. contradiction.
    - split; intro H; discriminate H. }
  assert (HU : RoleMiddleware_RequireUser userRole = Next <->
               userRole = Some RoleUser \/ userRole = Some RoleAdmin).
  { unfold RoleMiddleware_RequireUser. destruct userRole as [r|].
    - destruct (String.eqb_spec r RoleUser) as [E|E].
      { cbn [negb andb]. split; intro H; [left; rewrite E|]; reflexivity. }
      destruct (String.eqb_spec r RoleAdmin) as [E'|E'].
      { cbn [negb andb]. split; intro H; [right; rewrite E'|]; reflexivity. }
      cbn [negb andb]. split; intro H; [discriminate H|].
      destruct H as [H|H]; injection H as H; contradiction.
    - split; [intro H; discriminate H|intros [H|H]; discriminate H]. }
  assert (HH : forall ro : string, middleware_HasRole userRole ro = true <->
                                   userRole = Some ro).
  { intro ro. unfold middleware_HasRole. destruct userRole as [r|].
    - rewrite String.eqb_eq. split; intro H; [rewrite H; reflexivity|].
      injection H as H. exact H.
    - split; intro H; discriminate H. }
  split; [exact (HR role)|]. split; [exact (HR RoleAdmin)|]. split; [exact HU|].
  split.
  { intro H. apply HU. right. apply (HR RoleAdmin). exact H. }
  split.
  { intro H. subst userRole. split; reflexivity. }
  split.
  { intros r H Hne. subst userRole. unfold RoleMiddleware_RequireRole.
    rewrite (string_eqb_neq _ _ Hne). reflexivity. }
  split.
  { intros r H Hu Ha. subst userRole. unfold RoleMiddleware_RequireUser.
    rewrite (string_eqb_neq _ _ Hu), (string_eqb_neq _ _ Ha). reflexivity. }
  split.
  { rewrite (HR role). exact (HH role). }
  split.
  { unfold RoleMiddleware_RequireAdmin, middleware_IsAdmin. rewrite (HR RoleAdmin).
    exact (HH RoleAdmin). }
  rewrite HU. unfold middleware_IsUser. destruct userRole as [r|].
  - rewrite orb_true_iff, !String.eqb_eq.
    split; intros [H|H]; [left; rewrite H; reflexivity | right; rewrite H; reflexivity
                         | left; injection H as H; exact H
                         | right; injection H as H; exact H].
  - split; [intro H; discriminate H|intros [H|H]; discriminate H].
Qed.

(** ** The token entity *)

(** X29. Revoking a session kills it for the entity and for the
    repository alike. After [Revoke], at the time of the call and at any
    later time, the entity reports the token expired and not valid, its
    [Validate] refuses it, and the repository test of an active session
    fails for it; the user, the token text and the creation time are
    kept. The repository's own revocation writes the same expiry. *)
Theorem revoked_token_is_dead :
  forall (t : Token) (w : World) (later : Time),
    clock w <= later ->
    exists t',
      Token_Revoke t w = (Ok t', w) /\
      Token_ExpiresAt t' = Add (clock w) (-1 * time_Hour) /\
      Token_UserID t' = Token_UserID t /\
      Token_RefreshToken t' = Token_RefreshToken t /\
      fst (Token_IsExpired t' (set_clock later w)) = Ok true /\
      fst (Token_IsValid t' (set_clock later w)) = Ok false /\
      (exists e, fst (Token_Validate t' (set_clock later w)) = Ok (Some e)) /\
      active_at later (Token_RefreshToken t) t' = false /\
      (hd false (faults w) = false ->
       forall r, In r (tokens (snd (tokenRepository_RevokeAllUserTokens (Token_UserID t) w))) ->
                 Token_UserID r = Token_UserID t ->
                 Token_ExpiresAt r = Token_ExpiresAt t').
Proof.
  intros t w later Hl. eexists. split; [reflexivity|].
  assert (Hh : 0 < time_Hour) by (vm_compute; reflexivity).
  cbn [Token_ExpiresAt Token_UserID Token_RefreshToken set_Token_expiry].
  split; [reflexivity|]. split; [reflexivity|]. split; [reflexivity|].
  assert (Hlt : (Add (clock w) (-1 * time_Hour) <? later) = true).
  { apply Z.ltb_lt. unfold Add. lia. }
  split.
  { unfold Token_IsExpired. run. unfold After.
    cbn [Token_ExpiresAt set_Token_expiry]. rewrite Hlt. reflexivity. }
  split.
  { unfold Token_IsValid, Token_IsExpired. run. unfold After.
    cbn [Token_ExpiresAt set_Token_expiry]. rewrite Hlt. reflexivity. }
  split.
  { unfold Token_Validate.
    cbn [Token_ExpiresAt Token_UserID Token_RefreshToken set_Token_expiry].
    destruct (Token_UserID t =? "")%string; [eexists; reflexivity|].
    destruct (is_empty_token (Token_RefreshToken t)); [eexists; reflexivity|].
    destruct (IsZero _); [eexists; reflexivity|]. run. unfold Before.
    rewrite Hlt. eexists; reflexivity. }
  split.
  { unfold active_at. cbn [Token_ExpiresAt set_Token_expiry].
    apply andb_false_iff. right. apply Z.ltb_ge. unfold Add. lia. }
  intros Hf r Hr Hu. rewrite RevokeAllUserTokens_run, Hf in Hr.
  cbn [snd tokens set_tokens set_faults] in Hr.
  apply in_map_iff in Hr. destruct Hr as [r0 [Hr0 _]].
  destruct (String.eqb_spec (Token_UserID r0) (Token_UserID t)) as [E|E].
  - subst r. reflexivity.
  - subst r. contradiction.
Qed.

(** X29 at the sample session, one minute after the revocation. *)
Lemma revoked_token_is_dead_witness :
  exists t',
    Token_Revoke sample_session sample_world = (Ok t', sample_world) /\
    Token_ExpiresAt t' = Add (clock sample_world) (-1 * time_Hour) /\
    Token_UserID t' = Token_UserID sample_session /\
    Token_RefreshToken t' = Token_RefreshToken sample_session /\
    fst (Token_IsExpired t' (set_clock (clock sample_world + 60 * time_Second) sample_world))
    = Ok true /\
    fst (Token_IsValid t' (set_clock (clock sample_world + 60 * time_Second) sample_world))
    = Ok false /\
    (exists e, fst (Token_Validate t'
                      (set_clock (clock sample_world + 60 * time_Second) sample_world))
               = Ok (Some e)) /\
    active_at (clock sample_world + 60 * time_Second)
      (Token_RefreshToken sample_session) t' = false /\
    (hd false (faults sample_world) = false ->
     forall r, In r (tokens (snd (tokenRepository_RevokeAllUserTokens
                                    (Token_UserID sample_session) sample_world))) ->
               Token_UserID r = Token_UserID sample_session ->
               Token_ExpiresAt r = Token_ExpiresAt t').
Proof.
  apply (revoked_token_is_dead sample_session sample_world
           (clock sample_world + 60 * time_Second)).
  vm_compute. discriminate.
Defined.
